(** * cloudops-mcp-server: a shallow embedding of [main.py]

    The first half of the file embeds the program, in the order of the
    source: Python's built-in containers as the code uses them, the date
    range of the cost analysis, the credential store and the client cache,
    the tools and their institution guard, the organizational-unit walk of
    [get_projects], the SSO user hierarchy of [get_users], and the cost and
    budget analysis of [check_budget]; then the helpers around them: the
    loading of the credentials, the redaction of responses, the validation
    of the date range, the unit paths, the fetches from the directory, the
    ARN of [get_tags], the user lookup and the health check.  The second
    half states and proves the properties of each part, and ends with
    examples. *)

From Stdlib Require Import List String Ascii Bool ZArith Lia Permutation.
From Stdlib Require Import Floats Uint63.
From Stdlib Require OrderedTypeEx.
Import ListNotations.

Set Implicit Arguments.

Open Scope string_scope.
Open Scope list_scope.
(* ===================================================================== *)
(** * Python values the server relies on *)
(* ===================================================================== *)

(** ** Truthiness of [Optional[str]] arguments: [None] and [""] are falsy. *)

Definition truthy (o : option string) : bool :=
  match o with
  | Some s => negb (String.eqb s "")
  | None => false
  end.

(** ** Dictionaries

    A Python [dict] keeps its keys unique and in insertion order; assigning
    to a key that is present replaces the value where the key stands, and
    assigning to a new key appends it. *)

Section Dict.
Variable V : Type.

Definition dict := list (string * V).

Fixpoint dict_get (k : string) (d : dict) : option V :=
  match d with
  | [] => None
  | (k', v) :: d' => if String.eqb k k' then Some v else dict_get k d'
  end.

Definition dict_mem (k : string) (d : dict) : bool :=
  match dict_get k d with Some _ => true | None => false end.

Fixpoint dict_set (k : string) (v : V) (d : dict) : dict :=
  match d with
  | [] => [(k, v)]
  | (k', v') :: d' =>
      if String.eqb k k' then (k, v) :: d' else (k', v') :: dict_set k v d'
  end.

Definition dict_keys (d : dict) : list string := map fst d.
Definition dict_values (d : dict) : list V := map snd d.

(** [d.get(k, default)] *)
Definition dict_get_default (k : string) (default : V) (d : dict) : V :=
  match dict_get k d with Some v => v | None => default end.
End Dict.

Arguments dict_get {V} k d.
Arguments dict_mem {V} k d.
Arguments dict_set {V} k v d.
Arguments dict_keys {V} d.
Arguments dict_values {V} d.
Arguments dict_get_default {V} k default d.

(** ** Membership in a list of strings: [x in l]. *)

Definition str_in (x : string) (l : list string) : bool :=
  existsb (String.eqb x) l.

(** ** [sorted(l, key=...)]: a stable sort, here by insertion from the right.
    An element is placed before the first element whose key is not smaller,
    so elements with equal keys keep the order they came in. *)

Section Sorted.
Variables (A K : Type) (leb : K -> K -> bool) (key : A -> K).

Fixpoint insert_sorted (x : A) (l : list A) : list A :=
  match l with
  | [] => [x]
  | y :: l' =>
      if leb (key x) (key y) then x :: y :: l' else y :: insert_sorted x l'
  end.

Fixpoint sorted (l : list A) : list A :=
  match l with
  | [] => []
  | x :: l' => insert_sorted x (sorted l')
  end.
End Sorted.

(** [','.join(l)] *)
Fixpoint join (sep : string) (l : list string) : string :=
  match l with
  | [] => ""
  | [x] => x
  | x :: l' => (x ++ sep ++ join sep l')%string
  end.

(** ** Small helpers *)

Definition is_empty {A : Type} (l : list A) : bool :=
  match l with [] => true | _ => false end.

Definition or_default {A : Type} (o : option A) (default : A) : A :=
  match o with Some a => a | None => default end.

(* ===================================================================== *)
(** * Dates: [_get_date_range] *)
(* ===================================================================== *)

(** [datetime.date]: a day of the proleptic Gregorian calendar, years 1 to
    9999. *)
Record date := mkdate { year : Z; month : Z; day : Z }.

Definition is_leap (y : Z) : bool :=
  ((y mod 4 =? 0) && (negb (y mod 100 =? 0) || (y mod 400 =? 0)))%Z.

Definition days_in_month (y m : Z) : Z :=
  match m with
  | 2 => if is_leap y then 29 else 28
  | 4 | 6 | 9 | 11 => 30
  | _ => 31
  end%Z.

Definition valid_date (d : date) : Prop :=
  (1 <= year d <= 9999 /\ 1 <= month d <= 12 /\
   1 <= day d <= days_in_month (year d) (month d))%Z.

(** [d.replace(day=1)] *)
Definition replace_day1 (d : date) : date := mkdate (year d) (month d) 1.

(** [d.toordinal()], as [datetime.py] computes it: the number of the day,
    counting from 0001-01-01 as day 1. *)
Definition days_before_year (y : Z) : Z :=
  (let y1 := y - 1 in y1 * 365 + y1 / 4 - y1 / 100 + y1 / 400)%Z.

Definition days_before_month (y m : Z) : Z :=
  (match m with
   | 1 => 0 | 2 => 31 | 3 => 59 | 4 => 90 | 5 => 120 | 6 => 151
   | 7 => 181 | 8 => 212 | 9 => 243 | 10 => 273 | 11 => 304 | _ => 334
   end + (if (2 <? m) && is_leap y then 1 else 0))%Z.

Definition toordinal (d : date) : Z :=
  (days_before_year (year d) + days_before_month (year d) (month d) + day d)%Z.

(** [d - timedelta(days=1)]: the day before [d], that is the date whose
    ordinal is one less; Python raises [OverflowError] before 0001-01-01,
    which is [None] here. *)
Definition minus_one_day (d : date) : option date :=
  if (1 <? day d)%Z then Some (mkdate (year d) (month d) (day d - 1))
  else if (1 <? month d)%Z then
    Some (mkdate (year d) (month d - 1) (days_in_month (year d) (month d - 1)))
  else if (1 <? year d)%Z then Some (mkdate (year d - 1) 12 31)
  else None.

(** [if start_date and end_date]: both given and non-empty. *)
Definition explicit_pair (start_date end_date : option string) : option (string * string) :=
  match start_date, end_date with
  | Some s, Some e => if truthy start_date && truthy end_date then Some (s, e) else None
  | _, _ => None
  end.

(** [period == name] *)
Definition period_is (period : option string) (name : string) : bool :=
  match period with
  | Some p => String.eqb p name
  | None => false
  end.

Section DateRange.
(** The two parsers of the explicit branch are the standard library's:
    [parse_iso s] stands for
    [datetime.fromisoformat(s.replace('Z', '+00:00')).date()] and
    [parse_ymd s] for [datetime.strptime(s[:10], '%Y-%m-%d').date()];
    [None] is a [ValueError]. *)
Variables parse_iso parse_ymd : string -> option date.

(** [_get_date_range(period, start_date, end_date)], with today's date
    (read from the clock in the source) as an argument.  [None] is an
    exception leaving the function. *)
Definition _get_date_range (today : date) (period start_date end_date : option string)
  : option (date * date) :=
  match explicit_pair start_date end_date with
  | Some (s, e) =>
      match parse_iso s, parse_iso e with
      | Some start, Some end_ => Some (start, end_)
      | _, _ =>
          (* except ValueError: fall back to the first ten characters *)
          match parse_ymd s, parse_ymd e with
          | Some start, Some end_ => Some (start, end_)
          | _, _ => None
          end
      end
  | None =>
      if period_is period "past_month" then
        let first_day_current := replace_day1 today in
        match minus_one_day first_day_current with
        | Some last_day_previous =>
            let first_day_previous := replace_day1 last_day_previous in
            Some (first_day_previous, last_day_previous)
        | None => None
        end
      else if period_is period "current_month" then
        Some (replace_day1 today, today)
      else
        Some (replace_day1 today, today)
  end.
End DateRange.

(** The calendar month before the one of [d], as (year, month). *)
Definition previous_month (d : date) : Z * Z :=
  if (month d =? 1)%Z then (year d - 1, 12)%Z else (year d, month d - 1)%Z.

(* ===================================================================== *)
(** * The credential store and the client cache *)
(* ===================================================================== *)

(** One institution's entry of [secrets.json]: a [Dict[str, str]]. *)
Definition Credentials := dict string.

(** The global [institutions_credentials]: [None] until
    [initialize_aws_credentials] has run. *)
Definition CredentialStore := option (dict Credentials).

Definition get_available_institutions (store : CredentialStore) : list string :=
  match store with
  | Some d => if is_empty d then [] else dict_keys d
  | None => []
  end.

Definition get_institution_credentials (store : CredentialStore) (institution_name : string)
  : option Credentials :=
  match store with
  | Some d =>
      if is_empty d then None
      else if negb (dict_mem institution_name d) then None
      else dict_get institution_name d
  | None => None
  end.

(** [institution_name in (institutions_credentials or {})] *)
Definition validate_institution (store : CredentialStore) (institution_name : string) : bool :=
  match store with
  | Some d => dict_mem institution_name d
  | None => false
  end.

(** A client object as [boto3.client] returns it.  [client_id] is the
    identity of the Python object: two values are the same instance exactly
    when their [client_id] agree.  The other fields are what the client was
    constructed with. *)
Record Client := mkClient {
  client_id : nat;
  client_service : string;
  client_access_key : string;
  client_secret_key : string;
  client_region : string
}.

(** The global [aws_clients_cache], together with the number of client
    objects constructed so far (the next fresh identity). *)
Record ClientState := mkClientState {
  aws_clients_cache : dict Client;
  next_client_id : nat
}.

Definition initial_clients : ClientState := mkClientState [] 0.

(** [f"{service}_{institution}_{region}"] *)
Definition cache_key (service institution region : string) : string :=
  (service ++ "_" ++ institution ++ "_" ++ region)%string.

Section ClientCache.
(** [boto3.client(service, aws_access_key_id=..., aws_secret_access_key=...,
    region_name=...)] either returns a new object or raises; [boto3_ok]
    says which. *)
Variable boto3_ok : string -> string -> string -> string -> bool.

Variable store : CredentialStore.

(** [get_aws_client(service, institution, region)]: the returned value
    ([None] as in the source) and the cache afterwards. *)
Definition get_aws_client (st : ClientState) (service institution region : string)
  : option Client * ClientState :=
  let key := cache_key service institution region in
  match dict_get key (aws_clients_cache st) with
  | Some client => (Some client, st)
  | None =>
      match get_institution_credentials store institution with
      | None => (None, st)
      | Some credentials =>
          if is_empty credentials then (None, st)
          else
            match dict_get "aws_access_key_id" credentials,
                  dict_get "aws_secret_access_key" credentials with
            | Some access_key, Some secret_key =>
                if boto3_ok service access_key secret_key region then
                  let client :=
                    mkClient (next_client_id st) service access_key secret_key region in
                  (Some client,
                   mkClientState (dict_set key client (aws_clients_cache st))
                                 (S (next_client_id st)))
                else (None, st)
            | _, _ => (None, st) (* KeyError, caught by the handler *)
            end
      end
  end.
End ClientCache.

(** The invariant of a cache that [get_aws_client] alone has filled: every
    cached instance was constructed before, and sits under one key only. *)
Definition cache_fresh (st : ClientState) : Prop :=
  (forall k c, dict_get k (aws_clients_cache st) = Some c ->
               client_id c < next_client_id st)
  /\ (forall k1 k2 c1 c2,
         dict_get k1 (aws_clients_cache st) = Some c1 ->
         dict_get k2 (aws_clients_cache st) = Some c2 ->
         client_id c1 = client_id c2 -> k1 = k2).

(* ===================================================================== *)
(** * The tools and their institution guard *)
(* ===================================================================== *)

(** The failures a tool reports before it does any work, told apart in the
    source by the text of their ["error"] field:
    - [f"Institution '{institution}' not found. Available institutions: {...}"],
    - ["inia module not available. Please install inia>=1.0.0 to use ..."];
    every other failure is [OtherFailure]. *)
Inductive ToolError :=
| UnknownInstitution (institution : string) (available : list string)
| IniaNotAvailable (purpose : string)
| OtherFailure (error : string).

(** A tool's response: [{"success": True, "data": ...}] or
    [{"success": False, "error": ...}]. *)
Inductive Response (Data : Type) :=
| Success (data : Data)
| Failure (error : ToolError).

Arguments Success {Data} data.
Arguments Failure {Data} error.

Definition is_unknown_institution {Data : Type} (r : Response Data) : bool :=
  match r with
  | Failure (UnknownInstitution _ _) => true
  | _ => false
  end.

Definition is_failure {Data : Type} (r : Response Data) : bool :=
  match r with
  | Failure _ => true
  | Success _ => false
  end.

Section Tools.
Variable Data : Type.

(** The module-level flag set by the optional import of [inia]. *)
Variable INIA_AVAILABLE : bool.

Variable store : CredentialStore.

(** What each tool does once its guards have passed, with the
    [except Exception] handler of the tool around it: always a response. *)
Variable list_available : list string -> Data.
Variable get_institutions_body : string -> option string -> bool -> Response Data.
Variable get_projects_body : string -> string -> bool -> Response Data.
Variable get_users_body : string -> option string -> bool -> bool -> Response Data.
Variable get_tags_body : string -> string -> option string -> Response Data.
Variable check_budget_body :
  string -> option string -> option string -> option string ->
  option (list string) -> string -> bool -> option string -> Response Data.
Variable verify_email_body : string -> string -> option string -> Response Data.
Variable reset_password_body : string -> string -> option string -> string -> Response Data.

Definition institution_not_found (institution : string) : Response Data :=
  Failure (UnknownInstitution institution (get_available_institutions store)).

Definition get_institutions (institution institution_type : option string)
    (include_details : bool) : Response Data :=
  match institution with
  | Some name =>
      if negb (truthy institution) then
        Success (list_available (get_available_institutions store))
      else if negb (validate_institution store name) then institution_not_found name
      else get_institutions_body name institution_type include_details
  | None => Success (list_available (get_available_institutions store))
  end.

Definition get_projects (institution institution_id : string)
    (include_aws_details : bool) : Response Data :=
  if negb (validate_institution store institution) then institution_not_found institution
  else get_projects_body institution institution_id include_aws_details.

Definition get_users (institution : string) (role_filter : option string)
    (include_groups include_assignments : bool) : Response Data :=
  if negb (validate_institution store institution) then institution_not_found institution
  else get_users_body institution role_filter include_groups include_assignments.

Definition get_tags (institution resource_arn : string) (resource_type : option string)
  : Response Data :=
  if negb (validate_institution store institution) then institution_not_found institution
  else get_tags_body institution resource_arn resource_type.

Definition check_budget (institution : string)
    (project_id start_date end_date : option string)
    (exclude_services : option (list string)) (granularity : string)
    (budget_check : bool) (period : option string) : Response Data :=
  if negb (validate_institution store institution) then institution_not_found institution
  else check_budget_body institution project_id start_date end_date
         exclude_services granularity budget_check period.

Definition verify_email (institution user_identifier : string) (user_id : option string)
  : Response Data :=
  if negb INIA_AVAILABLE then Failure (IniaNotAvailable "email verification")
  else if negb (validate_institution store institution) then
    institution_not_found institution
  else verify_email_body institution user_identifier user_id.

Definition reset_password (institution user_identifier : string) (user_id : option string)
    (mode : string) : Response Data :=
  if negb INIA_AVAILABLE then Failure (IniaNotAvailable "password reset")
  else if negb (validate_institution store institution) then
    institution_not_found institution
  else reset_password_body institution user_identifier user_id mode.
End Tools.

(* ===================================================================== *)
(** * The organizational-unit walk of [get_projects] *)
(* ===================================================================== *)

(** What the Organizations API answers for the tree below the root: each
    unit with its id, its name and the child units that
    [list_organizational_units_for_parent] yields for it, page after page,
    before the listing ends or raises [ClientError] (the handler keeps what
    was collected so far). *)
#[warnings="-register-all"]
Inductive OrgUnit :=
| OU (Id Name : string) (children : list OrgUnit).

(** A unit as [get_all_ous] emits it: the API's dict with the two keys the
    walk adds. *)
Record OuRecord := mkOu {
  ou_Id : string;
  ou_Name : string;
  ou_Level : nat;
  ou_ParentId : string
}.

(** The body of the loop of [get_all_ous(parent_id, level)] for one listed
    unit: emit it, then the units below it. *)
Fixpoint walk_ou (parent_id : string) (level : nat) (ou : OrgUnit) : list OuRecord :=
  match ou with
  | OU id name children =>
      mkOu id name level parent_id :: flat_map (walk_ou id (level + 1)) children
  end.

(** [get_all_ous(parent_id, level=0)], where [listed] is what the API lists
    under [parent_id]. *)
Definition get_all_ous (parent_id : string) (level : nat) (listed : list OrgUnit)
  : list OuRecord :=
  flat_map (walk_ou parent_id level) listed.

(** [max(l)] over naturals, for a list the caller knows is not empty. *)
Definition list_max_nat (l : list nat) : nat := fold_right Nat.max 0 l.

(** ["max_ou_level": max([ou.get('Level', 0) for ou in all_ous]) if all_ous else 0] *)
Definition max_ou_level (all_ous : list OuRecord) : nat :=
  if is_empty all_ous then 0 else list_max_nat (map ou_Level all_ous).

(** The walk as [get_projects] starts it: [all_ous = get_all_ous(root_id)]. *)
Definition all_ous_of (root_id : string) (top : list OrgUnit) : list OuRecord :=
  get_all_ous root_id 0 top.

(** ** Depth as the specification counts it: the root is at depth 0 and a
    unit is one deeper than its parent. *)

Fixpoint unit_height (ou : OrgUnit) : nat :=
  match ou with
  | OU _ _ children => 1 + list_max_nat (map unit_height children)
  end.

(** Depth of the deepest unit below a root at depth 0 (0 when there is
    none). *)
Definition tree_depth (top : list OrgUnit) : nat :=
  list_max_nat (map unit_height top).

(* ===================================================================== *)
(** * The SSO user hierarchy of [get_users] *)
(* ===================================================================== *)

(** An entry of a user's ['Emails'] list as [_fetch_sso_users] stores it. *)
Record Email := mkEmail {
  email_Value : string;
  email_Primary : bool;
  email_Status : string
}.

(** A value of the [users] dict, keyed by user id. *)
Record User := mkUser {
  user_DisplayName : string;
  user_UserName : string;
  user_Emails : list Email;
  user_Active : bool;
  user_Sent : bool;
  user_Reset : bool
}.

(** A value of the [groups] dict, keyed by group id. *)
Record Group := mkGroup {
  group_DisplayName : string;
  group_Description : string;
  group_Members : list string;
  group_SubGroups : list string
}.

(** [assignments = {'User': {...}, 'Group': {...}}]: principal id to the
    account ids it is assigned. *)
Record Assignments := mkAssignments {
  assigned_User : dict (list string);
  assigned_Group : dict (list string)
}.

Definition no_assignments : Assignments := mkAssignments [] [].

(** ** [_fetch_sso_users] *)

(** A user and an email address as the Identity Store lists them; a key
    that may be missing from the API's dict is an [option]. *)
Record ApiEmail := mkApiEmail {
  api_Value : option string;
  api_Primary : option bool
}.

Record ApiUser := mkApiUser {
  api_UserId : string;
  api_DisplayName : option string;
  api_UserName : option string;
  api_Emails : list ApiEmail
}.

Definition fetch_email (email : ApiEmail) : Email :=
  mkEmail (or_default (api_Value email) "")
          (or_default (api_Primary email) false)
          (if or_default (api_Primary email) false then "Verified" else "Not_Verified").

Definition fetch_user (user : ApiUser) : User :=
  mkUser (or_default (api_DisplayName user) (or_default (api_UserName user) "Unknown"))
         (or_default (api_UserName user) "")
         (map fetch_email (api_Emails user))
         true (* SSO users are typically active *)
         false
         false.

(** [_fetch_sso_users]: [list_users] answers with a list of users, or
    raises ([None]), which leaves the dict empty. *)
Definition _fetch_sso_users (user_list : option (list ApiUser)) : dict User :=
  match user_list with
  | Some listed =>
      fold_left (fun users user => dict_set (api_UserId user) (fetch_user user) users)
                listed []
  | None => []
  end.

(** ** [_identify_group_owners] *)

(** [any(account in group_accounts for account in user_accounts)] *)
Definition overlaps (user_accounts group_accounts : list string) : bool :=
  existsb (fun account => str_in account group_accounts) user_accounts.

(** The owners of one group: the users of [users] with an assignment that
    overlaps the group's.  The source collects them in a [set] and turns it
    into a list, in no particular order; here they come in the order of the
    assignment dict, without repetition. *)
Definition group_owners_of (users : dict User) (assignments : Assignments)
    (group_accounts : list string) : list string :=
  nodup string_dec
    (map fst
       (filter (fun '(user_id, user_accounts) =>
                  dict_mem user_id users && overlaps user_accounts group_accounts)
               (assigned_User assignments))).

Definition _identify_group_owners (users : dict User) (groups : dict Group)
    (assignments : Assignments) : dict (list string) :=
  fold_left
    (fun owners '(group_id, group_accounts) =>
       if negb (dict_mem group_id groups) then owners
       else dict_set group_id (group_owners_of users assignments group_accounts) owners)
    (assigned_Group assignments) [].

(** ** [_build_user_hierarchy] *)

(** An entry of ['root_users']. *)
Record RootUser := mkRootUser {
  root_user_id : string;
  root_display_name : string;
  root_username : string;
  root_email : string;
  root_email_status : string;
  root_account_ids : list string;
  root_account_id_string : option string;
  root_status : string
}.

(** An entry of a group's ['owners'] or ['members']. *)
Record GroupUser := mkGroupUser {
  gu_user_id : string;
  gu_display_name : string;
  gu_username : string;
  gu_email : string;
  gu_email_status : string;
  gu_account_ids : list string;
  gu_status : string;
  gu_is_owner : bool
}.

(** An entry of ['groups']. *)
Record GroupEntry := mkGroupEntry {
  ge_group_id : string;
  ge_group_name : string;
  ge_description : string;
  ge_account_ids : list string;
  ge_owners : list GroupUser;
  ge_members : list GroupUser
}.

Record Hierarchy := mkHierarchy {
  root_users : list RootUser;
  groups_of : list GroupEntry
}.

(** The primary email and its status: the first email flagged primary,
    else the first email, else the defaults. *)
Definition primary_email (user : User) : string * string :=
  match user_Emails user with
  | [] => ("", "Not_Verified")
  | first :: _ =>
      match filter email_Primary (user_Emails user) with
      | primary :: _ => (email_Value primary, email_Status primary)
      | [] => (email_Value first, email_Status first)
      end
  end.

(** ['Enabled' if user['Active'] else 'Disabled'] *)
Definition status_of (user : User) : string :=
  if user_Active user then "Enabled" else "Disabled".

Definition root_user_entry (assignments : Assignments) (user_id : string) (user : User)
  : RootUser :=
  let user_accounts := dict_get_default user_id [] (assigned_User assignments) in
  let user_account_id :=
    if is_empty user_accounts then None
    else Some (join "," (sorted String.leb (fun a => a) user_accounts)) in
  mkRootUser user_id (user_DisplayName user) (user_UserName user)
    (fst (primary_email user)) (snd (primary_email user))
    user_accounts user_account_id (status_of user).

Definition owner_entry (assignments : Assignments) (owner_id : string) (owner : User)
  : GroupUser :=
  mkGroupUser owner_id (user_DisplayName owner) (user_UserName owner)
    (fst (primary_email owner)) (snd (primary_email owner))
    (dict_get_default owner_id [] (assigned_User assignments))
    (status_of owner) true.

Definition member_entry (member_id : string) (member : User) : GroupUser :=
  mkGroupUser member_id (user_DisplayName member) (user_UserName member)
    (fst (primary_email member)) (snd (primary_email member))
    [] (status_of member) false.

(** The loop over [owners[group_id]]: ids that are not users are skipped. *)
Definition group_owners_list (users : dict User) (assignments : Assignments)
    (group_owner_ids : list string) : list GroupUser :=
  flat_map (fun owner_id =>
              match dict_get owner_id users with
              | Some owner => [owner_entry assignments owner_id owner]
              | None => []
              end)
           group_owner_ids.

(** The loop over [group['Members']]: owners of the group and ids that are
    not users are skipped. *)
Definition group_members_list (users : dict User) (group_owner_ids : list string)
    (member_ids : list string) : list GroupUser :=
  flat_map (fun member_id =>
              if str_in member_id group_owner_ids then []
              else match dict_get member_id users with
                   | Some member => [member_entry member_id member]
                   | None => []
                   end)
           member_ids.

Definition group_entry (users : dict User) (assignments : Assignments)
    (group_owner_ids : list string) (group_id : string) (group : Group) : GroupEntry :=
  mkGroupEntry group_id (group_DisplayName group) (group_Description group)
    (dict_get_default group_id [] (assigned_Group assignments))
    (sorted String.leb gu_display_name
       (group_owners_list users assignments group_owner_ids))
    (sorted String.leb gu_display_name
       (group_members_list users group_owner_ids (group_Members group))).

Definition _build_user_hierarchy (users : dict User) (groups : dict Group)
    (assignments : Assignments) (owners : dict (list string)) : Hierarchy :=
  let group_owners_set := List.concat (dict_values owners) in
  let group_members_set := List.concat (map group_Members (dict_values groups)) in
  let root_users :=
    flat_map (fun '(user_id, user) =>
                if str_in user_id group_owners_set || str_in user_id group_members_set
                then []
                else [root_user_entry assignments user_id user])
             users in
  let group_hierarchy :=
    flat_map (fun '(group_id, group) =>
                match dict_get group_id owners with
                | None => []
                | Some group_owner_ids =>
                    [group_entry users assignments group_owner_ids group_id group]
                end)
             groups in
  mkHierarchy (sorted String.leb root_display_name root_users)
              (sorted String.leb ge_group_name group_hierarchy).

(** ** The part of [get_users] that builds and filters the hierarchy *)

Section GetUsers.
(** [role_matches role_filter l] stands for
    [role_filter.lower() in str(l).lower()]. *)
Variable role_matches : string -> list string -> bool.

Definition apply_role_filter (assignments : Assignments) (role_filter : option string)
    (user_hierarchy : Hierarchy) : Hierarchy :=
  match role_filter with
  | Some wanted =>
      if truthy role_filter then
        mkHierarchy
          (filter (fun user =>
                     role_matches wanted
                       (dict_get_default (root_user_id user) [] (assigned_User assignments)))
                  (root_users user_hierarchy))
          (filter (fun group =>
                     role_matches wanted
                       (dict_get_default (ge_group_id group) [] (assigned_Group assignments)))
                  (groups_of user_hierarchy))
      else user_hierarchy
  | None => user_hierarchy
  end.

(** The ["users"] field of the response of [get_users], from what the
    three fetches return. *)
Definition get_users_hierarchy (user_list : option (list ApiUser))
    (fetched_groups : dict Group) (fetched_assignments : Assignments)
    (role_filter : option string) (include_groups include_assignments : bool)
  : Hierarchy :=
  let users := _fetch_sso_users user_list in
  let groups := if include_groups then fetched_groups else [] in
  let assignments := if include_assignments then fetched_assignments else no_assignments in
  let owners :=
    if include_groups then _identify_group_owners users groups assignments else [] in
  let user_hierarchy := _build_user_hierarchy users groups assignments owners in
  apply_role_filter assignments role_filter user_hierarchy.
End GetUsers.

(* ===================================================================== *)
(** * Cost aggregation: [_process_cost_data] *)
(* ===================================================================== *)

Section CostAggregation.
(** The numbers that are accumulated.  The source parses every amount
    with [float] and adds with [+=]; here the amounts come parsed, and the
    aggregation is written over any number type with a zero and an
    addition, so that it can be run on binary64 floats as well as on
    exact numbers. *)
Variable num : Type.
Variable zero : num.
Variable add : num -> num -> num.

(** An entry of [processed_costs]. *)
Record CostData := mkCostData {
  total_cost : num;
  currency : string;
  services : dict num;
  daily_costs : dict num
}.

(** An entry of a result's ["Groups"]: [Keys = [account, service]] and
    the [UnblendedCost] metric. *)
Record CostGroup := mkCostGroup {
  Keys : string * string;
  Amount : num;
  Unit : string
}.

(** An entry of ["ResultsByTime"]. *)
Record ResultByTime := mkResultByTime {
  TimePeriod_Start : string;
  Groups : list CostGroup
}.

(** [d[k] = 0.0] when [k] is new, then [d[k] += amount]. *)
Definition add_to (k : string) (amount : num) (d : dict num) : dict num :=
  dict_set k (add (dict_get_default k zero d) amount) d.

(** The body of the inner loop, for the group [group] of a result that
    starts on [date]. *)
Definition add_group (date : string) (processed_costs : dict CostData)
    (group : CostGroup) : dict CostData :=
  let account_id := fst (Keys group) in
  let service := snd (Keys group) in
  let amount := Amount group in
  let entry :=
    dict_get_default account_id
      (mkCostData zero (Unit group) [] []) processed_costs in
  dict_set account_id
    (mkCostData (add (total_cost entry) amount)
                (currency entry)
                (add_to service amount (services entry))
                (add_to date amount (daily_costs entry)))
    processed_costs.

Definition _process_cost_data (raw_data : list ResultByTime) : dict CostData :=
  fold_left
    (fun processed_costs result =>
       fold_left (add_group (TimePeriod_Start result)) (Groups result) processed_costs)
    raw_data [].

(** What the aggregator reports for an account, a service of an account
    and a date of an account; [None] when the key is absent. *)
Definition account_total (costs : dict CostData) (account_id : string) : option num :=
  option_map total_cost (dict_get account_id costs).

Definition service_total (costs : dict CostData) (account_id service : string)
  : option num :=
  match dict_get account_id costs with
  | Some entry => dict_get service (services entry)
  | None => None
  end.

Definition daily_total (costs : dict CostData) (account_id date : string)
  : option num :=
  match dict_get account_id costs with
  | Some entry => dict_get date (daily_costs entry)
  | None => None
  end.

(** The (date, group) records of the pages, in the order the two loops
    visit them. *)
Definition records_of (raw_data : list ResultByTime) : list (string * CostGroup) :=
  flat_map (fun result => map (fun group => (TimePeriod_Start result, group))
                              (Groups result))
           raw_data.

Definition add_record (processed_costs : dict CostData) (record : string * CostGroup)
  : dict CostData :=
  add_group (fst record) processed_costs (snd record).

(** A running total that starts absent: each amount is added to what is
    there, or to zero. *)
Definition accumulate (start : option num) (amounts : list num) : option num :=
  fold_left (fun total amount => Some (add (or_default total zero) amount)) amounts start.

(** The amounts of the records that [selects] picks, in order. *)
Definition amounts_of (selects : string * CostGroup -> bool)
    (rs : list (string * CostGroup)) : list num :=
  map (fun r => Amount (snd r)) (filter selects rs).

(** Whether a key is there at all does not depend on the addition. *)
Definition present (total : option num) : bool :=
  match total with Some _ => true | None => false end.

(** The sum of the amounts from the left, starting at zero; absent when
    there is no amount. *)
Definition sum_from_zero (amounts : list num) : option num :=
  match amounts with
  | [] => None
  | _ :: _ => Some (fold_left add amounts zero)
  end.

(** The records that count for an account, for a service of an account
    and for a date of an account. *)
Definition of_account (account_id : string) (r : string * CostGroup) : bool :=
  String.eqb account_id (fst (Keys (snd r))).

Definition of_service (account_id service : string) (r : string * CostGroup) : bool :=
  String.eqb account_id (fst (Keys (snd r))) && String.eqb service (snd (Keys (snd r))).

Definition of_date (account_id date : string) (r : string * CostGroup) : bool :=
  String.eqb account_id (fst (Keys (snd r))) && String.eqb date (fst r).
End CostAggregation.

Arguments mkCostData {num} _ _ _ _.
Arguments mkCostGroup {num} _ _ _.
Arguments mkResultByTime {num} _ _.

(** The aggregator as the server runs it, on Python floats. *)
Definition process_cost_data_float (raw_data : list (ResultByTime float))
  : dict (CostData float) :=
  _process_cost_data 0%float PrimFloat.add raw_data.

(* ===================================================================== *)
(** * Budget analysis: [_analyze_project_budgets] and [_calculate_institution_costs] *)
(* ===================================================================== *)

(** ** Python's [round(x, 2)] and [max(0, x)] on floats *)

(** The integer nearest to [a / b], ties to the even one ([0 <= a],
    [0 < b]). *)
Definition round_half_even_div (a b : Z) : Z :=
  let q := (a / b)%Z in
  let r := (a mod b)%Z in
  match (2 * r ?= b)%Z with
  | Lt => q
  | Gt => (q + 1)%Z
  | Eq => if Z.even q then q else (q + 1)%Z
  end.

(** The integer nearest to [m * 2^e * 100], ties to even. *)
Definition scaled_hundredths (m : positive) (e : Z) : Z :=
  if (0 <=? e)%Z then (Zpos m * 100 * 2 ^ e)%Z
  else round_half_even_div (Zpos m * 100) (2 ^ (- e)).

(** [round(x, 2)]: the exact value of [x] is rounded to a whole number [n]
    of hundredths, ties to even, and the result is the float nearest to
    [n / 100].  Infinities, NaN and zeros round to themselves.  From 2^53
    hundredths on, floats lie more than a hundredth apart, so that the
    float nearest to [n / 100] is [x] itself. *)
Definition py_round2 (x : float) : float :=
  match Prim2SF x with
  | S754_finite s m e =>
      let n := scaled_hundredths m e in
      if (n <? 2 ^ 53)%Z then
        let q := (of_uint63 (Uint63.of_Z n) / 100)%float in
        if s then (- q)%float else q
      else x
  | _ => x
  end.

(** [max(0, x)]: [x] when [x > 0], else the first argument. *)
Definition py_max0 (x : float) : float :=
  if (0 <? x)%float then x else 0%float.

(** ** [sum(l)] on floats

    Up to CPython 3.11 the built-in adds from the left, starting at 0.
    From 3.12 on it adds floats with a compensation term (Neumaier's
    variant of Kahan's summation): the first float is added to the start
    value 0, every further float [x] goes into the running sum [f_result]
    while the rounding error of that addition goes into [c], and [c] is
    added at the end when it is not zero and finite. *)
Inductive SumAlgorithm := LeftToRight | Compensated.

Definition sum_left_to_right (l : list float) : float :=
  fold_left PrimFloat.add l 0%float.

(** [t = f_result + x; c += (f_result - t) + x if fabs(f_result) >= fabs(x)
    else (x - t) + f_result; f_result = t] *)
Definition compensated_step (acc : float * float) (x : float) : float * float :=
  let f_result := fst acc in
  let c := snd acc in
  let t := (f_result + x)%float in
  (t,
   if (PrimFloat.abs x <=? PrimFloat.abs f_result)%float
   then (c + ((f_result - t) + x))%float
   else (c + ((x - t) + f_result))%float).

Definition sum_compensated (l : list float) : float :=
  match l with
  | [] => 0%float
  | first :: rest =>
      let final := fold_left compensated_step rest ((0 + first)%float, 0%float) in
      if negb (PrimFloat.is_zero (snd final)) && PrimFloat.is_finite (snd final)
      then (fst final + snd final)%float
      else fst final
  end.

Definition py_sum (algorithm : SumAlgorithm) (l : list float) : float :=
  match algorithm with
  | LeftToRight => sum_left_to_right l
  | Compensated => sum_compensated l
  end.

(** [sorted(d.items(), key=lambda x: x[1], reverse=True)[:n]] *)
Definition top_services (n : nat) (d : dict float) : list (string * float) :=
  firstn n (sorted (fun a b => negb (a <? b)%float) snd d).

(** ** [_analyze_project_budgets] *)

(** An entry of ["projects"]. *)
Record ProjectAnalysis := mkProjectAnalysis {
  project_id : string;
  budget : float;
  actual_cost : float;
  budget_status : string;
  budget_utilization : float;
  remaining_budget : float;
  overage : float;
  project_currency : string;
  cost_breakdown : list (string * float)
}.

(** The ["summary"] of the analysis. *)
Record Summary := mkSummary {
  summary_total_cost : float;
  summary_total_budget : float;
  summary_overbudget_count : nat;
  summary_total_projects : nat;
  summary_budget_utilization : float;
  summary_remaining_budget : float
}.

Record Analysis := mkAnalysis {
  projects : list ProjectAnalysis;
  overbudget_projects : list ProjectAnalysis;
  summary : Summary
}.

Definition rounded_breakdown (top : list (string * float)) : list (string * float) :=
  map (fun '(service, cost) => (service, py_round2 cost)) top.

(** The entry the loop builds for one account. *)
Definition analyze_project (budgets : dict float) (account_id : string)
    (cost_data : CostData float) : ProjectAnalysis :=
  let budget := dict_get_default account_id 0%float budgets in
  let actual_cost := total_cost cost_data in
  let budget_utilization :=
    if (0 <? budget)%float then (actual_cost / budget * 100)%float else 0%float in
  let budget_status :=
    if (budget <? actual_cost)%float && (0 <? budget)%float
    then "overbudget" else "within_budget" in
  mkProjectAnalysis account_id budget actual_cost budget_status
    (py_round2 budget_utilization)
    (py_max0 (budget - actual_cost))
    (py_max0 (actual_cost - budget))
    (currency cost_data)
    (rounded_breakdown (top_services 5 (services cost_data))).

(** The state of the loop: the two lists and the running summary. *)
Record Running := mkRunning {
  run_projects : list ProjectAnalysis;
  run_overbudget : list ProjectAnalysis;
  run_total_cost : float;
  run_total_budget : float;
  run_overbudget_count : nat;
  run_total_projects : nat
}.

Definition analyze_step (budgets : dict float) (acc : Running)
    (item : string * CostData float) : Running :=
  let project_analysis := analyze_project budgets (fst item) (snd item) in
  let over := String.eqb (budget_status project_analysis) "overbudget" in
  mkRunning
    (run_projects acc ++ [project_analysis])
    (if over then run_overbudget acc ++ [project_analysis] else run_overbudget acc)
    (run_total_cost acc + actual_cost project_analysis)%float
    (run_total_budget acc + budget project_analysis)%float
    (if over then S (run_overbudget_count acc) else run_overbudget_count acc)
    (S (run_total_projects acc)).

Definition _analyze_project_budgets (costs : dict (CostData float)) (budgets : dict float)
  : Analysis :=
  let final := fold_left (analyze_step budgets) costs (mkRunning [] [] 0 0 0 0) in
  let total_cost := py_round2 (run_total_cost final) in
  let total_budget := py_round2 (run_total_budget final) in
  mkAnalysis (run_projects final) (run_overbudget final)
    (mkSummary total_cost total_budget
       (run_overbudget_count final) (run_total_projects final)
       (py_round2 (if (0 <? total_budget)%float
                   then (total_cost / total_budget * 100)%float else 0%float))
       (py_round2 (py_max0 (total_budget - total_cost)))).

(** ** [_calculate_institution_costs] *)

Record InstitutionTotals := mkInstitutionTotals {
  inst_total_cost : float;
  inst_total_budget : float;
  inst_remaining_budget : float;
  inst_budget_utilization : float;
  inst_top_services : list (string * float)
}.

(** The services of all accounts, added up in the order they are met. *)
Definition all_services_of (costs : dict (CostData float)) : dict float :=
  fold_left
    (fun all_services cost_data =>
       fold_left (fun acc '(service, cost) => add_to 0%float PrimFloat.add service cost acc)
                 (services cost_data) all_services)
    (dict_values costs) [].

(** [algorithm] is the summation of the interpreter that runs the code. *)
Definition _calculate_institution_costs (algorithm : SumAlgorithm)
    (costs : dict (CostData float)) (projects : list ProjectAnalysis)
  : InstitutionTotals :=
  let total_cost := py_sum algorithm (map (@total_cost float) (dict_values costs)) in
  let total_budget := py_sum algorithm (map budget projects) in
  mkInstitutionTotals
    (py_round2 total_cost)
    (py_round2 total_budget)
    (py_round2 (py_max0 (total_budget - total_cost)))
    (py_round2 (if (0 <? total_budget)%float
                then (total_cost / total_budget * 100)%float else 0%float))
    (rounded_breakdown (top_services 10 (all_services_of costs))).

(** The totals as [check_budget] computes them, from the projects of the
    analysis. *)
Definition institution_totals (algorithm : SumAlgorithm)
    (costs : dict (CostData float)) (budgets : dict float) : InstitutionTotals :=
  _calculate_institution_costs algorithm costs
    (projects (_analyze_project_budgets costs budgets)).

(** ** Signs of floats *)

(** Not below zero: zeros of either sign, NaN, and what has a clear sign
    bit. *)
Definition sf_nonneg (x : spec_float) : bool :=
  match x with
  | S754_zero _ | S754_nan => true
  | S754_infinity s | S754_finite s _ _ => negb s
  end.

(* ===================================================================== *)
(** * Loading the credentials: [initialize_aws_credentials] *)
(* ===================================================================== *)

(** [credentials.get(k)] is truthy: the key is there with a non-empty value. *)
Definition has_value (k : string) (credentials : Credentials) : bool :=
  truthy (dict_get k credentials).

(** [initialize_aws_credentials], from what [load_secrets_file()] returned
    ([None] when it raised) under its ['institutions'] key (the empty dict
    when the key is missing).  The global is assigned before it is checked;
    the result is the global afterwards and whether the function returned
    ([true]) or raised ([false]). *)
Definition initialize_aws_credentials (loaded : option (dict Credentials))
  : CredentialStore * bool :=
  match loaded with
  | None => (None, false)
  | Some institutions =>
      if is_empty institutions then (Some institutions, false)
      else if forallb (fun '(_, credentials) =>
                         has_value "aws_access_key_id" credentials
                         && has_value "aws_secret_access_key" credentials)
                      institutions
      then (Some institutions, true)
      else (Some institutions, false)
  end.

(* ===================================================================== *)
(** * The order of the organizational-unit walk *)
(* ===================================================================== *)

(** Whether every unit's parent is the root or a unit emitted before it:
    [seen] holds the ids met so far. *)
Fixpoint parents_first (seen : list string) (l : list OuRecord) : bool :=
  match l with
  | [] => true
  | r :: l' => str_in (ou_ParentId r) seen && parents_first (ou_Id r :: seen) l'
  end.

(* ===================================================================== *)
(** * Redaction of responses: [sanitize_aws_response] *)
(* ===================================================================== *)

(** A decoded JSON value, as an AWS response holds them.  The sanitiser
    never looks inside a scalar. *)
#[warnings="-register-all"]
Inductive Json :=
| JNull
| JBool (b : bool)
| JNum (n : Z)
| JStr (s : string)
| JList (elements : list Json)
| JDict (items : list (string * Json)).

Definition sensitive_keys : list string :=
  ["aws_access_key_id"; "aws_secret_access_key"; "secret_access_key"; "access_key"].

Definition REDACTED : Json := JStr "***REDACTED***".

Section Sanitize.
(** [lower] stands for [str.lower]. *)
Variable lower : string -> string.

(** [key.lower() in [...]] *)
Definition is_sensitive (key : string) : bool := str_in (lower key) sensitive_keys.

(** [sanitize_aws_response(data)].  The keys of a dict are distinct, so
    the assignments to [sanitized] fill it in the order of [data.items()]. *)
Fixpoint sanitize_aws_response (data : Json) : Json :=
  match data with
  | JDict items =>
      JDict
        (map (fun '(key, value) =>
                if is_sensitive key then (key, REDACTED)
                else
                  match value with
                  | JDict _ => (key, sanitize_aws_response value)
                  | JList elements =>
                      (key,
                       JList (map (fun item =>
                                     match item with
                                     | JDict _ => sanitize_aws_response item
                                     | _ => item
                                     end)
                                  elements))
                  | _ => (key, value)
                  end)
             items)
  | _ => data
  end.

(** [holds data key value]: the dict [data], or a dict that the sanitiser
    reaches from it (the value of a key, or an element of a list that is the
    value of a key), has [value] under [key]. *)
Inductive holds : Json -> string -> Json -> Prop :=
| holds_here items key value :
    In (key, value) items -> holds (JDict items) key value
| holds_in_dict items k sub key value :
    In (k, JDict sub) items -> holds (JDict sub) key value ->
    holds (JDict items) key value
| holds_in_list items k elements sub key value :
    In (k, JList elements) items -> In (JDict sub) elements ->
    holds (JDict sub) key value ->
    holds (JDict items) key value.
End Sanitize.

(** What the inductions below carry: the property at a value, and at the
    elements of a value that is a list. *)
Definition with_elements (P : Json -> Prop) (data : Json) : Prop :=
  P data /\ match data with JList elements => Forall P elements | _ => True end.

(* ===================================================================== *)
(** * Validation of the date range: [_validate_date_range] *)
(* ===================================================================== *)

(** [a < b] on [datetime.date]: the (year, month, day) triples are compared
    lexicographically. *)
Definition date_ltb (a b : date) : bool :=
  ((year a <? year b)
   || ((year a =? year b)
       && ((month a <? month b)
           || ((month a =? month b) && (day a <? day b)))))%Z.

(** [d - timedelta(days=n)]: the date [n] days before [d];
    [OverflowError] before 0001-01-01 is [None]. *)
Fixpoint minus_days (n : nat) (d : date) : option date :=
  match n with
  | 0 => Some d
  | S n' =>
      match minus_one_day d with
      | Some d' => minus_days n' d'
      | None => None
      end
  end.

(** [_validate_date_range(start_date, end_date)], with today's date (read
    from the clock in the source) as an argument.  [None] is the
    [OverflowError] of the subtraction. *)
Definition _validate_date_range (today start_date end_date : date) : option bool :=
  if date_ltb end_date start_date then Some false
  else if date_ltb today end_date then Some false
  else
    match minus_days 365 today with
    | Some max_past_date =>
        if date_ltb start_date max_past_date then Some false else Some true
    | None => None
    end.

(* ===================================================================== *)
(** * The path of a unit: the [ou_path] loop of [get_projects] *)
(* ===================================================================== *)

(** [for parent_ou in all_ous: if parent_ou['Id'] == current_parent: ... break]:
    the first unit with that id. *)
Definition find_ou (current_parent : string) (all_ous : list OuRecord) : option OuRecord :=
  find (fun parent_ou => String.eqb (ou_Id parent_ou) current_parent) all_ous.

(** The loop [while current_parent and current_parent != root_id], which
    puts the name of each unit found in front of [ou_path] and stops at the
    root, at an empty parent or at a parent that is not listed.  [fuel]
    bounds the number of tests of the loop condition; [None] when it runs
    out. *)
Fixpoint climb (fuel : nat) (root_id : string) (all_ous : list OuRecord)
    (current_parent : string) (ou_path : list string) : option (list string) :=
  match fuel with
  | 0 => None
  | S fuel' =>
      if negb (String.eqb current_parent "") && negb (String.eqb current_parent root_id)
      then
        match find_ou current_parent all_ous with
        | Some parent_ou =>
            climb fuel' root_id all_ous (ou_ParentId parent_ou)
                  (ou_Name parent_ou :: ou_path)
        | None => Some ou_path
        end
      else Some ou_path
  end.

(** [ou_path] for the unit [ou], before it is joined with [' > ']. *)
Definition ou_path_of (fuel : nat) (root_id : string) (all_ous : list OuRecord)
    (ou : OuRecord) : option (list string) :=
  climb fuel root_id all_ous (ou_ParentId ou) [ou_Name ou].

(* ===================================================================== *)
(** * Groups and assignments of the directory *)
(* ===================================================================== *)

(** ** [_fetch_sso_groups] *)

(** A group as [list_groups] lists it. *)
Record ApiGroup := mkApiGroup {
  api_GroupId : string;
  api_GroupDisplayName : string;
  api_GroupDescription : option string
}.

(** A membership as [list_group_memberships] lists it: the ['UserId'] of
    its ['MemberId'], when there is one. *)
Definition ApiMembership := option string.

(** [group['DisplayName'].startswith('AWS') and group.get('Description')] *)
Definition aws_managed (group : ApiGroup) : bool :=
  String.prefix "AWS" (api_GroupDisplayName group) && truthy (api_GroupDescription group).

Section FetchGroups.
(** [list_group_memberships(GroupId=...)]: the memberships, or [None] when
    the call raises. *)
Variable list_group_memberships : string -> option (list ApiMembership).

(** The entry stored for a group that is not skipped. *)
Definition fetch_group (group : ApiGroup) : Group :=
  mkGroup (api_GroupDisplayName group)
          (or_default (api_GroupDescription group) "")
          (match list_group_memberships (api_GroupId group) with
           | Some memberships =>
               flat_map (fun member_id : ApiMembership =>
                           match member_id with
                           | Some user_id => [user_id]
                           | None => []
                           end)
                        memberships
           | None => []
           end)
          [].

(** [_fetch_sso_groups]: [list_groups] answers with a list of groups, or
    raises ([None]), which leaves the dict empty. *)
Definition _fetch_sso_groups (group_list : option (list ApiGroup)) : dict Group :=
  match group_list with
  | Some listed =>
      fold_left (fun groups group =>
                   if aws_managed group then groups
                   else dict_set (api_GroupId group) (fetch_group group) groups)
                listed []
  | None => []
  end.
End FetchGroups.

(** ** [_fetch_sso_assignments] *)

(** The four calls of the SSO admin client that the fetch makes; [None] is
    a call that raises. *)
Record SsoAdmin := mkSsoAdmin {
  list_permission_sets : option (list string);
  (** the ['Name'] of the described permission set, when it has one *)
  describe_permission_set : string -> option (option string);
  list_accounts_for_provisioned_permission_set : string -> option (list string);
  (** by account id and permission set: the (PrincipalType, PrincipalId)
      pairs *)
  list_account_assignments : string -> string -> option (list (string * string))
}.

Definition processed_permission_sets : list string :=
  ["AWSAdministratorAccess"; "OrganizationAdmin"; "StudentAccess"].

(** [d.setdefault(k, []).append(x)] *)
Definition setdefault_append (k x : string) (d : dict (list string)) : dict (list string) :=
  dict_set k (dict_get_default k [] d ++ [x]) d.

Section FetchAssignments.
Variable sso_admin_client : SsoAdmin.

Definition add_assignment (account_id : string) (assignments : Assignments)
    (assignment : string * string) : Assignments :=
  let principal_type := fst assignment in
  let principal_id := snd assignment in
  if String.eqb principal_type "GROUP" then
    mkAssignments (assigned_User assignments)
                  (setdefault_append principal_id account_id (assigned_Group assignments))
  else if String.eqb principal_type "USER" then
    mkAssignments (setdefault_append principal_id account_id (assigned_User assignments))
                  (assigned_Group assignments)
  else assignments.

(** The body of the loop over the accounts of a permission set. *)
Definition add_account (permset_arn : string) (assignments : Assignments)
    (account_id : string) : Assignments :=
  match list_account_assignments sso_admin_client account_id permset_arn with
  | Some account_assignments =>
      fold_left (add_assignment account_id) account_assignments assignments
  | None => assignments
  end.

(** The body of the loop over the permission sets. *)
Definition add_permission_set (assignments : Assignments) (permset_arn : string)
  : Assignments :=
  match describe_permission_set sso_admin_client permset_arn with
  | Some name =>
      if negb (str_in (or_default name "") processed_permission_sets) then assignments
      else
        match list_accounts_for_provisioned_permission_set sso_admin_client permset_arn with
        | Some account_ids => fold_left (add_account permset_arn) account_ids assignments
        | None => assignments
        end
  | None => assignments
  end.

Definition _fetch_sso_assignments : Assignments :=
  match list_permission_sets sso_admin_client with
  | Some permission_sets => fold_left add_permission_set permission_sets no_assignments
  | None => no_assignments
  end.

(** The principal has the account through one of the processed permission
    sets: the set is listed, is described with one of the three names, is
    provisioned to the account, and the account's assignments for it name
    the principal. *)
Definition granted (principal_type principal_id account_id : string) : Prop :=
  exists permission_sets permset_arn name account_ids account_assignments,
    list_permission_sets sso_admin_client = Some permission_sets
    /\ In permset_arn permission_sets
    /\ describe_permission_set sso_admin_client permset_arn = Some name
    /\ str_in (or_default name "") processed_permission_sets = true
    /\ list_accounts_for_provisioned_permission_set sso_admin_client permset_arn
       = Some account_ids
    /\ In account_id account_ids
    /\ list_account_assignments sso_admin_client account_id permset_arn
       = Some account_assignments
    /\ In (principal_type, principal_id) account_assignments.
End FetchAssignments.

(** The accounts recorded for a principal of one of the two types. *)
Definition recorded (principal_type : string) (assignments : Assignments)
    (principal_id account_id : string) : Prop :=
  (principal_type = "USER"
   /\ In account_id (dict_get_default principal_id [] (assigned_User assignments)))
  \/ (principal_type = "GROUP"
      /\ In account_id (dict_get_default principal_id [] (assigned_Group assignments))).

(** ** Loops that fill a dict *)

(** The step of a loop that assigns [d[key a] = val a] for the elements it
    keeps. *)
Section FoldDictSet.
Variables (A V : Type) (keep : A -> bool) (key : A -> string) (val : A -> V).

Definition assign_kept (d : dict V) (a : A) : dict V :=
  if keep a then dict_set (key a) (val a) d else d.

End FoldDictSet.

(** ** [get_users], from the directory *)

(** The ["users"] field of the response of [get_users], from what the
    Identity Store and the SSO admin API answer. *)
Definition get_users_from_directory (role_matches : string -> list string -> bool)
    (user_list : option (list ApiUser)) (group_list : option (list ApiGroup))
    (list_group_memberships : string -> option (list ApiMembership))
    (sso_admin_client : SsoAdmin)
    (role_filter : option string) (include_groups include_assignments : bool)
  : Hierarchy :=
  get_users_hierarchy role_matches user_list
    (_fetch_sso_groups list_group_memberships group_list)
    (_fetch_sso_assignments sso_admin_client)
    role_filter include_groups include_assignments.

(** Every principal that is a key has an account recorded. *)
Definition keys_have_accounts (d : dict (list string)) : Prop :=
  forall principal_id,
    In principal_id (dict_keys d) <->
    exists account_id, In account_id (dict_get_default principal_id [] d).

(** ** The order of a list *)

(** [l] is in ascending order of its keys: no element is followed by one
    with a smaller key. *)
Fixpoint ascending (A : Type) (key : A -> string) (l : list A) : Prop :=
  match l with
  | [] => True
  | x :: l' =>
      (forall y, In y l' -> String.leb (key x) (key y) = true) /\ ascending key l'
  end.

(* ===================================================================== *)
(** * The overbudget test of [_analyze_project_budgets] *)
(* ===================================================================== *)

(** [budget_status == "overbudget"] *)
Definition is_overbudget (p : ProjectAnalysis) : bool :=
  String.eqb (budget_status p) "overbudget".

(* ===================================================================== *)
(** * The resource ARN of [get_tags] *)
(* ===================================================================== *)

(** [s.split(sep)] for a separator of one character: the pieces between
    the separators, of which there is always at least one. *)
Fixpoint split (sep : ascii) (s : string) : list string :=
  match s with
  | EmptyString => [""]
  | String c s' =>
      if Ascii.eqb c sep then "" :: split sep s'
      else
        match split sep s' with
        | part :: parts => String c part :: parts
        | [] => [String c ""]
        end
  end.

(** The three fields that [get_tags] reads from [resource_arn]:
    [service], [region] and [resource_id]; [None] is the answer
    ["Invalid ARN format"]. *)
Definition arn_fields (resource_arn : string) : option (string * string * string) :=
  let arn_parts := split ":" resource_arn in
  if (List.length arn_parts <? 6)%nat then None
  else Some (nth 2 arn_parts "", nth 3 arn_parts "", nth 5 arn_parts "").

(** The number of occurrences of a character. *)
Fixpoint count_char (c : ascii) (s : string) : nat :=
  match s with
  | EmptyString => 0
  | String c' s' => (if Ascii.eqb c' c then 1 else 0) + count_char c s'
  end.

(* ===================================================================== *)
(** * Looking a user up: [_find_user_by_identifier] *)
(* ===================================================================== *)

(** [needle in hay] on strings. *)
Fixpoint contains (needle hay : string) : bool :=
  String.prefix needle hay
  || match hay with
     | EmptyString => false
     | String _ hay' => contains needle hay'
     end.

(** The dict that the search returns. *)
Record FoundUser := mkFoundUser {
  found_user_id : string;
  found_display_name : string;
  found_email : string;
  found_username : string
}.

Section FindUser.
(** [lower] stands for [str.lower]. *)
Variable lower : string -> string.

(** The value of the first email flagged primary, and when that gives
    nothing, the value of the first email. *)
Definition lookup_email (user : ApiUser) : string :=
  let user_email :=
    match find (fun email => or_default (api_Primary email) false) (api_Emails user) with
    | Some email => or_default (api_Value email) ""
    | None => ""
    end in
  if String.eqb user_email "" then
    match api_Emails user with
    | first :: _ => or_default (api_Value first) ""
    | [] => user_email
    end
  else user_email.

Definition lookup_entry (user : ApiUser) : FoundUser :=
  mkFoundUser (api_UserId user)
    (or_default (api_DisplayName user) (or_default (api_UserName user) ""))
    (lookup_email user)
    (or_default (api_UserName user) "").

(** The test of the loop: the identifier is part of the email, of the
    display name or of the user name, letter case apart, or is the user
    id. *)
Definition identifies (user_identifier : string) (user : ApiUser) : bool :=
  let entry := lookup_entry user in
  contains (lower user_identifier) (lower (found_email entry))
  || contains (lower user_identifier) (lower (found_display_name entry))
  || contains (lower user_identifier) (lower (found_username entry))
  || String.eqb user_identifier (found_user_id entry).

(** The search of [_find_user_by_identifier] over what [list_users]
    answers ([None] when the call raises, or when no identity store or
    client could be had before it). *)
Definition _find_user_by_identifier (user_list : option (list ApiUser))
    (user_identifier : string) : option FoundUser :=
  match user_list with
  | Some users => option_map lookup_entry (find (identifies user_identifier) users)
  | None => None
  end.
End FindUser.

(* ===================================================================== *)
(** * [health_check] *)
(* ===================================================================== *)

(** The ["health"] dict of the answer, without its constant fields. *)
Record Health := mkHealth {
  credentials_loaded : bool;
  available_institutions : list string;
  institution_count : nat;
  institution_status : dict string;
  aws_clients_cached : nat
}.

Section HealthCheck.
Variable boto3_ok : string -> string -> string -> string -> bool.
(** [orgs_client.describe_organization()]: [None] when it returns, and the
    text of the exception when it raises. *)
Variable describe_organization : Client -> option string.
Variable store : CredentialStore.

(** The body of the loop over the available institutions. *)
Definition check_institution (acc : dict string * ClientState) (institution_name : string)
  : dict string * ClientState :=
  let result :=
    get_aws_client boto3_ok store (snd acc) "organizations" institution_name "us-east-1" in
  match fst result with
  | Some orgs_client =>
      (dict_set institution_name
         (match describe_organization orgs_client with
          | None => "connected"
          | Some e => ("error: " ++ e)%string
          end)
         (fst acc),
       snd result)
  | None => (fst acc, snd result)
  end.

Definition health_check (st : ClientState) : Health * ClientState :=
  let loaded := match store with Some _ => true | None => false end in
  let available := get_available_institutions store in
  let checked :=
    if loaded then fold_left check_institution available ([], st) else ([], st) in
  (mkHealth loaded available (List.length available) (fst checked)
            (List.length (aws_clients_cache (snd checked))),
   snd checked).

(** A client for the Organizations API of the institution can be had:
    [get_aws_client] answers with one. *)
Definition has_client (st : ClientState) (institution_name : string) : bool :=
  match fst (get_aws_client boto3_ok store st "organizations" institution_name "us-east-1") with
  | Some _ => true
  | None => false
  end.
End HealthCheck.

(* ===================================================================== *)
(** * Example data *)
(* ===================================================================== *)

(** Two institutions whose names differ by an underscore. *)
Definition two_institutions : CredentialStore :=
  Some [ ("a_b", [("aws_access_key_id", "AKIA-A-B"); ("aws_secret_access_key", "secret-a-b")]);
         ("a",   [("aws_access_key_id", "AKIA-A");   ("aws_secret_access_key", "secret-a")]) ].

(** A constructor that refuses every service or region with an underscore
    in its name, as botocore does for regions. *)
Fixpoint has_underscore (s : string) : bool :=
  match s with
  | EmptyString => false
  | String c s' => Ascii.eqb c "_" || has_underscore s'
  end.

Definition strict_boto3 (service access_key secret_key region : string) : bool :=
  negb (has_underscore service) && negb (has_underscore region).

(** A store with one institution. *)
Definition one_institution : CredentialStore :=
  Some [("grnet", [("aws_access_key_id", "AKIA-G"); ("aws_secret_access_key", "secret-g")])].

(** Two groups, of which only ["g1"] has an account assignment, and one
    user who is a member of the other. *)
Definition lone_member_users : dict User :=
  [("u1", mkUser "Ada" "ada" [] true false false)].

Definition lone_member_groups : dict Group :=
  [("g1", mkGroup "Admins" "" [] []); ("g2", mkGroup "Guests" "" ["u1"] [])].

Definition lone_member_assignments : Assignments :=
  mkAssignments [] [("g1", ["111111111111"])].

(** A small directory. *)
Definition demo_user_list : option (list ApiUser) :=
  Some [ mkApiUser "u1" (Some "Ada") (Some "ada")
           [mkApiEmail (Some "ada@example.org") (Some true)];
         mkApiUser "u2" (Some "Bob") (Some "bob") [];
         mkApiUser "u3" None (Some "cy") [] ].

Definition demo_groups : dict Group :=
  [("g1", mkGroup "Admins" "" ["u1"; "u2"] [])].

Definition demo_assignments : Assignments :=
  mkAssignments [("u1", ["111111111111"])] [("g1", ["111111111111"])].

Definition demo_hierarchy : Hierarchy :=
  get_users_hierarchy (fun _ _ => true) demo_user_list demo_groups demo_assignments
    None true true.

Definition demo_group : GroupEntry :=
  group_entry (_fetch_sso_users demo_user_list) demo_assignments ["u1"] "g1"
    (mkGroup "Admins" "" ["u1"; "u2"] []).

Definition exact_pages : list (ResultByTime Z) :=
  [ mkResultByTime "2024-03-01"
      [mkCostGroup ("123456789012", "Amazon EC2") 10%Z "USD";
       mkCostGroup ("123456789012", "Amazon S3") 20%Z "USD"];
    mkResultByTime "2024-03-02"
      [mkCostGroup ("123456789012", "Amazon EC2") 30%Z "USD"] ].

(** Three daily pages for one account and one service, with the amounts
    0.1, 0.2 and 0.3 (the binary64 floats nearest to them). *)
Definition one_tenth : float := 0x1.999999999999ap-4%float.
Definition two_tenths : float := 0x1.999999999999ap-3%float.
Definition three_tenths : float := 0x1.3333333333333p-2%float.

Definition float_page (date : string) (amount : float) : ResultByTime float :=
  mkResultByTime date [mkCostGroup ("123456789012", "Amazon EC2") amount "USD"].

Definition float_pages : list (ResultByTime float) :=
  [ float_page "2024-03-01" one_tenth;
    float_page "2024-03-02" two_tenths;
    float_page "2024-03-03" three_tenths ].

Definition cost_of (amount : float) : CostData float :=
  mkCostData amount "USD" [("Amazon EC2", amount)] [("2024-03-01", amount)].

(** One account with budget 100 and cost 33.333. *)
Definition third_spent : dict (CostData float) :=
  [("a", cost_of 0x1.0aa9fbe76c8b4p+5%float)].

Definition budget_hundred : dict float := [("a", 100%float)].

(** One account with budget 100.004 and cost 50.006. *)
Definition half_spent : dict (CostData float) :=
  [("a", cost_of 0x1.900c49ba5e354p+5%float)].

Definition budget_odd : dict float := [("a", 0x1.9004189374bc7p+6%float)].

(** Three accounts with the costs 450.71, 11.1708 and 354.8342. *)
Definition three_accounts : dict (CostData float) :=
  [("a", cost_of 0x1.c2b5c28f5c28fp+8%float);
   ("b", cost_of 0x1.6577318fc5048p+3%float);
   ("c", cost_of 0x1.62d58e219652cp+8%float)].

(** What [secrets.json] holds for [one_institution]. *)
Definition one_loaded : option (dict Credentials) :=
  Some [("grnet", [("aws_access_key_id", "AKIA-G"); ("aws_secret_access_key", "secret-g")])].

(** The cache after the first client for Cost Explorer was made. *)
Definition ce_client : Client := mkClient 0 "ce" "AKIA-G" "secret-g" "us-east-1".

Definition one_cached : ClientState := mkClientState [("ce_grnet_us-east-1", ce_client)] 1.

(** A unit with one unit below it. *)
Definition demo_units : list OrgUnit := [OU "ou-1" "Dev" [OU "ou-2" "Web" []]].

(** A response with a key pair in a nested dict, and one with a key in a
    list inside a list. *)
Definition demo_response : Json :=
  JDict [("User", JStr "ada");
         ("Credentials", JDict [("access_key", JStr "AKIA-G"); ("Expires", JNum 3600)])].

Definition demo_pages : list (string * Json) :=
  [("Pages", JList [JList [JDict [("access_key", JStr "AKIA-G")]]])].

(* ===================================================================== *)
(** * Properties of dictionaries and sorting *)
(* ===================================================================== *)

Section DictFacts.
Variable V : Type.
Implicit Types (d : dict V) (k : string) (v : V).

Lemma dict_get_set_eq d k v : dict_get k (dict_set k v d) = Some v.
Proof.
  induction d as [| [k' v'] d IH]; cbn.
  - now rewrite String.eqb_refl.
  - destruct (String.eqb k k') eqn:E; cbn; rewrite ?String.eqb_refl, ?E; auto.
Qed.

Lemma dict_get_set_ne d k k' v :
  k' <> k -> dict_get k' (dict_set k v d) = dict_get k' d.
Proof.
  intros Hne. induction d as [| [k0 v0] d IH]; cbn.
  - apply String.eqb_neq in Hne. now rewrite Hne.
  - destruct (String.eqb k k0) eqn:E; cbn.
    + apply String.eqb_eq in E. subst k0.
      apply String.eqb_neq in Hne. now rewrite Hne.
    + destruct (String.eqb k' k0); auto.
Qed.

Lemma dict_get_In d k v : dict_get k d = Some v -> In (k, v) d.
Proof.
  induction d as [| [k' v'] d IH]; cbn; [discriminate |].
  destruct (String.eqb k k') eqn:E.
  - apply String.eqb_eq in E. intros [= ->]. left. congruence.
  - intros H. right. auto.
Qed.

Lemma dict_mem_keys d k : dict_mem k d = true <-> In k (dict_keys d).
Proof.
  unfold dict_mem, dict_keys. induction d as [| [k' v'] d IH]; cbn.
  - split; [discriminate | tauto].
  - destruct (String.eqb k k') eqn:E.
    + apply String.eqb_eq in E. subst. tauto.
    + apply String.eqb_neq in E. rewrite IH. split; [tauto |].
      intros [H | H]; [congruence | exact H].
Qed.

Lemma dict_mem_get d k : dict_mem k d = true <-> exists v, dict_get k d = Some v.
Proof.
  unfold dict_mem. destruct (dict_get k d) as [v |].
  - split; [now exists v | reflexivity].
  - split; [discriminate | intros [v H]; discriminate].
Qed.

Lemma dict_keys_set d k v :
  forall k', In k' (dict_keys (dict_set k v d)) <-> k' = k \/ In k' (dict_keys d).
Proof.
  unfold dict_keys. induction d as [| [k0 v0] d IH]; intros k'; cbn.
  - intuition congruence.
  - destruct (String.eqb k k0) eqn:E; cbn.
    + apply String.eqb_eq in E. subst. intuition congruence.
    + rewrite IH. intuition congruence.
Qed.
End DictFacts.

Lemma str_in_In (x : string) (l : list string) : str_in x l = true <-> In x l.
Proof.
  unfold str_in. rewrite existsb_exists. split.
  - intros (y & Hy & E). apply String.eqb_eq in E. now subst.
  - intros H. exists x. split; [exact H | apply String.eqb_refl].
Qed.

Lemma str_in_false (x : string) (l : list string) : str_in x l = false <-> ~ In x l.
Proof.
  rewrite <- str_in_In. destruct (str_in x l); split; congruence.
Qed.

Lemma dict_set_In (V : Type) (d : dict V) (k k' : string) (v v' : V) :
  In (k, v) (dict_set k' v' d) -> (k, v) = (k', v') \/ In (k, v) d.
Proof.
  induction d as [| [k0 v0] d IH]; cbn.
  - intros [H | []]. now left.
  - destruct (String.eqb k' k0); cbn.
    + intros [H | H]; [now left | right; now right].
    + intros [H | H]; [right; now left |].
      destruct (IH H) as [E | E]; [now left | right; now right].
Qed.

Section SortedFacts.
Variables (A K : Type) (leb : K -> K -> bool) (key : A -> K).

Lemma insert_sorted_perm (x : A) (l : list A) :
  Permutation (insert_sorted leb key x l) (x :: l).
Proof.
  induction l as [| y l IH]; cbn; [reflexivity |].
  destruct (leb (key x) (key y)); [reflexivity |].
  rewrite IH. apply perm_swap.
Qed.

Lemma sorted_perm (l : list A) : Permutation (sorted leb key l) l.
Proof.
  induction l as [| x l IH]; cbn; [reflexivity |].
  rewrite insert_sorted_perm. now apply perm_skip.
Qed.

Lemma sorted_In (l : list A) (x : A) : In x (sorted leb key l) <-> In x l.
Proof.
  split; apply Permutation_in; [apply sorted_perm | symmetry; apply sorted_perm].
Qed.
End SortedFacts.

(* ===================================================================== *)
(** * Properties of the date range *)
(* ===================================================================== *)

Section DateRangeFacts.
Variables parse_iso parse_ymd : string -> option date.

Lemma minus_one_day_first (d : date) :
  valid_date d ->
  (1 < year d \/ 1 < month d)%Z ->
  minus_one_day (replace_day1 d) =
    Some (mkdate (fst (previous_month d)) (snd (previous_month d))
                 (days_in_month (fst (previous_month d)) (snd (previous_month d)))).
Proof.
  intros (Hy & Hm & _) Hprev.
  unfold minus_one_day, replace_day1, previous_month; cbn [year month day].
  rewrite Z.ltb_irrefl.
  destruct (Z.eqb_spec (month d) 1) as [E | E].
  - rewrite E. cbn [fst snd]. change (1 <? 1)%Z with false. cbn iota.
    assert (H1 : (1 <? year d)%Z = true) by (apply Z.ltb_lt; lia).
    now rewrite H1.
  - assert (H1 : (1 <? month d)%Z = true) by (apply Z.ltb_lt; lia).
    now rewrite H1.
Qed.

Lemma days_before_next_year (y : Z) :
  (1 <= y)%Z ->
  days_before_year (y + 1)
  = (days_before_year y + 365 + (if is_leap y then 1 else 0))%Z.
Proof.
  intros Hy. unfold days_before_year, is_leap. cbn zeta.
  replace (y + 1 - 1)%Z with y by lia.
  destruct (Z.eqb_spec (y mod 4) 0), (Z.eqb_spec (y mod 100) 0), (Z.eqb_spec (y mod 400) 0);
    cbn [andb orb negb]; Z.to_euclidean_division_equations; lia.
Qed.

(** The day before a valid date is a valid date, and its ordinal is one
    less. *)
Lemma minus_one_day_ordinal (d d' : date) :
  valid_date d -> minus_one_day d = Some d' ->
  valid_date d' /\ toordinal d' = (toordinal d - 1)%Z.
Proof.
  intros (Hy & Hm & Hd). unfold minus_one_day.
  destruct (Z.ltb_spec 1 (day d)) as [H1 | H1].
  - intros [= <-]. unfold valid_date, toordinal; cbn [year month day]. lia.
  - assert (Hday : day d = 1%Z) by lia.
    destruct (Z.ltb_spec 1 (month d)) as [H2 | H2].
    + intros [= <-]. unfold valid_date, toordinal; cbn [year month day].
      rewrite Hday.
      assert (Hcases : (month d = 2 \/ month d = 3 \/ month d = 4 \/ month d = 5
                        \/ month d = 6 \/ month d = 7 \/ month d = 8 \/ month d = 9
                        \/ month d = 10 \/ month d = 11 \/ month d = 12)%Z) by lia.
      unfold days_before_month, days_in_month.
      repeat (destruct Hcases as [-> | Hcases]); try rewrite Hcases;
        cbn; destruct (is_leap (year d)); cbn; lia.
    + assert (Hmonth : month d = 1%Z) by lia.
      destruct (Z.ltb_spec 1 (year d)) as [H3 | H3]; [| discriminate].
      intros [= <-]. unfold valid_date, toordinal; cbn [year month day].
      rewrite Hday, Hmonth.
      pose proof (@days_before_next_year (year d - 1)%Z ltac:(lia)) as Hn.
      replace (year d - 1 + 1)%Z with (year d) in Hn by lia.
      unfold days_before_month, days_in_month. cbn.
      destruct (is_leap (year d - 1)); cbn; lia.
Qed.

Lemma explicit_pair_none (start_date end_date : option string) :
  truthy start_date && truthy end_date = false ->
  explicit_pair start_date end_date = None.
Proof.
  intros H. unfold explicit_pair.
  destruct start_date, end_date; try reflexivity. now rewrite H.
Qed.

(** C7.  With no explicit start/end pair, the range is (first day of the
    current month, today) when no period is given, and (first day, last
    day) of the previous calendar month when the period is
    ["past_month"]. *)
Theorem get_date_range_resolution (today : date) (start_date end_date : option string) :
  valid_date today ->
  truthy start_date && truthy end_date = false ->
  _get_date_range parse_iso parse_ymd today None start_date end_date
    = Some (mkdate (year today) (month today) 1, today)
  /\ ((1 < year today \/ 1 < month today)%Z ->
      let (y, m) := previous_month today in
      _get_date_range parse_iso parse_ymd today (Some "past_month") start_date end_date
        = Some (mkdate y m 1, mkdate y m (days_in_month y m))).
Proof.
  intros Hvalid Hnone. unfold _get_date_range.
  rewrite (explicit_pair_none _ _ Hnone). split.
  - reflexivity.
  - intros Hprev.
    pose proof (minus_one_day_first Hvalid Hprev) as Hm.
    destruct (previous_month today) as [y m] eqn:E. cbn [fst snd] in Hm.
    change (period_is (Some "past_month") "past_month") with true. cbn iota.
    now rewrite Hm.
Qed.
End DateRangeFacts.

(** The spec's example: on 2024-03-15 the default range is 2024-03-01 to
    2024-03-15 and the past month is 2024-02-01 to 2024-02-29. *)
Lemma get_date_range_resolution_witness :
  _get_date_range (fun _ => None) (fun _ => None) (mkdate 2024 3 15) None None None
    = Some (mkdate 2024 3 1, mkdate 2024 3 15)
  /\ _get_date_range (fun _ => None) (fun _ => None) (mkdate 2024 3 15)
       (Some "past_month") None None
    = Some (mkdate 2024 2 1, mkdate 2024 2 29).
Proof.
  assert (Hv : valid_date (mkdate 2024 3 15)) by (unfold valid_date; cbn; lia).
  destruct (get_date_range_resolution (fun _ => None) (fun _ => None)
              (today := mkdate 2024 3 15) None None Hv eq_refl) as [H1 H2].
  split; [exact H1 | apply H2; left; cbn; lia].
Defined.

(* ===================================================================== *)
(** * Properties of the client cache *)
(* ===================================================================== *)

Section ClientCacheFacts.
Variable boto3_ok : string -> string -> string -> string -> bool.
Variable store : CredentialStore.

(** A call that returns a client leaves it in the cache under its key. *)
Lemma get_aws_client_cached st service institution region client st' :
  get_aws_client boto3_ok store st service institution region = (Some client, st') ->
  dict_get (cache_key service institution region) (aws_clients_cache st') = Some client.
Proof.
  unfold get_aws_client.
  destruct (dict_get (cache_key service institution region) (aws_clients_cache st))
    as [c |] eqn:Hget.
  - intros [= <- <-]. exact Hget.
  - destruct (get_institution_credentials store institution) as [cr |]; [| discriminate].
    destruct (is_empty cr); [discriminate |].
    destruct (dict_get "aws_access_key_id" cr); [| discriminate].
    destruct (dict_get "aws_secret_access_key" cr); [| discriminate].
    destruct (boto3_ok _ _ _ _); [| discriminate].
    intros [= <- <-]. cbn. apply dict_get_set_eq.
Qed.

(** X3.  Two sequential calls with the same arguments: the second returns the
    instance the first returned, and changes nothing. *)
Lemma get_aws_client_idempotent st service institution region client st' :
  get_aws_client boto3_ok store st service institution region = (Some client, st') ->
  get_aws_client boto3_ok store st' service institution region = (Some client, st').
Proof.
  intros H. apply get_aws_client_cached in H.
  unfold get_aws_client. now rewrite H.
Qed.
End ClientCacheFacts.

Lemma initial_clients_fresh : cache_fresh initial_clients.
Proof. split; cbn; intros; discriminate. Qed.

Section ClientInstances.
Variable boto3_ok : string -> string -> string -> string -> bool.
Variable store : CredentialStore.

(** A call either leaves the state alone or adds one new instance under a
    key that was absent. *)
Lemma get_aws_client_cases st service institution region res st' :
  get_aws_client boto3_ok store st service institution region = (res, st') ->
  st' = st
  \/ exists c,
       dict_get (cache_key service institution region) (aws_clients_cache st) = None
       /\ client_id c = next_client_id st
       /\ res = Some c
       /\ st' = mkClientState
                  (dict_set (cache_key service institution region) c (aws_clients_cache st))
                  (S (next_client_id st)).
Proof.
  unfold get_aws_client.
  destruct (dict_get (cache_key service institution region) (aws_clients_cache st))
    as [c |] eqn:Hget.
  - intros [= _ <-]. now left.
  - destruct (get_institution_credentials store institution) as [cr |];
      [| intros [= _ <-]; now left].
    destruct (is_empty cr); [intros [= _ <-]; now left |].
    destruct (dict_get "aws_access_key_id" cr) as [ak |]; [| intros [= _ <-]; now left].
    destruct (dict_get "aws_secret_access_key" cr) as [sk |]; [| intros [= _ <-]; now left].
    destruct (boto3_ok service ak sk region); [| intros [= _ <-]; now left].
    intros [= <- <-]. right.
    exists (mkClient (next_client_id st) service ak sk region).
    repeat split.
Qed.

Lemma get_aws_client_keeps st service institution region res st' k c :
  get_aws_client boto3_ok store st service institution region = (res, st') ->
  dict_get k (aws_clients_cache st) = Some c ->
  dict_get k (aws_clients_cache st') = Some c.
Proof.
  intros Hcall Hk.
  destruct (get_aws_client_cases _ _ _ _ Hcall) as [-> | (c' & Hnone & _ & _ & ->)];
    [exact Hk |].
  cbn. rewrite dict_get_set_ne; [exact Hk |].
  intros ->. congruence.
Qed.

Lemma get_aws_client_fresh st service institution region res st' :
  cache_fresh st ->
  get_aws_client boto3_ok store st service institution region = (res, st') ->
  cache_fresh st'.
Proof.
  intros [Hlt Hinj] Hcall.
  destruct (get_aws_client_cases _ _ _ _ Hcall) as [-> | (c' & Hnone & Hid & _ & ->)];
    [now split |].
  set (key := cache_key service institution region) in *.
  assert (Hget : forall k c,
             dict_get k (dict_set key c' (aws_clients_cache st)) = Some c ->
             (k = key /\ c = c') \/ (k <> key /\ dict_get k (aws_clients_cache st) = Some c)).
  { intros k c H. destruct (string_dec k key) as [-> | Hne].
    - rewrite dict_get_set_eq in H. left. split; congruence.
    - rewrite dict_get_set_ne in H by exact Hne. now right. }
  split; cbn.
  - intros k c H. destruct (Hget _ _ H) as [[_ ->] | [_ Hold]].
    + lia.
    + specialize (Hlt _ _ Hold). lia.
  - intros k1 k2 c1 c2 H1 H2 Heq.
    destruct (Hget _ _ H1) as [[-> ->] | [Hn1 Ho1]],
             (Hget _ _ H2) as [[-> ->] | [Hn2 Ho2]].
    + reflexivity.
    + specialize (Hlt _ _ Ho2). lia.
    + specialize (Hlt _ _ Ho1). lia.
    + eapply Hinj; eassumption.
Qed.

(** Two sequential calls that build different keys never return the same
    instance. *)
Lemma get_aws_client_distinct_keys st service1 institution1 region1 c1 st1
    service2 institution2 region2 c2 st2 :
  cache_fresh st ->
  get_aws_client boto3_ok store st service1 institution1 region1 = (Some c1, st1) ->
  get_aws_client boto3_ok store st1 service2 institution2 region2 = (Some c2, st2) ->
  cache_key service1 institution1 region1 <> cache_key service2 institution2 region2 ->
  client_id c1 <> client_id c2.
Proof.
  intros Hfresh Hcall1 Hcall2 Hkeys Hid.
  assert (Hfresh1 : cache_fresh st1) by (eapply get_aws_client_fresh; eassumption).
  assert (Hfresh2 : cache_fresh st2) by (eapply get_aws_client_fresh; eassumption).
  destruct Hfresh2 as [_ Hinj].
  apply get_aws_client_cached in Hcall1 as Hc1.
  apply get_aws_client_cached in Hcall2 as Hc2.
  assert (Hc1' : dict_get (cache_key service1 institution1 region1) (aws_clients_cache st2)
                 = Some c1) by (eapply get_aws_client_keeps; eassumption).
  apply Hkeys. eapply Hinj; eassumption.
Qed.
End ClientInstances.

Lemma list_ascii_of_append (a b : string) :
  list_ascii_of_string (a ++ b)%string
  = list_ascii_of_string a ++ list_ascii_of_string b.
Proof. induction a as [| c a IH]; cbn; [reflexivity | now rewrite IH]. Qed.

Lemma list_ascii_of_string_inj (a b : string) :
  list_ascii_of_string a = list_ascii_of_string b -> a = b.
Proof.
  intros H. rewrite <- (string_of_list_ascii_of_string a),
              <- (string_of_list_ascii_of_string b). now rewrite H.
Qed.

(** The key determines the institution once service and region are fixed. *)
Lemma cache_key_institution (service region institution1 institution2 : string) :
  cache_key service institution1 region = cache_key service institution2 region ->
  institution1 = institution2.
Proof.
  unfold cache_key. intros H. apply (f_equal list_ascii_of_string) in H.
  rewrite !list_ascii_of_append in H.
  apply app_inv_head, app_inv_head, app_inv_tail in H.
  now apply list_ascii_of_string_inj.
Qed.

(** X4.  Calls that differ in the institution only never share an instance. *)
Lemma get_aws_client_per_institution boto3_ok store st service region
    institution1 institution2 c1 st1 c2 st2 :
  cache_fresh st ->
  institution1 <> institution2 ->
  get_aws_client boto3_ok store st service institution1 region = (Some c1, st1) ->
  get_aws_client boto3_ok store st1 service institution2 region = (Some c2, st2) ->
  client_id c1 <> client_id c2.
Proof.
  intros Hfresh Hne Hcall1 Hcall2.
  eapply get_aws_client_distinct_keys; try eassumption.
  intros Hkey. apply Hne. eapply cache_key_institution; eassumption.
Qed.

(** C2 fails on the code.  [get_tags] takes the region from the ARN it is
    given.  After a call for institution ["a_b"] in region ["us-east-1"], a
    call for institution ["a"] with region ["b_us-east-1"] builds the same
    cache key and is handed the client that holds the credentials of
    ["a_b"], although both institutions are configured and differ. *)
Theorem get_aws_client_key_collision :
  let service := "resourcegroupstaggingapi" in
  let first := get_aws_client strict_boto3 two_institutions initial_clients
                 service "a_b" "us-east-1" in
  let second := get_aws_client strict_boto3 two_institutions (snd first)
                  service "a" "b_us-east-1" in
  validate_institution two_institutions "a_b" = true
  /\ validate_institution two_institutions "a" = true
  /\ fst first = Some (mkClient 0 service "AKIA-A-B" "secret-a-b" "us-east-1")
  /\ fst second = fst first.
Proof. cbv zeta. repeat split. Qed.

(* ===================================================================== *)
(** * Properties of the institution guard *)
(* ===================================================================== *)

Section ToolsFacts.
Variable Data : Type.
Variable INIA_AVAILABLE : bool.
Variable store : CredentialStore.
Variable list_available : list string -> Data.
Variable get_institutions_body : string -> option string -> bool -> Response Data.
Variable get_projects_body : string -> string -> bool -> Response Data.
Variable get_users_body : string -> option string -> bool -> bool -> Response Data.
Variable get_tags_body : string -> string -> option string -> Response Data.
Variable check_budget_body :
  string -> option string -> option string -> option string ->
  option (list string) -> string -> bool -> option string -> Response Data.
Variable verify_email_body : string -> string -> option string -> Response Data.
Variable reset_password_body : string -> string -> option string -> string -> Response Data.

Variable institution : string.
Hypothesis unknown : validate_institution store institution = false.

(** C6, as the code has it.  For an institution that is not in the
    store, [get_projects], [get_users], [get_tags] and [check_budget]
    report it as unknown whatever their other arguments; so does
    [get_institutions] when the name is not empty; [verify_email] and
    [reset_password] do so when the inia module is loaded, and report the
    missing module otherwise.  Each of these is a failure response. *)
Theorem unknown_institution_reported :
  (institution <> "" ->
   forall institution_type include_details,
     get_institutions store list_available get_institutions_body
       (Some institution) institution_type include_details
     = institution_not_found Data store institution)
  /\ (forall institution_id include_aws_details,
        get_projects store get_projects_body institution institution_id include_aws_details
        = institution_not_found Data store institution)
  /\ (forall role_filter include_groups include_assignments,
        get_users store get_users_body institution role_filter
          include_groups include_assignments
        = institution_not_found Data store institution)
  /\ (forall resource_arn resource_type,
        get_tags store get_tags_body institution resource_arn resource_type
        = institution_not_found Data store institution)
  /\ (forall project_id start_date end_date exclude_services granularity budget_check period,
        check_budget store check_budget_body institution project_id start_date end_date
          exclude_services granularity budget_check period
        = institution_not_found Data store institution)
  /\ (forall user_identifier user_id,
        verify_email INIA_AVAILABLE store verify_email_body institution user_identifier user_id
        = if INIA_AVAILABLE then institution_not_found Data store institution
          else Failure (IniaNotAvailable "email verification"))
  /\ (forall user_identifier user_id mode,
        reset_password INIA_AVAILABLE store reset_password_body institution
          user_identifier user_id mode
        = if INIA_AVAILABLE then institution_not_found Data store institution
          else Failure (IniaNotAvailable "password reset")).
Proof.
  unfold get_institutions, get_projects, get_users, get_tags, check_budget,
    verify_email, reset_password.
  rewrite unknown. cbn [negb].
  repeat split; try reflexivity.
  - intros Hne ? ?. cbn [truthy].
    apply String.eqb_neq in Hne. now rewrite Hne.
  - now destruct INIA_AVAILABLE.
  - now destruct INIA_AVAILABLE.
Qed.
End ToolsFacts.

Lemma unknown_institution_reported_witness :
  validate_institution one_institution "nowhere" = false
  /\ get_projects one_institution (fun _ _ _ => Success tt) "nowhere" "123456789012" false
     = Failure (UnknownInstitution "nowhere" ["grnet"])
  /\ verify_email true one_institution (fun _ _ _ => Success tt) "nowhere" "ada" None
     = Failure (UnknownInstitution "nowhere" ["grnet"]).
Proof.
  pose proof (@unknown_institution_reported unit true one_institution
                (fun _ => tt) (fun _ _ _ => Success tt) (fun _ _ _ => Success tt)
                (fun _ _ _ _ => Success tt) (fun _ _ _ => Success tt)
                (fun _ _ _ _ _ _ _ _ => Success tt) (fun _ _ _ => Success tt)
                (fun _ _ _ _ => Success tt) "nowhere" eq_refl)
    as (_ & Hp & _ & _ & _ & Hv & _).
  split; [reflexivity |].
  split; [apply Hp | apply Hv].
Defined.

(** C6 fails as stated: without the inia module [verify_email] and
    [reset_password] answer before they look at the institution, and
    [get_institutions] with an empty name lists the configured
    institutions. *)
Lemma unknown_institution_not_always_reported :
  validate_institution one_institution "nowhere" = false
  /\ verify_email false one_institution (fun _ _ _ => Success tt) "nowhere" "ada" None
     = Failure (IniaNotAvailable "email verification")
  /\ is_unknown_institution
       (verify_email false one_institution (fun _ _ _ => Success tt) "nowhere" "ada" None)
     = false
  /\ is_unknown_institution
       (reset_password false one_institution (fun _ _ _ _ => Success tt)
          "nowhere" "ada" None "EMAIL")
     = false
  /\ validate_institution one_institution "" = false
  /\ is_failure
       (get_institutions one_institution (fun l => l) (fun _ _ _ => Success [])
          (Some "") None false)
     = false.
Proof. repeat split. Qed.

(* ===================================================================== *)
(** * Properties of the organizational-unit walk *)
(* ===================================================================== *)

(** Induction over a unit and, through [Forall], the units below it. *)
Lemma OrgUnit_forall_ind (P : OrgUnit -> Prop) :
  (forall id name children, Forall P children -> P (OU id name children)) ->
  forall ou, P ou.
Proof.
  intros step. fix IH 1. intros [id name children]. apply step.
  induction children as [| c cs IHcs]; constructor; [apply IH | exact IHcs].
Qed.

Lemma list_max_nat_app (l1 l2 : list nat) :
  list_max_nat (l1 ++ l2) = Nat.max (list_max_nat l1) (list_max_nat l2).
Proof.
  unfold list_max_nat. induction l1 as [| x l1 IH]; cbn [app fold_right].
  - reflexivity.
  - rewrite IH. lia.
Qed.

Lemma list_max_nat_upper (l : list nat) (x : nat) :
  In x l -> x <= list_max_nat l.
Proof.
  unfold list_max_nat. induction l as [| y l IH]; cbn [In fold_right]; [tauto |].
  intros [-> | H]; [lia | specialize (IH H); lia].
Qed.

Lemma list_max_nat_attained (l : list nat) :
  l <> [] -> In (list_max_nat l) l.
Proof.
  induction l as [| y l IH]; [congruence | intros _].
  destruct l as [| z l'].
  - left. cbn. lia.
  - cbn [list_max_nat fold_right] in *.
    destruct (Nat.max_spec y (fold_right Nat.max 0 (z :: l'))) as [[_ E] | [_ E]];
      cbn [fold_right] in E; rewrite E.
    + right. apply IH. discriminate.
    + now left.
Qed.

Lemma walk_ou_head (parent_id : string) (level : nat) (ou : OrgUnit) :
  exists id name children,
    ou = OU id name children /\
    walk_ou parent_id level ou =
      mkOu id name level parent_id :: get_all_ous id (level + 1) children.
Proof. destruct ou as [id name children]. now exists id, name, children. Qed.

Lemma in_get_all_ous (parent_id : string) (level : nat) (listed : list OrgUnit) (r : OuRecord) :
  In r (get_all_ous parent_id level listed) <->
  exists ou, In ou listed /\ In r (walk_ou parent_id level ou).
Proof. unfold get_all_ous. apply in_flat_map. Qed.

(** Every emitted unit either hangs directly below the unit the walk
    started from, at the starting level, or follows its parent's record one
    level deeper. *)
Lemma walk_ou_levels (ou : OrgUnit) :
  forall parent_id level r,
    In r (walk_ou parent_id level ou) ->
    (ou_ParentId r = parent_id /\ ou_Level r = level)
    \/ exists p, In p (walk_ou parent_id level ou) /\
                 ou_Id p = ou_ParentId r /\ ou_Level r = ou_Level p + 1.
Proof.
  induction ou as [id name children IH] using OrgUnit_forall_ind.
  intros parent_id level r Hr. cbn [walk_ou] in *.
  destruct Hr as [<- | Hr]; [now left | right].
  apply in_flat_map in Hr as (c & Hc & Hr).
  rewrite Forall_forall in IH.
  destruct (IH c Hc _ _ _ Hr) as [[Hp Hl] | (p & Hp & Hid & Hl)].
  - exists (mkOu id name level parent_id). cbn. auto.
  - exists p. split; [| auto].
    right. apply in_flat_map. now exists c.
Qed.

Lemma list_max_levels_flat_map (f : OrgUnit -> list OuRecord) (g : OrgUnit -> nat)
    (l : list OrgUnit) :
  Forall (fun ou => list_max_nat (map ou_Level (f ou)) = g ou) l ->
  list_max_nat (map ou_Level (flat_map f l)) = list_max_nat (map g l).
Proof.
  induction 1 as [| c cs Hc _ IH]; [reflexivity |].
  cbn [flat_map map]. rewrite map_app, list_max_nat_app, Hc, IH. reflexivity.
Qed.

Lemma list_max_nat_shift (k : nat) (l : list nat) :
  l <> [] -> list_max_nat (map (fun h => k + h) l) = k + list_max_nat l.
Proof.
  induction l as [| x l IH]; [congruence | intros _].
  destruct l as [| y l'].
  - cbn. lia.
  - cbn [map list_max_nat fold_right] in *. rewrite IH by discriminate. lia.
Qed.

Lemma unit_height_pos (ou : OrgUnit) : 1 <= unit_height ou.
Proof. destruct ou. cbn. lia. Qed.

(** The deepest level a walk emits: the starting level plus the height of
    the unit, less one. *)
Lemma walk_ou_max_level (ou : OrgUnit) :
  forall parent_id level,
    list_max_nat (map ou_Level (walk_ou parent_id level ou)) = level + unit_height ou - 1.
Proof.
  induction ou as [id name children IH] using OrgUnit_forall_ind.
  intros parent_id level. cbn [walk_ou map list_max_nat fold_right ou_Level].
  change (fold_right Nat.max 0 ?l) with (list_max_nat l).
  rewrite (@list_max_levels_flat_map _ (fun c => level + unit_height c)).
  - cbn [unit_height]. destruct children as [| c cs]; [cbn; lia |].
    rewrite <- (map_map unit_height (fun h => level + h)).
    rewrite list_max_nat_shift by discriminate. lia.
  - eapply Forall_impl; [| exact IH]. intros c Hc. cbn beta.
    rewrite Hc. pose proof (unit_height_pos c). lia.
Qed.

Lemma list_max_nat_heights (level : nat) (l : list OrgUnit) :
  l <> [] ->
  list_max_nat (map (fun c => level + unit_height c - 1) l)
  = level + list_max_nat (map unit_height l) - 1.
Proof.
  induction l as [| c cs IH]; [congruence | intros _].
  destruct cs as [| c' cs'].
  - cbn. lia.
  - cbn [map list_max_nat fold_right] in *. rewrite IH by discriminate.
    pose proof (unit_height_pos c). pose proof (unit_height_pos c'). lia.
Qed.

Lemma get_all_ous_max_level (parent_id : string) (level : nat) (listed : list OrgUnit) :
  listed <> [] ->
  list_max_nat (map ou_Level (get_all_ous parent_id level listed))
  = level + tree_depth listed - 1.
Proof.
  intros Hne. unfold get_all_ous, tree_depth.
  rewrite (@list_max_levels_flat_map _ (fun c => level + unit_height c - 1)).
  - now apply list_max_nat_heights.
  - apply Forall_forall. intros c _. apply walk_ou_max_level.
Qed.

Lemma get_all_ous_nil (parent_id : string) (level : nat) (listed : list OrgUnit) :
  get_all_ous parent_id level listed = [] <-> listed = [].
Proof.
  split; [| now intros ->].
  destruct listed as [| [id name children] rest]; [reflexivity | discriminate].
Qed.

Lemma get_all_ous_levels (listed : list OrgUnit) (parent_id : string) (level : nat)
    (r : OuRecord) :
  In r (get_all_ous parent_id level listed) ->
  (ou_ParentId r = parent_id /\ ou_Level r = level)
  \/ exists p, In p (get_all_ous parent_id level listed) /\
               ou_Id p = ou_ParentId r /\ ou_Level r = ou_Level p + 1.
Proof.
  intros Hr. apply in_get_all_ous in Hr as (ou & Hou & Hr).
  destruct (walk_ou_levels _ _ _ _ Hr) as [H | (p & Hp & H)]; [now left | right].
  exists p. split; [| exact H]. apply in_get_all_ous. now exists ou.
Qed.

(** C5, as the code has it.  Units listed directly under the root are
    emitted with level 0 and the root as parent; every other unit is emitted
    one level deeper than its parent's record.  [max_ou_level] is 0 without
    units and otherwise the largest level emitted, which is one less than
    the depth of the deepest unit when the root counts as depth 0. *)
Theorem ou_levels_and_max_level (root_id : string) (top : list OrgUnit) :
  (forall id name children,
      In (OU id name children) top -> In (mkOu id name 0 root_id) (all_ous_of root_id top))
  /\ (forall r, In r (all_ous_of root_id top) ->
        (ou_ParentId r = root_id /\ ou_Level r = 0)
        \/ exists p, In p (all_ous_of root_id top) /\
                     ou_Id p = ou_ParentId r /\ ou_Level r = ou_Level p + 1)
  /\ (forall r, In r (all_ous_of root_id top) ->
        ou_Level r <= max_ou_level (all_ous_of root_id top))
  /\ (all_ous_of root_id top = [] -> max_ou_level (all_ous_of root_id top) = 0)
  /\ (all_ous_of root_id top <> [] ->
        exists r, In r (all_ous_of root_id top) /\
                  ou_Level r = max_ou_level (all_ous_of root_id top))
  /\ max_ou_level (all_ous_of root_id top) = tree_depth top - 1.
Proof.
  unfold all_ous_of. repeat split.
  - intros id name children Hin. apply in_get_all_ous.
    exists (OU id name children). split; [exact Hin | now left].
  - intros r. apply get_all_ous_levels.
  - intros r Hr. unfold max_ou_level.
    destruct (get_all_ous root_id 0 top) as [| r0 rs] eqn:E; [destruct Hr |].
    cbn [is_empty]. apply list_max_nat_upper. now apply in_map.
  - intros ->. reflexivity.
  - intros Hne. unfold max_ou_level.
    destruct (get_all_ous root_id 0 top) as [| r0 rs] eqn:E; [congruence |].
    cbn [is_empty].
    assert (Hm : map ou_Level (r0 :: rs) <> []) by discriminate.
    apply list_max_nat_attained in Hm. apply in_map_iff in Hm as (r & Hr & Hin).
    now exists r.
  - unfold max_ou_level.
    destruct top as [| ou rest].
    + reflexivity.
    + destruct (get_all_ous root_id 0 (ou :: rest)) as [| r0 rs] eqn:E.
      * apply get_all_ous_nil in E. discriminate.
      * cbn [is_empty]. rewrite <- E.
        rewrite get_all_ous_max_level by discriminate. reflexivity.
Qed.

(** A single unit under the root: it is emitted with level 0, not 1, and
    [max_ou_level] is 0 for a tree whose deepest unit is at depth 1. *)
Lemma ou_depth_off_by_one :
  all_ous_of "r-root" [OU "ou-1" "Dev" []] = [mkOu "ou-1" "Dev" 0 "r-root"]
  /\ tree_depth [OU "ou-1" "Dev" []] = 1
  /\ max_ou_level (all_ous_of "r-root" [OU "ou-1" "Dev" []])
       <> tree_depth [OU "ou-1" "Dev" []]
  /\ ~ (forall r, In r (all_ous_of "r-root" [OU "ou-1" "Dev" []]) ->
          ou_ParentId r = "r-root" -> ou_Level r = 0 + 1).
Proof.
  repeat split; try reflexivity.
  - cbn. discriminate.
  - intros H. specialize (H (mkOu "ou-1" "Dev" 0 "r-root")).
    cbn in H. specialize (H (or_introl eq_refl) eq_refl). discriminate.
Qed.

(* ===================================================================== *)
(** * Properties of the user hierarchy *)
(* ===================================================================== *)

Lemma in_concat_values (V : Type) (d : dict (list V)) (x : V) :
  In x (List.concat (dict_values d)) <-> exists k l, In (k, l) d /\ In x l.
Proof.
  rewrite in_concat. unfold dict_values. split.
  - intros (l & Hl & Hx). apply in_map_iff in Hl as ([k l'] & <- & Hin).
    now exists k, l'.
  - intros (k & l & Hin & Hx). exists l. split; [| exact Hx].
    apply in_map_iff. now exists (k, l).
Qed.

Lemma in_group_members (groups : dict Group) (x : string) :
  In x (List.concat (map group_Members (dict_values groups))) <->
  exists gid g, In (gid, g) groups /\ In x (group_Members g).
Proof.
  rewrite in_concat. unfold dict_values. split.
  - intros (l & Hl & Hx). apply in_map_iff in Hl as (g & <- & Hg).
    apply in_map_iff in Hg as ([gid g'] & <- & Hin). now exists gid, g'.
  - intros (gid & g & Hin & Hx). exists (group_Members g). split; [| exact Hx].
    apply in_map_iff. exists g. split; [reflexivity |].
    apply in_map_iff. now exists (gid, g).
Qed.

Section HierarchyFacts.
Variables (users : dict User) (groups : dict Group) (assignments : Assignments).
Variable owners : dict (list string).

Lemma in_root_users (r : RootUser) :
  In r (root_users (_build_user_hierarchy users groups assignments owners)) <->
  exists user,
    In (root_user_id r, user) users
    /\ r = root_user_entry assignments (root_user_id r) user
    /\ ~ In (root_user_id r) (List.concat (dict_values owners))
    /\ ~ In (root_user_id r) (List.concat (map group_Members (dict_values groups))).
Proof.
  unfold _build_user_hierarchy. cbn [root_users]. rewrite sorted_In, in_flat_map. split.
  - intros ([uid user] & Hin & Hr).
    destruct (str_in uid _) eqn:Ho; [destruct Hr |].
    destruct (str_in uid (List.concat (map _ _))) eqn:Hm; [destruct Hr |].
    cbn in Hr. destruct Hr as [<- | []]. cbn [root_user_entry root_user_id].
    exists user. apply str_in_false in Ho, Hm. auto.
  - intros (user & Hin & Hr & Ho & Hm).
    exists (root_user_id r, user). split; [exact Hin |].
    apply str_in_false in Ho, Hm. rewrite Ho, Hm. cbn. now left.
Qed.

Lemma in_groups_of (ge : GroupEntry) :
  In ge (groups_of (_build_user_hierarchy users groups assignments owners)) <->
  exists group group_owner_ids,
    In (ge_group_id ge, group) groups
    /\ dict_get (ge_group_id ge) owners = Some group_owner_ids
    /\ ge = group_entry users assignments group_owner_ids (ge_group_id ge) group.
Proof.
  unfold _build_user_hierarchy. cbn [groups_of]. rewrite sorted_In, in_flat_map. split.
  - intros ([gid group] & Hin & Hge).
    destruct (dict_get gid owners) as [os |] eqn:Hos; [| destruct Hge].
    destruct Hge as [<- | []]. cbn [group_entry ge_group_id]. now exists group, os.
  - intros (group & os & Hin & Hos & Hge).
    exists (ge_group_id ge, group). split; [exact Hin |].
    rewrite Hos. now left.
Qed.

Lemma in_group_owners_list (ids : list string) (gu : GroupUser) :
  In gu (group_owners_list users assignments ids) <->
  In (gu_user_id gu) ids
  /\ exists owner, dict_get (gu_user_id gu) users = Some owner
                   /\ gu = owner_entry assignments (gu_user_id gu) owner.
Proof.
  unfold group_owners_list. rewrite in_flat_map. split.
  - intros (oid & Hin & Hgu).
    destruct (dict_get oid users) as [owner |] eqn:Hget; [| destruct Hgu].
    destruct Hgu as [<- | []]. cbn [owner_entry gu_user_id]. split; [exact Hin |].
    now exists owner.
  - intros (Hin & owner & Hget & Hgu).
    exists (gu_user_id gu). split; [exact Hin |]. rewrite Hget. now left.
Qed.

Lemma in_group_members_list (owner_ids member_ids : list string) (gu : GroupUser) :
  In gu (group_members_list users owner_ids member_ids) <->
  In (gu_user_id gu) member_ids
  /\ ~ In (gu_user_id gu) owner_ids
  /\ exists member, dict_get (gu_user_id gu) users = Some member
                    /\ gu = member_entry (gu_user_id gu) member.
Proof.
  unfold group_members_list. rewrite in_flat_map. split.
  - intros (mid & Hin & Hgu).
    destruct (str_in mid owner_ids) eqn:Ho; [destruct Hgu |].
    destruct (dict_get mid users) as [member |] eqn:Hget; [| destruct Hgu].
    destruct Hgu as [<- | []]. cbn [member_entry gu_user_id].
    apply str_in_false in Ho. split; [exact Hin |]. split; [exact Ho |].
    now exists member.
  - intros (Hin & Ho & member & Hget & Hgu).
    exists (gu_user_id gu). split; [exact Hin |].
    apply str_in_false in Ho. rewrite Ho, Hget. now left.
Qed.

(** The owners and the members of an entry, by user id. *)
Lemma group_entry_owner_ids (os : list string) (gid : string) (g : Group) (uid : string) :
  In uid (map gu_user_id (ge_owners (group_entry users assignments os gid g))) ->
  In uid os /\ dict_mem uid users = true.
Proof.
  cbn [group_entry ge_owners]. intros H.
  apply in_map_iff in H as (gu & <- & H).
  apply sorted_In, in_group_owners_list in H as (Hin & owner & Hget & _).
  split; [exact Hin |]. apply dict_mem_get. now exists owner.
Qed.

Lemma group_entry_member_ids (os : list string) (gid : string) (g : Group) (uid : string) :
  In uid (map gu_user_id (ge_members (group_entry users assignments os gid g))) <->
  In uid (group_Members g) /\ ~ In uid os /\ dict_mem uid users = true.
Proof.
  cbn [group_entry ge_members]. rewrite in_map_iff. split.
  - intros (gu & <- & H).
    apply sorted_In, in_group_members_list in H as (Hin & Hno & member & Hget & _).
    repeat split; auto. apply dict_mem_get. now exists member.
  - intros (Hin & Hno & Hmem). apply dict_mem_get in Hmem as (member & Hget).
    exists (member_entry uid member). split; [reflexivity |].
    apply sorted_In, in_group_members_list. cbn [member_entry gu_user_id].
    repeat split; auto. now exists member.
Qed.

(** Which users are root users: those in no owner list and in the member
    list of no group of [groups]. *)
Lemma root_user_ids (uid : string) :
  In uid (map root_user_id
            (root_users (_build_user_hierarchy users groups assignments owners))) <->
  In uid (dict_keys users)
  /\ (forall gid g, In (gid, g) groups -> ~ In uid (group_Members g))
  /\ (forall gid os, In (gid, os) owners -> ~ In uid os).
Proof.
  rewrite in_map_iff. split.
  - intros (r & <- & Hr). apply in_root_users in Hr as (user & Hin & _ & Ho & Hm).
    split; [| split].
    + unfold dict_keys. apply in_map_iff. now exists (root_user_id r, user).
    + intros gid g Hg Hx. apply Hm, in_group_members. now exists gid, g.
    + intros gid os Hos Hx. apply Ho, in_concat_values. now exists gid, os.
  - intros (Hin & Hm & Ho).
    unfold dict_keys in Hin. apply in_map_iff in Hin as ([uid' user] & Heq & Hin).
    cbn in Heq. subst uid'.
    exists (root_user_entry assignments uid user). split; [reflexivity |].
    apply in_root_users. cbn [root_user_entry root_user_id].
    exists user. repeat split; auto.
    + intros Hx. apply in_concat_values in Hx as (gid & os & Hos & Hx). now apply (Ho gid os).
    + intros Hx. apply in_group_members in Hx as (gid & g & Hg & Hx). now apply (Hm gid g).
Qed.

(** A root user is in no list of any group that is returned. *)
Lemma root_user_in_no_group (uid : string) (ge : GroupEntry) :
  In uid (map root_user_id
            (root_users (_build_user_hierarchy users groups assignments owners))) ->
  In ge (groups_of (_build_user_hierarchy users groups assignments owners)) ->
  ~ In uid (map gu_user_id (ge_owners ge)) /\ ~ In uid (map gu_user_id (ge_members ge)).
Proof.
  intros Hroot Hge. apply root_user_ids in Hroot as (_ & Hm & Ho).
  apply in_groups_of in Hge as (g & os & Hg & Hos & Heq). rewrite Heq. split.
  - intros H. apply group_entry_owner_ids in H as (H & _).
    apply dict_get_In in Hos. now apply (Ho _ _ Hos).
  - intros H. apply group_entry_member_ids in H as (H & _).
    now apply (Hm _ _ Hg).
Qed.

(** Owners and members of a returned group do not overlap. *)
Lemma owners_members_disjoint (ge : GroupEntry) (uid : string) :
  In ge (groups_of (_build_user_hierarchy users groups assignments owners)) ->
  In uid (map gu_user_id (ge_owners ge)) ->
  ~ In uid (map gu_user_id (ge_members ge)).
Proof.
  intros Hge Ho Hm. apply in_groups_of in Hge as (g & os & _ & _ & Heq).
  rewrite Heq in Ho, Hm.
  apply group_entry_owner_ids in Ho as (Ho & _).
  apply group_entry_member_ids in Hm as (_ & Hm & _). contradiction.
Qed.

(** A user in the owner list of a group's id is left out of its members. *)
Lemma inferred_owner_not_member (ge : GroupEntry) (os : list string) (uid : string) :
  In ge (groups_of (_build_user_hierarchy users groups assignments owners)) ->
  dict_get (ge_group_id ge) owners = Some os ->
  In uid os ->
  ~ In uid (map gu_user_id (ge_members ge)).
Proof.
  intros Hge Hos Ho Hm. apply in_groups_of in Hge as (g & os' & _ & Hos' & Heq).
  rewrite Hos in Hos'. injection Hos' as <-.
  rewrite Heq in Hm.
  apply group_entry_member_ids in Hm as (_ & Hm & _). contradiction.
Qed.
End HierarchyFacts.

(** Every user that [_fetch_sso_users] stores is active. *)
Lemma fetched_users_active (user_list : option (list ApiUser)) (uid : string) (u : User) :
  In (uid, u) (_fetch_sso_users user_list) -> user_Active u = true.
Proof.
  destruct user_list as [listed |]; cbn [_fetch_sso_users]; [| intros []].
  assert (Hgen : forall acc : dict User,
             (forall k v, In (k, v) acc -> user_Active v = true) ->
             forall k v,
               In (k, v) (fold_left (fun users user =>
                                       dict_set (api_UserId user) (fetch_user user) users)
                                    listed acc) ->
               user_Active v = true).
  { induction listed as [| a listed IH]; intros acc Hacc k v; cbn [fold_left].
    - apply Hacc.
    - apply IH. intros k' v' Hin.
      destruct (dict_set_In _ _ _ _ _ Hin) as [[= _ ->] | Hold];
        [reflexivity | eapply Hacc; eassumption]. }
  apply Hgen. intros k v [].
Qed.

Section EnabledFacts.
Variables (users : dict User) (groups : dict Group) (assignments : Assignments).
Variable owners : dict (list string).
Hypothesis all_active : forall uid u, In (uid, u) users -> user_Active u = true.

Lemma status_of_active (uid : string) (u : User) :
  In (uid, u) users -> status_of u = "Enabled".
Proof. intros H. unfold status_of. now rewrite (all_active _ _ H). Qed.

Lemma root_users_enabled (r : RootUser) :
  In r (root_users (_build_user_hierarchy users groups assignments owners)) ->
  root_status r = "Enabled".
Proof.
  intros H. apply in_root_users in H as (u & Hin & -> & _).
  cbn [root_user_entry root_status]. eapply status_of_active; eassumption.
Qed.

Lemma group_users_enabled (ge : GroupEntry) (gu : GroupUser) :
  In ge (groups_of (_build_user_hierarchy users groups assignments owners)) ->
  In gu (ge_owners ge) \/ In gu (ge_members ge) ->
  gu_status gu = "Enabled".
Proof.
  intros Hge Hgu. apply in_groups_of in Hge as (g & os & _ & _ & Heq).
  rewrite Heq in Hgu. cbn [group_entry ge_owners ge_members] in Hgu.
  destruct Hgu as [H | H]; apply sorted_In in H.
  - apply in_group_owners_list in H as (_ & u & Hget & ->).
    cbn [owner_entry gu_status]. apply dict_get_In in Hget.
    eapply status_of_active; eassumption.
  - apply in_group_members_list in H as (_ & _ & u & Hget & ->).
    cbn [member_entry gu_status]. apply dict_get_In in Hget.
    eapply status_of_active; eassumption.
Qed.
End EnabledFacts.

Section GetUsersFacts.
Variable role_matches : string -> list string -> bool.

Lemma role_filter_roots (assignments : Assignments) (role_filter : option string)
    (h : Hierarchy) (r : RootUser) :
  In r (root_users (apply_role_filter role_matches assignments role_filter h)) ->
  In r (root_users h).
Proof.
  unfold apply_role_filter. destruct role_filter as [wanted |]; [| auto].
  destruct (truthy (Some wanted)); [| auto].
  cbn [root_users]. intros H. now apply filter_In in H.
Qed.

Lemma role_filter_groups (assignments : Assignments) (role_filter : option string)
    (h : Hierarchy) (ge : GroupEntry) :
  In ge (groups_of (apply_role_filter role_matches assignments role_filter h)) ->
  In ge (groups_of h).
Proof.
  unfold apply_role_filter. destruct role_filter as [wanted |]; [| auto].
  destruct (truthy (Some wanted)); [| auto].
  cbn [groups_of]. intros H. now apply filter_In in H.
Qed.
End GetUsersFacts.

(** ** Inferred owners *)

Lemma overlaps_spec (user_accounts group_accounts : list string) :
  overlaps user_accounts group_accounts = true <->
  exists account, In account user_accounts /\ In account group_accounts.
Proof.
  unfold overlaps. rewrite existsb_exists.
  split; intros (a & Ha & Hb); exists a; split; auto; now apply str_in_In.
Qed.

Lemma group_owners_of_In (users : dict User) (assignments : Assignments)
    (group_accounts : list string) (uid : string) :
  In uid (group_owners_of users assignments group_accounts) <->
  dict_mem uid users = true
  /\ exists user_accounts account,
       In (uid, user_accounts) (assigned_User assignments)
       /\ In account user_accounts /\ In account group_accounts.
Proof.
  unfold group_owners_of. rewrite nodup_In, in_map_iff. split.
  - intros ([uid' ua] & Heq & Hin). cbn in Heq. subst uid'.
    apply filter_In in Hin as (Hin & Hsel). apply andb_true_iff in Hsel as (Hmem & Hov).
    apply overlaps_spec in Hov as (a & Ha & Hb).
    split; [exact Hmem |]. now exists ua, a.
  - intros (Hmem & ua & a & Hin & Ha & Hb).
    exists (uid, ua). split; [reflexivity |].
    apply filter_In. split; [exact Hin |].
    apply andb_true_iff. split; [exact Hmem |].
    apply overlaps_spec. now exists a.
Qed.

(** Every owner list stands under the id of a group of the input that has
    an account assignment, and holds the users whose assignment overlaps
    it. *)
Lemma identify_group_owners_In (users : dict User) (groups : dict Group)
    (assignments : Assignments) (gid : string) (os : list string) :
  In (gid, os) (_identify_group_owners users groups assignments) ->
  dict_mem gid groups = true
  /\ exists group_accounts,
       In (gid, group_accounts) (assigned_Group assignments)
       /\ os = group_owners_of users assignments group_accounts.
Proof.
  unfold _identify_group_owners.
  assert (Hgen : forall (l : dict (list string)) (acc : dict (list string)),
             (forall x, In x l -> In x (assigned_Group assignments)) ->
             (forall g o, In (g, o) acc ->
                dict_mem g groups = true
                /\ exists ga, In (g, ga) (assigned_Group assignments)
                              /\ o = group_owners_of users assignments ga) ->
             forall g o,
               In (g, o)
                 (fold_left
                    (fun owners '(group_id, group_accounts) =>
                       if negb (dict_mem group_id groups) then owners
                       else dict_set group_id
                              (group_owners_of users assignments group_accounts) owners)
                    l acc) ->
               dict_mem g groups = true
               /\ exists ga, In (g, ga) (assigned_Group assignments)
                             /\ o = group_owners_of users assignments ga).
  { induction l as [| [g0 ga0] l IH]; intros acc Hsub Hacc g o; cbn [fold_left].
    - apply Hacc.
    - apply IH; [intros x Hx; apply Hsub; now right |].
      intros g' o' Hin.
      destruct (dict_mem g0 groups) eqn:Hmem; cbn [negb] in Hin; [| now apply Hacc].
      destruct (dict_set_In _ _ _ _ _ Hin) as [[= -> ->] | Hold]; [| now apply Hacc].
      split; [exact Hmem |]. exists ga0. split; [| reflexivity].
      apply Hsub. now left. }
  apply Hgen; [auto | intros g o []].
Qed.

(** C1, as the code has it.  A user is a root user exactly when it is in no
    inferred owner list and in the member list of no group of the input,
    returned or not; a root user is in the owners and the members of no
    returned group; and the inferred owners of a group with an account
    assignment are the users with an assignment to one of its accounts. *)
Theorem root_users_exclusive (users : dict User) (groups : dict Group)
    (assignments : Assignments) :
  (forall uid,
      In uid (map root_user_id
                (root_users (_build_user_hierarchy users groups assignments
                               (_identify_group_owners users groups assignments)))) <->
      In uid (dict_keys users)
      /\ (forall gid g, In (gid, g) groups -> ~ In uid (group_Members g))
      /\ (forall gid os,
            In (gid, os) (_identify_group_owners users groups assignments) -> ~ In uid os))
  /\ (forall uid ge,
        In uid (map root_user_id
                  (root_users (_build_user_hierarchy users groups assignments
                                 (_identify_group_owners users groups assignments)))) ->
        In ge (groups_of (_build_user_hierarchy users groups assignments
                            (_identify_group_owners users groups assignments))) ->
        ~ In uid (map gu_user_id (ge_owners ge))
        /\ ~ In uid (map gu_user_id (ge_members ge)))
  /\ (forall gid os,
        In (gid, os) (_identify_group_owners users groups assignments) ->
        dict_mem gid groups = true
        /\ exists group_accounts,
             In (gid, group_accounts) (assigned_Group assignments)
             /\ forall uid,
                  In uid os <->
                  dict_mem uid users = true
                  /\ exists user_accounts account,
                       In (uid, user_accounts) (assigned_User assignments)
                       /\ In account user_accounts /\ In account group_accounts).
Proof.
  split; [| split].
  - intros uid. apply root_user_ids.
  - intros uid ge. apply root_user_in_no_group.
  - intros gid os Hin.
    apply identify_group_owners_In in Hin as (Hmem & ga & Hga & ->).
    split; [exact Hmem |]. exists ga. split; [exact Hga |].
    intros uid. apply group_owners_of_In.
Qed.

(** C1 fails as stated: the user is in no list of the one returned group,
    and is not a root user either. *)
Lemma root_user_converse_fails :
  In "u1" (dict_keys lone_member_users)
  /\ map ge_group_id
       (groups_of (_build_user_hierarchy lone_member_users lone_member_groups
                     lone_member_assignments
                     (_identify_group_owners lone_member_users lone_member_groups
                        lone_member_assignments))) = ["g1"]
  /\ (forall ge,
        In ge (groups_of (_build_user_hierarchy lone_member_users lone_member_groups
                            lone_member_assignments
                            (_identify_group_owners lone_member_users lone_member_groups
                               lone_member_assignments))) ->
        ~ In "u1" (map gu_user_id (ge_owners ge))
        /\ ~ In "u1" (map gu_user_id (ge_members ge)))
  /\ ~ In "u1"
       (map root_user_id
          (root_users (_build_user_hierarchy lone_member_users lone_member_groups
                         lone_member_assignments
                         (_identify_group_owners lone_member_users lone_member_groups
                            lone_member_assignments)))).
Proof.
  split; [now left |]. split; [reflexivity |]. split.
  - intros ge [<- | []]. cbn. tauto.
  - cbn. tauto.
Qed.

(** C8.  In every group that [get_users] returns no user id is both among
    the owners and among the members; an id in the group's inferred owner
    list is left out of its members, member of the group or not. *)
Theorem group_owners_members_disjoint (role_matches : string -> list string -> bool)
    (user_list : option (list ApiUser)) (fetched_groups : dict Group)
    (fetched_assignments : Assignments) (role_filter : option string)
    (include_groups include_assignments : bool) (ge : GroupEntry) :
  In ge (groups_of (get_users_hierarchy role_matches user_list fetched_groups
                      fetched_assignments role_filter include_groups include_assignments)) ->
  (forall uid,
      In uid (map gu_user_id (ge_owners ge)) -> ~ In uid (map gu_user_id (ge_members ge)))
  /\ (forall os uid,
        dict_get (ge_group_id ge)
          (_identify_group_owners (_fetch_sso_users user_list) fetched_groups
             (if include_assignments then fetched_assignments else no_assignments))
        = Some os ->
        In uid os -> ~ In uid (map gu_user_id (ge_members ge))).
Proof.
  unfold get_users_hierarchy. intros Hge. apply role_filter_groups in Hge.
  destruct include_groups.
  - split.
    + intros uid. eapply owners_members_disjoint; eassumption.
    + intros os uid. eapply inferred_owner_not_member; eassumption.
  - cbn in Hge. destruct Hge.
Qed.

(** C9.  Every user entry that [get_users] returns, root user, owner or
    member, has status ["Enabled"] and never ["Disabled"]: every user that
    [_fetch_sso_users] stores is active. *)
Theorem every_user_enabled (role_matches : string -> list string -> bool)
    (user_list : option (list ApiUser)) (fetched_groups : dict Group)
    (fetched_assignments : Assignments) (role_filter : option string)
    (include_groups include_assignments : bool) :
  (forall r,
      In r (root_users (get_users_hierarchy role_matches user_list fetched_groups
                          fetched_assignments role_filter include_groups
                          include_assignments)) ->
      root_status r = "Enabled" /\ root_status r <> "Disabled")
  /\ (forall ge gu,
        In ge (groups_of (get_users_hierarchy role_matches user_list fetched_groups
                            fetched_assignments role_filter include_groups
                            include_assignments)) ->
        In gu (ge_owners ge) \/ In gu (ge_members ge) ->
        gu_status gu = "Enabled" /\ gu_status gu <> "Disabled")
  /\ (forall uid user,
        In (uid, user) (_fetch_sso_users user_list) -> user_Active user = true).
Proof.
  unfold get_users_hierarchy. split; [| split]; [| | apply fetched_users_active].
  - intros r Hr. apply role_filter_roots in Hr.
    apply root_users_enabled in Hr; [| apply fetched_users_active].
    rewrite Hr. split; [reflexivity | discriminate].
  - intros ge gu Hge Hgu. apply role_filter_groups in Hge.
    eapply group_users_enabled in Hge; [| apply fetched_users_active | exact Hgu].
    rewrite Hge. split; [reflexivity | discriminate].
Qed.

(** ["u1"] is a member of the group and its inferred owner: it is listed
    among the owners only. *)
Lemma group_owners_members_disjoint_witness :
  map gu_user_id (ge_owners demo_group) = ["u1"]
  /\ ~ In "u1" (map gu_user_id (ge_members demo_group)).
Proof.
  assert (Hin : In demo_group (groups_of demo_hierarchy)) by (left; reflexivity).
  destruct (group_owners_members_disjoint (fun _ _ => true) demo_user_list demo_groups
              demo_assignments None true true demo_group Hin) as [Hdisjoint _].
  split; [reflexivity |].
  apply Hdisjoint. left. reflexivity.
Defined.

Lemma every_user_enabled_witness :
  map root_user_id (root_users demo_hierarchy) = ["u3"]
  /\ Forall (fun r => root_status r = "Enabled") (root_users demo_hierarchy)
  /\ Forall (fun gu => gu_status gu = "Enabled")
       (ge_owners demo_group ++ ge_members demo_group).
Proof.
  destruct (every_user_enabled (fun _ _ => true) demo_user_list demo_groups
              demo_assignments None true true) as (Hroot & Hgroup & _).
  split; [reflexivity |]. split.
  - apply Forall_forall. intros r Hr. now apply Hroot.
  - apply Forall_forall. intros gu Hgu.
    apply (Hgroup demo_group); [left; reflexivity | now apply in_app_or].
Defined.

(* ===================================================================== *)
(** * Properties of the cost aggregation *)
(* ===================================================================== *)

Section CostFacts.
Variable num : Type.
Variable zero : num.
Variable add : num -> num -> num.

Local Abbreviation costs_dict := (dict (CostData num)).
Local Abbreviation record := (string * CostGroup num)%type.

Lemma accumulate_some (v : num) (l : list num) :
  accumulate zero add (Some v) l = Some (fold_left add l v).
Proof.
  revert v. induction l as [| x l IH]; intros v; [reflexivity |].
  cbn [accumulate fold_left or_default]. apply IH.
Qed.

Lemma accumulate_none (l : list num) :
  accumulate zero add None l = match l with [] => None | _ => Some (fold_left add l zero) end.
Proof.
  destruct l as [| x l]; [reflexivity |].
  cbn [accumulate fold_left or_default]. apply accumulate_some.
Qed.

Lemma add_to_get (k k' : string) (amount : num) (d : dict num) :
  dict_get k' (add_to zero add k amount d) =
    if String.eqb k' k then Some (add (or_default (dict_get k' d) zero) amount)
    else dict_get k' d.
Proof.
  unfold add_to, dict_get_default, or_default.
  destruct (String.eqb_spec k' k) as [-> | Hne].
  - apply dict_get_set_eq.
  - now apply dict_get_set_ne.
Qed.

(** What one record changes in the three views. *)
Lemma account_total_step (pc : costs_dict) (r : record) (a : string) :
  account_total (add_record zero add pc r) a =
    if String.eqb a (fst (Keys (snd r)))
    then Some (add (or_default (account_total pc a) zero) (Amount (snd r)))
    else account_total pc a.
Proof.
  unfold add_record, add_group, account_total, dict_get_default.
  destruct (String.eqb_spec a (fst (Keys (snd r)))) as [-> | Hne].
  - rewrite dict_get_set_eq. cbn [option_map total_cost].
    now destruct (dict_get _ pc).
  - now rewrite dict_get_set_ne.
Qed.

Lemma service_total_step (pc : costs_dict) (r : record) (a s : string) :
  service_total (add_record zero add pc r) a s =
    if String.eqb a (fst (Keys (snd r))) && String.eqb s (snd (Keys (snd r)))
    then Some (add (or_default (service_total pc a s) zero) (Amount (snd r)))
    else service_total pc a s.
Proof.
  unfold add_record, add_group, service_total, dict_get_default.
  destruct (String.eqb_spec a (fst (Keys (snd r)))) as [-> | Hne]; cbn [andb].
  - rewrite dict_get_set_eq. cbn [services]. rewrite add_to_get.
    now destruct (dict_get _ pc); destruct (String.eqb s _).
  - now rewrite dict_get_set_ne.
Qed.

Lemma daily_total_step (pc : costs_dict) (r : record) (a d : string) :
  daily_total (add_record zero add pc r) a d =
    if String.eqb a (fst (Keys (snd r))) && String.eqb d (fst r)
    then Some (add (or_default (daily_total pc a d) zero) (Amount (snd r)))
    else daily_total pc a d.
Proof.
  unfold add_record, add_group, daily_total, dict_get_default.
  destruct (String.eqb_spec a (fst (Keys (snd r)))) as [-> | Hne]; cbn [andb].
  - rewrite dict_get_set_eq. cbn [daily_costs]. rewrite add_to_get.
    now destruct (dict_get _ pc); destruct (String.eqb d _).
  - now rewrite dict_get_set_ne.
Qed.

(** A view that every selected record bumps and every other record
    leaves alone ends as the running total of the selected amounts. *)
Lemma view_fold (view : costs_dict -> option num) (selects : record -> bool) :
  (forall pc r,
      view (add_record zero add pc r) =
        if selects r then Some (add (or_default (view pc) zero) (Amount (snd r)))
        else view pc) ->
  forall rs pc,
    view (fold_left (add_record zero add) rs pc)
    = accumulate zero add (view pc) (amounts_of selects rs).
Proof.
  intros Hstep. induction rs as [| r rs IH]; intros pc; [reflexivity |].
  cbn [fold_left]. rewrite IH, Hstep. unfold amounts_of. cbn [filter].
  now destruct (selects r).
Qed.

Lemma process_as_records (raw_data : list (ResultByTime num)) :
  _process_cost_data zero add raw_data
  = fold_left (add_record zero add) (records_of raw_data) [].
Proof.
  unfold _process_cost_data, records_of. generalize (@nil (string * CostData num)).
  induction raw_data as [| result rest IH]; intros pc; [reflexivity |].
  cbn [fold_left flat_map]. rewrite fold_left_app, IH. f_equal.
  generalize (Groups result) pc. clear.
  induction l as [| g gs IHg]; intros pc; [reflexivity | cbn; apply IHg].
Qed.

(** Shuffling the pages shuffles the records. *)
Lemma records_of_pages_perm (raw raw' : list (ResultByTime num)) :
  Permutation raw raw' -> Permutation (records_of raw) (records_of raw').
Proof. intros H. unfold records_of. now apply Permutation_flat_map. Qed.

(** Shuffling the groups of one page shuffles the records. *)
Lemma records_of_groups_perm (before after : list (ResultByTime num))
    (date : string) (gs gs' : list (CostGroup num)) :
  Permutation gs gs' ->
  Permutation (records_of (before ++ mkResultByTime date gs :: after))
              (records_of (before ++ mkResultByTime date gs' :: after)).
Proof.
  intros H. unfold records_of. rewrite !flat_map_app. cbn [flat_map Groups TimePeriod_Start].
  apply Permutation_app_head, Permutation_app_tail. now apply Permutation_map.
Qed.

Lemma accumulate_present (l l' : list num) :
  Permutation l l' -> present (accumulate zero add None l) = present (accumulate zero add None l').
Proof.
  intros H. rewrite !accumulate_none.
  destruct l as [| x l], l' as [| x' l']; try reflexivity.
  - apply Permutation_nil in H. discriminate.
  - symmetry in H. apply Permutation_nil in H. discriminate.
Qed.

Lemma amounts_of_perm (selects : record -> bool) (rs rs' : list record) :
  Permutation rs rs' -> Permutation (amounts_of selects rs) (amounts_of selects rs').
Proof.
  intros Hperm. unfold amounts_of. apply Permutation_map.
  induction Hperm as [| r l l' _ IH | r r' l | l l' l'' _ IH1 _ IH2]; cbn [filter].
  - reflexivity.
  - destruct (selects r); [now apply perm_skip | exact IH].
  - destruct (selects r), (selects r'); try reflexivity. apply perm_swap.
  - now rewrite IH1.
Qed.

Lemma fold_left_add_perm (l l' : list num) :
  (forall x y, add x y = add y x) ->
  (forall x y z, add x (add y z) = add (add x y) z) ->
  Permutation l l' -> forall z, fold_left add l z = fold_left add l' z.
Proof.
  intros add_comm add_assoc.
  induction 1 as [| x l l' _ IH | x y l | l l' l'' _ IH1 _ IH2]; intros z; cbn.
  - reflexivity.
  - apply IH.
  - f_equal. rewrite <- !add_assoc. f_equal. apply add_comm.
  - now rewrite IH1.
Qed.

Lemma accumulate_perm (l l' : list num) :
  (forall x y, add x y = add y x) ->
  (forall x y z, add x (add y z) = add (add x y) z) ->
  Permutation l l' -> accumulate zero add None l = accumulate zero add None l'.
Proof.
  intros add_comm add_assoc H. rewrite !accumulate_none.
  destruct l as [| x l].
  - apply Permutation_nil in H. now subst.
  - destruct l' as [| x' l'].
    + symmetry in H. apply Permutation_nil in H. discriminate.
    + f_equal. now apply fold_left_add_perm.
Qed.

(** A view of the result is the running total, in feed order, of the
    amounts it selects. *)
Lemma view_process (view : costs_dict -> option num) (selects : record -> bool)
    (raw : list (ResultByTime num)) :
  (forall pc r,
      view (add_record zero add pc r) =
        if selects r then Some (add (or_default (view pc) zero) (Amount (snd r)))
        else view pc) ->
  view [] = None ->
  view (_process_cost_data zero add raw)
  = accumulate zero add None (amounts_of selects (records_of raw)).
Proof.
  intros Hstep Hnil. now rewrite process_as_records, (view_fold _ _ Hstep), Hnil.
Qed.

Lemma account_total_process (raw : list (ResultByTime num)) (a : string) :
  account_total (_process_cost_data zero add raw) a
  = accumulate zero add None
      (amounts_of (fun r => String.eqb a (fst (Keys (snd r)))) (records_of raw)).
Proof.
  apply (@view_process (fun pc => account_total pc a)); [| reflexivity].
  intros pc r. apply account_total_step.
Qed.

Lemma service_total_process (raw : list (ResultByTime num)) (a s : string) :
  service_total (_process_cost_data zero add raw) a s
  = accumulate zero add None
      (amounts_of (fun r => String.eqb a (fst (Keys (snd r)))
                            && String.eqb s (snd (Keys (snd r))))
                  (records_of raw)).
Proof.
  apply (@view_process (fun pc => service_total pc a s)); [| reflexivity].
  intros pc r. apply service_total_step.
Qed.

Lemma daily_total_process (raw : list (ResultByTime num)) (a d : string) :
  daily_total (_process_cost_data zero add raw) a d
  = accumulate zero add None
      (amounts_of (fun r => String.eqb a (fst (Keys (snd r))) && String.eqb d (fst r))
                  (records_of raw)).
Proof.
  apply (@view_process (fun pc => daily_total pc a d)); [| reflexivity].
  intros pc r. apply daily_total_step.
Qed.

Lemma sum_from_zero_accumulate (l : list num) :
  accumulate zero add None l = sum_from_zero zero add l.
Proof. rewrite accumulate_none. now destruct l. Qed.

(** C4, as the code has it.  Every total that the aggregator reports is
    the sum, from the left and starting at zero, of the amounts of its
    records in the order they are fed, and it is absent when no record
    counts for it.  Feeding the same (date, account, service, amount)
    records in another order, pages or groups shuffled, gives the same
    accounts, the same services and the same dates per account; the totals
    themselves are the same when the addition of amounts is commutative and
    associative. *)
Theorem cost_totals_order_independent (raw : list (ResultByTime num)) :
  ((forall account_id,
       account_total (_process_cost_data zero add raw) account_id
       = sum_from_zero zero add
           (amounts_of (of_account account_id) (records_of raw)))
   /\ (forall account_id service,
         service_total (_process_cost_data zero add raw) account_id service
         = sum_from_zero zero add
             (amounts_of (of_service account_id service) (records_of raw)))
   /\ (forall account_id date,
         daily_total (_process_cost_data zero add raw) account_id date
         = sum_from_zero zero add
             (amounts_of (of_date account_id date) (records_of raw))))
  /\ forall raw',
      Permutation (records_of raw) (records_of raw') ->
      (forall account_id,
          present (account_total (_process_cost_data zero add raw) account_id)
          = present (account_total (_process_cost_data zero add raw') account_id))
      /\ (forall account_id service,
            present (service_total (_process_cost_data zero add raw) account_id service)
            = present (service_total (_process_cost_data zero add raw') account_id service))
      /\ (forall account_id date,
            present (daily_total (_process_cost_data zero add raw) account_id date)
            = present (daily_total (_process_cost_data zero add raw') account_id date))
      /\ ((forall x y, add x y = add y x) ->
          (forall x y z, add x (add y z) = add (add x y) z) ->
          (forall account_id,
              account_total (_process_cost_data zero add raw) account_id
              = account_total (_process_cost_data zero add raw') account_id)
          /\ (forall account_id service,
                service_total (_process_cost_data zero add raw) account_id service
                = service_total (_process_cost_data zero add raw') account_id service)
          /\ (forall account_id date,
                daily_total (_process_cost_data zero add raw) account_id date
                = daily_total (_process_cost_data zero add raw') account_id date)).
Proof.
  split; [split; [| split] |].
  - intros a. rewrite account_total_process. apply sum_from_zero_accumulate.
  - intros a s. rewrite service_total_process. apply sum_from_zero_accumulate.
  - intros a d. rewrite daily_total_process. apply sum_from_zero_accumulate.
  - intros raw' Hperm. split; [| split; [| split]].
    + intros a. rewrite !account_total_process.
      now apply accumulate_present, amounts_of_perm.
    + intros a s. rewrite !service_total_process.
      now apply accumulate_present, amounts_of_perm.
    + intros a d. rewrite !daily_total_process.
      now apply accumulate_present, amounts_of_perm.
    + intros add_comm add_assoc. split; [| split].
      * intros a. rewrite !account_total_process.
        now apply accumulate_perm, amounts_of_perm.
      * intros a s. rewrite !service_total_process.
        now apply accumulate_perm, amounts_of_perm.
      * intros a d. rewrite !daily_total_process.
        now apply accumulate_perm, amounts_of_perm.
Qed.
End CostFacts.

(** C4 fails as stated: on floats the account total of the three pages is
    0.6000000000000001, and 0.6 when the pages come in reverse order. *)
Lemma float_totals_depend_on_order :
  Permutation float_pages (rev float_pages)
  /\ account_total (process_cost_data_float float_pages) "123456789012"
     = Some 0x1.3333333333334p-1%float
  /\ account_total (process_cost_data_float (rev float_pages)) "123456789012"
     = Some 0x1.3333333333333p-1%float
  /\ account_total (process_cost_data_float float_pages) "123456789012"
     <> account_total (process_cost_data_float (rev float_pages)) "123456789012".
Proof.
  split; [apply Permutation_rev |].
  split; [vm_compute; reflexivity |].
  split; [vm_compute; reflexivity |].
  intros H. apply (f_equal (option_map Prim2SF)) in H.
  vm_compute in H. discriminate.
Qed.

(** The three float pages and their reverse: each total is the sum from
    the left in feed order and the keys are the same; on exact numbers the
    totals are the same too. *)
Lemma cost_totals_order_independent_witness :
  account_total (process_cost_data_float float_pages) "123456789012"
  = Some (0 + one_tenth + two_tenths + three_tenths)%float
  /\ account_total (process_cost_data_float (rev float_pages)) "123456789012"
     = Some (0 + three_tenths + two_tenths + one_tenth)%float
  /\ service_total (process_cost_data_float float_pages) "123456789012" "Amazon S3" = None
  /\ daily_total (process_cost_data_float float_pages) "123456789012" "2024-03-02"
     = Some (0 + two_tenths)%float
  /\ present (account_total (process_cost_data_float float_pages) "123456789012")
     = present (account_total (process_cost_data_float (rev float_pages)) "123456789012")
  /\ account_total (_process_cost_data 0%Z Z.add exact_pages) "123456789012"
     = account_total (_process_cost_data 0%Z Z.add (rev exact_pages)) "123456789012".
Proof.
  destruct (@cost_totals_order_independent float 0%float PrimFloat.add float_pages)
    as [(Haccount & Hservice & Hdaily) Hshuffled].
  destruct (@cost_totals_order_independent float 0%float PrimFloat.add (rev float_pages))
    as [(Hreversed & _ & _) _].
  destruct (@cost_totals_order_independent Z 0%Z Z.add exact_pages) as [_ Hexact].
  split; [exact (Haccount "123456789012") |].
  split; [exact (Hreversed "123456789012") |].
  split; [exact (Hservice "123456789012" "Amazon S3") |].
  split; [exact (Hdaily "123456789012" "2024-03-02") |].
  split.
  - apply (Hshuffled (rev float_pages)).
    apply records_of_pages_perm, Permutation_rev.
  - apply (Hexact (rev exact_pages)).
    + apply records_of_pages_perm, Permutation_rev.
    + exact Z.add_comm.
    + exact Z.add_assoc.
Defined.

(* ===================================================================== *)
(** * Properties of the budget analysis *)
(* ===================================================================== *)

Lemma not_negative_spec (x : float) :
  (x <? 0)%float = false <-> sf_nonneg (Prim2SF x) = true.
Proof.
  rewrite FloatAxioms.ltb_spec. change (Prim2SF 0) with (S754_zero false).
  destruct (Prim2SF x) as [s | s | | s m e]; cbn; try destruct s; cbn; intuition congruence.
Qed.

Lemma positive_not_negative (x : float) :
  (0 <? x)%float = true -> (x <? 0)%float = false.
Proof.
  rewrite not_negative_spec, FloatAxioms.ltb_spec.
  change (Prim2SF 0) with (S754_zero false).
  destruct (Prim2SF x) as [s | s | | s m e]; cbn; try destruct s; cbn; congruence.
Qed.

Lemma py_max0_not_negative (x : float) : (py_max0 x <? 0)%float = false.
Proof.
  unfold py_max0. destruct (0 <? x)%float eqn:E.
  - now apply positive_not_negative.
  - reflexivity.
Qed.

Lemma binary_round_aux_nonneg (mx ex : Z) (lx : location) :
  sf_nonneg (binary_round_aux prec emax false mx ex lx) = true.
Proof.
  unfold binary_round_aux.
  destruct (shr_fexp prec emax mx ex lx) as [mrs e'].
  destruct (shr_fexp prec emax _ e' loc_Exact) as [mrs' e''].
  destruct (shr_m mrs'); [reflexivity | | reflexivity].
  now destruct (e'' <=? emax - prec)%Z.
Qed.

Lemma binary_normalize_nonneg (n : Z) :
  (0 <= n)%Z -> sf_nonneg (binary_normalize prec emax n 0 false) = true.
Proof.
  intros Hn. destruct n as [| p | p]; [reflexivity | | lia].
  cbn [binary_normalize]. unfold binary_round.
  destruct (shl_align _ _ _) as [mz ez]. apply binary_round_aux_nonneg.
Qed.

Lemma SFdiv_nonneg (x : spec_float) (m : positive) (e : Z) :
  sf_nonneg x = true -> sf_nonneg (SFdiv prec emax x (S754_finite false m e)) = true.
Proof.
  destruct x as [s | s | | s mx ex]; cbn [SFdiv sf_nonneg]; try reflexivity.
  - now rewrite xorb_false_r.
  - intros Hs. apply negb_true_iff in Hs. subst s. cbn [xorb].
    destruct (SFdiv_core_binary _ _ _ _ _ _) as [[mz ez] lz].
    apply binary_round_aux_nonneg.
Qed.

(** Rounding to two decimals never produces a negative number from one
    that is not negative. *)
Lemma py_round2_not_negative (x : float) :
  (x <? 0)%float = false -> (py_round2 x <? 0)%float = false.
Proof.
  rewrite !not_negative_spec. unfold py_round2.
  destruct (Prim2SF x) as [s | s | | s m e] eqn:E; try (intros _; now rewrite E).
  - intros H. rewrite E. exact H.
  - cbn [sf_nonneg]. intros Hs. apply negb_true_iff in Hs. subst s.
    destruct (scaled_hundredths m e <? 2 ^ 53)%Z; [| now rewrite E].
    rewrite FloatAxioms.div_spec, FloatAxioms.of_uint63_spec.
    change (Prim2SF 100) with (S754_finite false 7036874417766400 (-46)).
    apply SFdiv_nonneg, binary_normalize_nonneg.
    apply Uint63.to_Z_bounded.
Qed.

(** ** The entries of the analysis *)

Lemma analyze_fold_projects (budgets : dict float) (costs : dict (CostData float))
    (acc : Running) :
  run_projects (fold_left (analyze_step budgets) costs acc)
  = run_projects acc
    ++ map (fun item => analyze_project budgets (fst item) (snd item)) costs.
Proof.
  revert acc. induction costs as [| item costs IH]; intros acc; cbn [fold_left map].
  - now rewrite app_nil_r.
  - rewrite IH. cbn [analyze_step run_projects]. now rewrite <- app_assoc.
Qed.

Lemma analysis_projects (costs : dict (CostData float)) (budgets : dict float) :
  projects (_analyze_project_budgets costs budgets)
  = map (fun item => analyze_project budgets (fst item) (snd item)) costs.
Proof.
  unfold _analyze_project_budgets. cbn [projects].
  now rewrite analyze_fold_projects.
Qed.

Lemma analysis_projects_in (costs : dict (CostData float)) (budgets : dict float)
    (p : ProjectAnalysis) :
  In p (projects (_analyze_project_budgets costs budgets)) ->
  exists cost_data,
    In (project_id p, cost_data) costs
    /\ p = analyze_project budgets (project_id p) cost_data.
Proof.
  rewrite analysis_projects, in_map_iff. intros ([account_id cost_data] & <- & Hin).
  now exists cost_data.
Qed.

(** C3, as the code has it.  There is one entry per account with cost
    data.  An entry is overbudget exactly when its cost is above its budget
    and the budget is above 0, and within budget otherwise; its utilization
    is cost / budget * 100 rounded to two decimals when the budget is above
    0, and 0 otherwise. *)
Theorem budget_classification (costs : dict (CostData float)) (budgets : dict float) :
  map project_id (projects (_analyze_project_budgets costs budgets)) = dict_keys costs
  /\ forall p,
      In p (projects (_analyze_project_budgets costs budgets)) ->
      (exists cost_data,
          In (project_id p, cost_data) costs /\ actual_cost p = total_cost cost_data)
      /\ budget p = dict_get_default (project_id p) 0%float budgets
      /\ (budget_status p = "overbudget" <->
          (budget p <? actual_cost p)%float = true /\ (0 <? budget p)%float = true)
      /\ (budget_status p <> "overbudget" -> budget_status p = "within_budget")
      /\ ((0 <? budget p)%float = true ->
          budget_utilization p = py_round2 (actual_cost p / budget p * 100)%float)
      /\ ((0 <? budget p)%float = false -> budget_utilization p = 0%float).
Proof.
  split.
  - rewrite analysis_projects, map_map. reflexivity.
  - intros p Hp. apply analysis_projects_in in Hp as (cost_data & Hin & Hp).
    rewrite Hp. cbn [analyze_project project_id actual_cost budget budget_status
                       budget_utilization].
    set (b := dict_get_default (project_id p) 0%float budgets).
    set (c := total_cost cost_data).
    split; [now exists cost_data |]. split; [reflexivity |].
    destruct (b <? c)%float, (0 <? b)%float; cbn [andb];
      repeat split; try reflexivity; try discriminate; try tauto; intuition congruence.
Qed.

(** The spec's three examples: budget 100 and cost 150 is overbudget at
    150.0; budget 0 and cost 150 is within budget at 0; budget 200 and cost
    150 is within budget at 75.0. *)
Lemma budget_classification_witness :
  (budget_status (analyze_project [("a", 100%float)] "a" (cost_of 150)) = "overbudget"
   /\ budget_utilization (analyze_project [("a", 100%float)] "a" (cost_of 150)) = 150%float)
  /\ (budget_status (analyze_project [("a", 0%float)] "a" (cost_of 150)) = "within_budget"
      /\ budget_utilization (analyze_project [("a", 0%float)] "a" (cost_of 150)) = 0%float)
  /\ (budget_status (analyze_project [("a", 200%float)] "a" (cost_of 150)) = "within_budget"
      /\ budget_utilization (analyze_project [("a", 200%float)] "a" (cost_of 150)) = 75%float).
Proof.
  pose proof (proj2 (budget_classification [("a", cost_of 150)] [("a", 100%float)])
                (analyze_project [("a", 100%float)] "a" (cost_of 150))
                (or_introl eq_refl)) as (_ & _ & H1 & _ & U1 & _).
  pose proof (proj2 (budget_classification [("a", cost_of 150)] [("a", 0%float)])
                (analyze_project [("a", 0%float)] "a" (cost_of 150))
                (or_introl eq_refl)) as (_ & _ & _ & W2 & _ & U2).
  pose proof (proj2 (budget_classification [("a", cost_of 150)] [("a", 200%float)])
                (analyze_project [("a", 200%float)] "a" (cost_of 150))
                (or_introl eq_refl)) as (_ & _ & _ & W3 & U3 & _).
  split; [split | split; split].
  - apply H1. split; reflexivity.
  - rewrite U1 by reflexivity. vm_compute. reflexivity.
  - apply W2. vm_compute. discriminate.
  - apply U2. reflexivity.
  - apply W3. vm_compute. discriminate.
  - rewrite U3 by reflexivity. vm_compute. reflexivity.
Defined.

(** C3 fails as stated: with budget 300 and cost 100 the reported
    utilization is 33.33, not 100 / 300 * 100. *)
Lemma utilization_is_rounded :
  budget_utilization (analyze_project [("a", 300%float)] "a" (cost_of 100))
  = 0x1.0aa3d70a3d70ap+5%float
  /\ (100 / 300 * 100)%float = 0x1.0aaaaaaaaaaaap+5%float
  /\ budget_utilization (analyze_project [("a", 300%float)] "a" (cost_of 100))
     <> (100 / 300 * 100)%float.
Proof.
  split; [vm_compute; reflexivity |].
  split; [vm_compute; reflexivity |].
  intros H. apply (f_equal Prim2SF) in H. vm_compute in H. discriminate.
Qed.

(** ** Remaining budget and overage *)

Lemma analyze_project_remaining (budgets : dict float) (account_id : string)
    (cost_data : CostData float) :
  let p := analyze_project budgets account_id cost_data in
  remaining_budget p = py_max0 (budget p - actual_cost p)
  /\ overage p = py_max0 (actual_cost p - budget p).
Proof. split; reflexivity. Qed.

(** C10, as the code has it.  In every project entry the remaining budget
    is max(0, budget - cost) and the overage is max(0, cost - budget), and
    neither is negative.  The summary of the analysis and the institution
    totals carry no overage; their remaining budget is max(0, total budget
    - total cost) rounded to two decimals, taken in the summary over the
    totals already rounded, and is not negative either, whichever way the
    interpreter's [sum] adds. *)
Theorem remaining_budget_not_negative (algorithm : SumAlgorithm)
    (costs : dict (CostData float)) (budgets : dict float) :
  (forall p,
      In p (projects (_analyze_project_budgets costs budgets)) ->
      remaining_budget p = py_max0 (budget p - actual_cost p)
      /\ overage p = py_max0 (actual_cost p - budget p)
      /\ (remaining_budget p <? 0)%float = false
      /\ (overage p <? 0)%float = false)
  /\ (summary_remaining_budget (summary (_analyze_project_budgets costs budgets))
      = py_round2
          (py_max0
             (summary_total_budget (summary (_analyze_project_budgets costs budgets))
              - summary_total_cost (summary (_analyze_project_budgets costs budgets))))
      /\ (summary_remaining_budget (summary (_analyze_project_budgets costs budgets)) <? 0)%float
         = false)
  /\ (inst_remaining_budget (institution_totals algorithm costs budgets)
      = py_round2
          (py_max0
             (py_sum algorithm
                (map budget (projects (_analyze_project_budgets costs budgets)))
              - py_sum algorithm (map (@total_cost float) (dict_values costs))))
      /\ (inst_remaining_budget (institution_totals algorithm costs budgets) <? 0)%float
         = false).
Proof.
  split; [| split].
  - intros p Hp. apply analysis_projects_in in Hp as (cost_data & _ & Hp).
    rewrite Hp. cbn [analyze_project remaining_budget overage budget actual_cost].
    repeat split; apply py_max0_not_negative.
  - split; [reflexivity |].
    cbn [_analyze_project_budgets summary summary_remaining_budget].
    apply py_round2_not_negative, py_max0_not_negative.
  - split; [reflexivity |].
    cbn [institution_totals _calculate_institution_costs inst_remaining_budget].
    apply py_round2_not_negative, py_max0_not_negative.
Qed.

(** C10 fails as stated for the summaries.  With budget 100 and cost
    33.333 they report a remaining budget of 66.67, while max(0, budget -
    cost) is 66.667, the figure the project entry carries.  With budget
    100.004 and cost 50.006 the institution totals report 50.0, which is
    neither max(0, budget - cost) = 49.998 nor the difference 49.99 of the
    totals 100.0 and 50.01 reported beside it. *)
Lemma summary_remaining_is_rounded :
  map remaining_budget (projects (_analyze_project_budgets third_spent budget_hundred))
  = [0x1.0aab020c49ba6p+6%float]
  /\ py_max0 (100 - 0x1.0aa9fbe76c8b4p+5)%float = 0x1.0aab020c49ba6p+6%float
  /\ summary_remaining_budget (summary (_analyze_project_budgets third_spent budget_hundred))
     = 0x1.0aae147ae147bp+6%float
  /\ (forall algorithm,
        inst_remaining_budget (institution_totals algorithm third_spent budget_hundred)
        = 0x1.0aae147ae147bp+6%float)
  /\ summary_remaining_budget (summary (_analyze_project_budgets third_spent budget_hundred))
     <> py_max0 (100 - 0x1.0aa9fbe76c8b4p+5)%float
  /\ (forall algorithm,
        inst_remaining_budget (institution_totals algorithm third_spent budget_hundred)
        <> py_max0 (100 - 0x1.0aa9fbe76c8b4p+5)%float)
  /\ (forall algorithm,
        inst_remaining_budget (institution_totals algorithm half_spent budget_odd)
        = 50%float)
  /\ py_max0 (0x1.9004189374bc7p+6 - 0x1.900c49ba5e354p+5)%float
     = 0x1.8ffbe76c8b43ap+5%float
  /\ (forall algorithm,
        py_max0 (inst_total_budget (institution_totals algorithm half_spent budget_odd)
                 - inst_total_cost (institution_totals algorithm half_spent budget_odd))%float
        = 0x1.8feb851eb851fp+5%float)
  /\ (forall algorithm,
        inst_remaining_budget (institution_totals algorithm half_spent budget_odd)
        <> py_max0 (inst_total_budget (institution_totals algorithm half_spent budget_odd)
                    - inst_total_cost (institution_totals algorithm half_spent budget_odd))%float).
Proof.
  split; [vm_compute; reflexivity |].
  split; [vm_compute; reflexivity |].
  split; [vm_compute; reflexivity |].
  split; [intros []; vm_compute; reflexivity |].
  split; [intros H; apply (f_equal Prim2SF) in H; vm_compute in H; discriminate |].
  split; [intros [] H; apply (f_equal Prim2SF) in H; vm_compute in H; discriminate |].
  split; [intros []; vm_compute; reflexivity |].
  split; [vm_compute; reflexivity |].
  split; [intros []; vm_compute; reflexivity |].
  intros [] H; apply (f_equal Prim2SF) in H; vm_compute in H; discriminate.
Qed.

(** An overbudget account and an account without budget: nothing is
    negative. *)
Lemma remaining_budget_not_negative_witness :
  remaining_budget (analyze_project [("a", 100%float)] "a" (cost_of 150)) = 0%float
  /\ overage (analyze_project [("a", 100%float)] "a" (cost_of 150)) = 50%float
  /\ (overage (analyze_project [] "b" (cost_of 150)) <? 0)%float = false.
Proof.
  pose proof (proj1 (remaining_budget_not_negative LeftToRight
                       [("a", cost_of 150)] [("a", 100%float)])
                (analyze_project [("a", 100%float)] "a" (cost_of 150))
                (or_introl eq_refl)) as (R1 & O1 & _).
  pose proof (proj1 (remaining_budget_not_negative Compensated [("b", cost_of 150)] [])
                (analyze_project [] "b" (cost_of 150))
                (or_introl eq_refl)) as (_ & _ & _ & N2).
  split; [| split].
  - rewrite R1. vm_compute. reflexivity.
  - rewrite O1. vm_compute. reflexivity.
  - exact N2.
Defined.

(* ===================================================================== *)
(** * Properties of the credential store *)
(* ===================================================================== *)

Lemma credentials_by_validity (store : CredentialStore) (name : string) :
  get_institution_credentials store name
  = if validate_institution store name then dict_get name (or_default store []) else None.
Proof.
  destruct store as [d |]; [| reflexivity]. cbn.
  destruct d as [| kv d]; [reflexivity |]. cbn [is_empty].
  now destruct (dict_mem name (kv :: d)).
Qed.

Lemma valid_institution_has_credentials (store : CredentialStore) (name : string) :
  validate_institution store name = true <->
  exists credentials, get_institution_credentials store name = Some credentials.
Proof.
  rewrite credentials_by_validity. destruct (validate_institution store name) eqn:Hv.
  - split; [intros _ | reflexivity].
    destruct store as [d |]; [| discriminate]. cbn in *.
    now apply dict_mem_get.
  - split; [discriminate | intros [c H]; discriminate].
Qed.

(** X1.  The three lookups of the credential store agree: [validate_institution]
    holds exactly for the names that [get_available_institutions] lists,
    and exactly when [get_institution_credentials] answers, which it does
    with the entry stored under the name. *)
Theorem institution_lookups_agree (store : CredentialStore) (name : string) :
  (validate_institution store name = true <-> In name (get_available_institutions store))
  /\ (validate_institution store name = true <->
      exists credentials, get_institution_credentials store name = Some credentials)
  /\ (validate_institution store name = true ->
      get_institution_credentials store name
      = dict_get name (or_default store [])).
Proof.
  split; [| split].
  - destruct store as [d |]; cbn.
    + destruct d as [| kv d]; [cbn; split; [discriminate | tauto] |].
      cbn [is_empty]. apply dict_mem_keys.
    + split; [discriminate | tauto].
  - apply valid_institution_has_credentials.
  - intros Hv. now rewrite credentials_by_validity, Hv.
Qed.

Section MoreCache.
Variable boto3_ok : string -> string -> string -> string -> bool.
Variable store : CredentialStore.

(** X5.  A call that returns no client changes nothing. *)
Theorem get_aws_client_failure_not_cached st service institution region st' :
  get_aws_client boto3_ok store st service institution region = (None, st') ->
  st' = st.
Proof.
  intros H. destruct (get_aws_client_cases _ _ _ _ _ _ H) as [E | (c & _ & _ & E & _)];
    [exact E | discriminate].
Qed.

(** X6.  For an institution that is not configured nothing is constructed. *)
Theorem get_aws_client_unknown_institution st service institution region :
  validate_institution store institution = false ->
  get_aws_client boto3_ok store st service institution region
  = (dict_get (cache_key service institution region) (aws_clients_cache st), st).
Proof.
  intros Hv. unfold get_aws_client.
  destruct (dict_get _ (aws_clients_cache st)) as [c |]; [reflexivity |].
  assert (Hc : get_institution_credentials store institution = None).
  { destruct (get_institution_credentials store institution) as [c |] eqn:E; [| reflexivity].
    pose proof (proj2 (valid_institution_has_credentials store institution)
                  (ex_intro _ c E)). congruence. }
  now rewrite Hc.
Qed.
End MoreCache.

Lemma has_value_get (k : string) (credentials : Credentials) :
  has_value k credentials = true ->
  exists v, dict_get k credentials = Some v /\ v <> "".
Proof.
  unfold has_value, truthy. destruct (dict_get k credentials) as [v |]; [| discriminate].
  intros H. exists v. split; [reflexivity |].
  apply negb_true_iff, String.eqb_neq in H. exact H.
Qed.

(** X2.  After a successful start every configured institution has its key
    pair, and a call that misses the cache constructs the client with the
    pair stored for the institution it names, or returns [None] when the
    construction fails. *)
Theorem initialized_client_uses_own_credentials
    (boto3_ok : string -> string -> string -> string -> bool)
    (loaded : option (dict Credentials)) (store : CredentialStore)
    (st : ClientState) (service institution region : string) :
  initialize_aws_credentials loaded = (store, true) ->
  validate_institution store institution = true ->
  dict_get (cache_key service institution region) (aws_clients_cache st) = None ->
  exists credentials access_key secret_key,
    get_institution_credentials store institution = Some credentials
    /\ dict_get "aws_access_key_id" credentials = Some access_key
    /\ dict_get "aws_secret_access_key" credentials = Some secret_key
    /\ access_key <> "" /\ secret_key <> ""
    /\ get_aws_client boto3_ok store st service institution region
       = if boto3_ok service access_key secret_key region
         then (Some (mkClient (next_client_id st) service access_key secret_key region),
               mkClientState
                 (dict_set (cache_key service institution region)
                    (mkClient (next_client_id st) service access_key secret_key region)
                    (aws_clients_cache st))
                 (S (next_client_id st)))
         else (None, st).
Proof.
  unfold initialize_aws_credentials. destruct loaded as [d |]; [| discriminate].
  destruct (is_empty d) eqn:Hempty; [discriminate |].
  destruct (forallb _ d) eqn:Hall; [| discriminate].
  intros [= <-] Hvalid Hmiss.
  pose proof (valid_institution_has_credentials (Some d) institution) as Hex.
  pose proof (credentials_by_validity (Some d) institution) as Hget.
  rewrite Hvalid in Hget. cbn [or_default] in Hget.
  destruct (proj1 Hex Hvalid) as [credentials Hcred].
  rewrite Hcred in Hget. symmetry in Hget. apply dict_get_In in Hget.
  rewrite forallb_forall in Hall. specialize (Hall _ Hget). cbn in Hall.
  apply andb_true_iff in Hall as [Ha Hs].
  apply has_value_get in Ha as (ak & Hak & Hak_ne).
  apply has_value_get in Hs as (sk & Hsk & Hsk_ne).
  exists credentials, ak, sk. repeat (split; [assumption |]).
  unfold get_aws_client. rewrite Hmiss, Hcred, Hak, Hsk.
  destruct credentials as [| kv rest]; [discriminate |]. reflexivity.
Qed.

(* ===================================================================== *)
(** * Properties of the order of the walk *)
(* ===================================================================== *)

Lemma parents_first_app (l1 l2 : list OuRecord) :
  forall seen,
    parents_first seen (l1 ++ l2)
    = parents_first seen l1 && parents_first (rev (map ou_Id l1) ++ seen) l2.
Proof.
  induction l1 as [| r l1 IH]; intros seen; cbn [app parents_first map rev].
  - reflexivity.
  - rewrite IH, <- app_assoc. cbn [app]. now rewrite andb_assoc.
Qed.

Lemma parents_first_more (l : list OuRecord) :
  forall seen seen',
    (forall x, In x seen -> In x seen') ->
    parents_first seen l = true -> parents_first seen' l = true.
Proof.
  induction l as [| r l IH]; intros seen seen' Hsub; cbn [parents_first]; [reflexivity |].
  rewrite !andb_true_iff. intros [Hp Hrest]. split.
  - apply str_in_In. apply Hsub. now apply str_in_In.
  - apply (IH (ou_Id r :: seen)); [| exact Hrest].
    intros x [<- | Hx]; [now left | right; auto].
Qed.

Lemma walk_ou_parents_first (ou : OrgUnit) :
  forall parent_id level seen,
    In parent_id seen -> parents_first seen (walk_ou parent_id level ou) = true.
Proof.
  induction ou as [id name children IH] using OrgUnit_forall_ind.
  intros parent_id level seen Hin. cbn [walk_ou parents_first ou_ParentId ou_Id].
  apply andb_true_iff. split; [now apply str_in_In |].
  assert (Hid : In id (id :: seen)) by now left.
  revert Hid. generalize (id :: seen) as seen'. clear Hin.
  induction children as [| c cs IHcs]; intros seen' Hid; [reflexivity |].
  cbn [flat_map]. rewrite parents_first_app. inversion IH as [| ? ? Hc Hcs]; subst.
  apply andb_true_iff. split.
  - now apply Hc.
  - apply IHcs; [exact Hcs |]. apply in_or_app. now right.
Qed.

(** X11.  Every unit the walk emits has for parent the root or a unit emitted
    before it. *)
Theorem walk_emits_parents_first (root_id : string) (top : list OrgUnit) :
  parents_first [root_id] (all_ous_of root_id top) = true.
Proof.
  unfold all_ous_of, get_all_ous.
  assert (Hroot : In root_id [root_id]) by now left.
  revert Hroot. generalize [root_id] as seen.
  induction top as [| ou rest IH]; intros seen Hroot; [reflexivity |].
  cbn [flat_map]. rewrite parents_first_app. apply andb_true_iff. split.
  - now apply walk_ou_parents_first.
  - apply IH. apply in_or_app. now right.
Qed.

(* ===================================================================== *)
(** * Properties of the redaction *)
(* ===================================================================== *)

(** Induction over a value and, through [Forall], the values inside it. *)
Lemma Json_forall_ind (P : Json -> Prop) :
  P JNull ->
  (forall b, P (JBool b)) ->
  (forall n, P (JNum n)) ->
  (forall s, P (JStr s)) ->
  (forall elements, Forall P elements -> P (JList elements)) ->
  (forall items, Forall (fun kv => P (snd kv)) items -> P (JDict items)) ->
  forall data, P data.
Proof.
  intros Hnull Hbool Hnum Hstr Hlist Hdict. fix IH 1.
  intros [| b | n | s | elements | items];
    [exact Hnull | apply Hbool | apply Hnum | apply Hstr | |].
  - apply Hlist. induction elements as [| x l IHl]; constructor; [apply IH | exact IHl].
  - apply Hdict. induction items as [| [k v] l IHl]; constructor; [apply IH | exact IHl].
Qed.

Section SanitizeFacts.
Variable lower : string -> string.

Lemma with_elements_ind (P : Json -> Prop) :
  (forall data, match data with JDict _ => False | _ => True end -> P data) ->
  (forall items, Forall (fun kv => with_elements P (snd kv)) items -> P (JDict items)) ->
  forall data, with_elements P data.
Proof.
  intros Hscalar Hdict.
  induction data as [| | | | elements IH | items IH] using Json_forall_ind;
    try (split; [now apply Hscalar | exact I]).
  - split; [now apply Hscalar |].
    eapply Forall_impl; [| exact IH]. now intros a [Ha _].
  - split; [| exact I]. now apply Hdict.
Qed.

(** X8.  Sanitising a sanitised response changes nothing. *)
Theorem sanitize_idempotent (data : Json) :
  sanitize_aws_response lower (sanitize_aws_response lower data)
  = sanitize_aws_response lower data.
Proof.
  refine (proj1 (@with_elements_ind
                   (fun data =>
                      sanitize_aws_response lower (sanitize_aws_response lower data)
                      = sanitize_aws_response lower data) _ _ data)).
  - now intros [].
  - intros items IH. cbn [sanitize_aws_response]. f_equal. rewrite map_map.
    apply map_ext_in. intros [key value] Hin.
    rewrite Forall_forall in IH. destruct (IH _ Hin) as [Hvalue Helements].
    cbn [snd] in Hvalue, Helements.
    destruct (is_sensitive lower key) eqn:Hs.
    + cbv beta iota. now rewrite Hs.
    + destruct value as [| b | n | s | elements | sub]; cbv beta iota;
        try now rewrite Hs.
      * rewrite Hs. f_equal. f_equal. rewrite map_map.
        apply map_ext_in. intros item Hitem.
        rewrite Forall_forall in Helements. specialize (Helements _ Hitem).
        now destruct item.
      * cbn [sanitize_aws_response] in Hvalue |- *. rewrite Hs.
        f_equal. exact Hvalue.
Qed.

(** Where a sanitised dict holds a value under a key, the dict it came
    from holds one under the same key, and the value is the marker when the
    key is sensitive. *)
Lemma holds_sanitized (data : Json) :
  forall key value,
    holds (sanitize_aws_response lower data) key value ->
    (is_sensitive lower key = true -> value = REDACTED)
    /\ exists original, holds data key original.
Proof.
  refine (proj1 (@with_elements_ind
                   (fun data => forall key value,
                        holds (sanitize_aws_response lower data) key value ->
                        (is_sensitive lower key = true -> value = REDACTED)
                        /\ exists original, holds data key original) _ _ data)).
  - intros [] Hd key value H; try contradiction; inversion H.
  - intros items IH key value H. rewrite Forall_forall in IH.
    cbn [sanitize_aws_response] in H.
    inversion H as [items0 key0 value0 Hin
                   | items0 k sub key0 value0 Hin Hsub
                   | items0 k elements sub key0 value0 Hin Hel Hsub]; subst;
      apply in_map_iff in Hin as ([k0 v0] & Heq & Hin0);
      destruct (IH _ Hin0) as [IHv IHe]; cbn [snd] in IHv, IHe;
      destruct (is_sensitive lower k0) eqn:Hs.
    + injection Heq as <- <-. split; [reflexivity |].
      exists v0. now apply holds_here.
    + assert (Hkey : key = k0) by (destruct v0; now injection Heq).
      subst k0. split; [congruence |]. exists v0. now apply holds_here.
    + discriminate.
    + destruct v0 as [| b | n | s | elements | sub0]; try discriminate.
      injection Heq as <- Hsubeq.
      assert (Hs0 : holds (sanitize_aws_response lower (JDict sub0)) key value).
      { cbn [sanitize_aws_response]. rewrite Hsubeq. exact Hsub. }
      destruct (IHv _ _ Hs0) as [Hred [original Horig]].
      split; [exact Hred |]. exists original.
      eapply holds_in_dict; eassumption.
    + discriminate.
    + destruct v0 as [| b | n | s | elements0 | sub0]; try discriminate.
      injection Heq as <- <-.
      apply in_map_iff in Hel as (item & Hitem & Hin_item).
      rewrite Forall_forall in IHe. specialize (IHe _ Hin_item).
      destruct item as [| b | n | s | elements1 | sub1]; try discriminate.
      assert (Hs1 : holds (sanitize_aws_response lower (JDict sub1)) key value).
      { rewrite Hitem. exact Hsub. }
      destruct (IHe _ _ Hs1) as [Hred [original Horig]].
      split; [exact Hred |]. exists original.
      eapply holds_in_list; eassumption.
Qed.

(** X9.  No sensitive key keeps its value in a sanitised response: in the
    response itself and in every dict the sanitiser reaches from it, a
    sensitive key holds the marker. *)
Theorem sanitize_redacts (data : Json) (key : string) (value : Json) :
  is_sensitive lower key = true ->
  holds (sanitize_aws_response lower data) key value ->
  value = REDACTED.
Proof.
  intros Hs H. destruct (@holds_sanitized data key value H) as [Hred _]. now apply Hred.
Qed.

(** X10.  The sanitiser does not look into a list that is itself an element of
    a list: such an element is returned as it came, whatever it holds. *)
Theorem sanitize_skips_nested_lists (items : list (string * Json)) (key : string)
    (elements inner : list Json) :
  is_sensitive lower key = false ->
  In (key, JList elements) items ->
  In (JList inner) elements ->
  exists items' elements',
    sanitize_aws_response lower (JDict items) = JDict items'
    /\ In (key, JList elements') items'
    /\ In (JList inner) elements'.
Proof.
  intros Hs Hitems Hel. eexists. eexists. split; [reflexivity |]. split.
  - apply in_map_iff. exists (key, JList elements). split; [| exact Hitems].
    cbv beta iota. rewrite Hs. reflexivity.
  - apply in_map_iff. exists (JList inner). split; [reflexivity | exact Hel].
Qed.
End SanitizeFacts.

(* ===================================================================== *)
(** * Properties of the date validation *)
(* ===================================================================== *)

Lemma month_cases (m : Z) :
  (1 <= m <= 12)%Z ->
  (m = 1 \/ m = 2 \/ m = 3 \/ m = 4 \/ m = 5 \/ m = 6 \/ m = 7 \/ m = 8 \/ m = 9
   \/ m = 10 \/ m = 11 \/ m = 12)%Z.
Proof. lia. Qed.

Ltac each_month H :=
  apply month_cases in H;
  destruct H as [H | [H | [H | [H | [H | [H | [H | [H | [H | [H | [H | H]]]]]]]]]]];
  rewrite H in *;
  cbv beta iota delta [Z.ltb Z.compare Pos.compare Pos.compare_cont andb] in *.

Lemma days_before_year_grows (n : nat) (y : Z) :
  (1 <= y)%Z ->
  (days_before_year y + 365 * Z.of_nat n <= days_before_year (y + Z.of_nat n))%Z.
Proof.
  intros Hy. induction n as [| n IH].
  - replace (y + Z.of_nat 0)%Z with y by lia. lia.
  - replace (y + Z.of_nat (S n))%Z with ((y + Z.of_nat n) + 1)%Z by lia.
    rewrite days_before_next_year by lia. destruct (is_leap _); lia.
Qed.

Lemma days_before_year_mono (y1 y2 : Z) :
  (1 <= y1 < y2)%Z ->
  (days_before_year y1 + 365 + (if is_leap y1 then 1 else 0) <= days_before_year y2)%Z.
Proof.
  intros Hy. rewrite <- days_before_next_year by lia.
  pose proof (@days_before_year_grows (Z.to_nat (y2 - (y1 + 1))) (y1 + 1) ltac:(lia)) as H.
  rewrite Z2Nat.id in H by lia. replace (y1 + 1 + (y2 - (y1 + 1)))%Z with y2 in H by lia.
  lia.
Qed.

Lemma day_of_year_bounds (d : date) :
  valid_date d ->
  (1 <= days_before_month (year d) (month d) + day d
   <= 365 + (if is_leap (year d) then 1 else 0))%Z.
Proof.
  destruct d as [y m dd]. unfold valid_date. cbn [year month day].
  intros (Hy & Hm & Hd). unfold days_before_month, days_in_month in *.
  each_month Hm; destruct (is_leap y); lia.
Qed.

Lemma day_of_year_months (y m1 d1 m2 d2 : Z) :
  valid_date (mkdate y m1 d1) -> valid_date (mkdate y m2 d2) ->
  (m1 < m2)%Z ->
  (days_before_month y m1 + d1 < days_before_month y m2 + d2)%Z.
Proof.
  unfold valid_date. cbn [year month day].
  intros (Hy & Hm1 & Hd1) (_ & Hm2 & Hd2) Hlt.
  unfold days_before_month, days_in_month in *.
  each_month Hm1; each_month Hm2; try lia; destruct (is_leap y); lia.
Qed.

(** The lexicographic order of valid dates is the order of their ordinals. *)
Lemma date_lt_ordinal (a b : date) :
  valid_date a -> valid_date b ->
  ((year a < year b
    \/ (year a = year b /\ (month a < month b \/ (month a = month b /\ day a < day b))))
   -> toordinal a < toordinal b)%Z.
Proof.
  intros Ha Hb Hlex. unfold toordinal.
  pose proof (day_of_year_bounds Ha) as Hda. pose proof (day_of_year_bounds Hb) as Hdb.
  destruct Hlex as [Hy | [Hy [Hm | [Hm Hd]]]].
  - pose proof (@days_before_year_mono (year a) (year b)) as Hmono.
    destruct Ha as (Hya & _). specialize (Hmono ltac:(lia)). lia.
  - destruct a as [ya ma da], b as [yb mb db]. cbn [year month day] in *. subst yb.
    pose proof (day_of_year_months Ha Hb Hm). lia.
  - rewrite Hy, Hm. lia.
Qed.

Lemma date_ltb_ordinal (a b : date) :
  valid_date a -> valid_date b ->
  date_ltb a b = (toordinal a <? toordinal b)%Z.
Proof.
  intros Ha Hb.
  assert (Hcases :
    ((year a < year b
      \/ (year a = year b /\ (month a < month b \/ (month a = month b /\ day a < day b))))
     \/ (year a = year b /\ month a = month b /\ day a = day b)
     \/ (year b < year a
         \/ (year b = year a /\ (month b < month a \/ (month b = month a /\ day b < day a)))))%Z)
    by lia.
  destruct Hcases as [Hlt | [Heq | Hgt]].
  - pose proof (date_lt_ordinal Ha Hb Hlt) as Hord.
    apply Z.ltb_lt in Hord. rewrite Hord. unfold date_ltb.
    destruct Hlt as [Hy | [Hy [Hm | [Hm Hd]]]].
    + apply Z.ltb_lt in Hy. now rewrite Hy.
    + apply Z.eqb_eq in Hy. apply Z.ltb_lt in Hm. rewrite Hy, Hm.
      now rewrite orb_true_r.
    + apply Z.eqb_eq in Hy, Hm. apply Z.ltb_lt in Hd. rewrite Hy, Hm, Hd.
      now rewrite !orb_true_r.
  - destruct Heq as (Hy & Hm & Hd). unfold toordinal, date_ltb. rewrite Hy, Hm, Hd.
    rewrite !Z.ltb_irrefl, !Z.eqb_refl. reflexivity.
  - pose proof (date_lt_ordinal Hb Ha Hgt) as Hord.
    assert (Hnot : (toordinal a <? toordinal b)%Z = false) by (apply Z.ltb_ge; lia).
    rewrite Hnot. unfold date_ltb.
    destruct Hgt as [Hy | [Hy [Hm | [Hm Hd]]]].
    + assert (H1 : (year a <? year b)%Z = false) by (apply Z.ltb_ge; lia).
      assert (H2 : (year a =? year b)%Z = false) by (apply Z.eqb_neq; lia).
      now rewrite H1, H2.
    + assert (H1 : (year a <? year b)%Z = false) by (apply Z.ltb_ge; lia).
      assert (H2 : (month a <? month b)%Z = false) by (apply Z.ltb_ge; lia).
      assert (H3 : (month a =? month b)%Z = false) by (apply Z.eqb_neq; lia).
      rewrite H1, H2, H3. now rewrite andb_false_r.
    + assert (H1 : (year a <? year b)%Z = false) by (apply Z.ltb_ge; lia).
      assert (H2 : (month a <? month b)%Z = false) by (apply Z.ltb_ge; lia).
      assert (H3 : (day a <? day b)%Z = false) by (apply Z.ltb_ge; lia).
      rewrite H1, H2, H3. now rewrite !andb_false_r.
Qed.

Lemma toordinal_first (d : date) : valid_date d -> (1 <= toordinal d)%Z.
Proof.
  intros Hd. pose proof (day_of_year_bounds Hd) as Hb. unfold toordinal.
  destruct Hd as (Hy & _).
  pose proof (@days_before_year_grows (Z.to_nat (year d - 1)) 1 ltac:(lia)) as H.
  rewrite Z2Nat.id in H by lia. replace (1 + (year d - 1))%Z with (year d) in H by lia.
  change (days_before_year 1) with 0%Z in H. lia.
Qed.

Lemma minus_one_day_some (d : date) :
  valid_date d -> (1 < toordinal d)%Z -> exists d', minus_one_day d = Some d'.
Proof.
  intros Hd Hord. unfold minus_one_day.
  destruct (1 <? day d)%Z eqn:H1; [eauto |].
  destruct (1 <? month d)%Z eqn:H2; [eauto |].
  destruct (1 <? year d)%Z eqn:H3; [eauto |].
  exfalso. apply Z.ltb_ge in H1, H2, H3. destruct Hd as (Hy & Hm & Hdd).
  unfold toordinal in Hord.
  replace (year d) with 1%Z in Hord by lia. replace (month d) with 1%Z in Hord by lia.
  replace (day d) with 1%Z in Hord by lia. cbn in Hord. lia.
Qed.

(** [d - timedelta(days=n)] is the valid date whose ordinal is [n] less,
    and there is one as soon as the ordinal of [d] is above [n]. *)
Lemma minus_days_ordinal (n : nat) :
  forall d,
    valid_date d ->
    (Z.of_nat n < toordinal d)%Z ->
    exists d', minus_days n d = Some d'
               /\ valid_date d' /\ toordinal d' = (toordinal d - Z.of_nat n)%Z.
Proof.
  induction n as [| n IH]; intros d Hd Hord.
  - exists d. cbn [minus_days]. repeat split; try apply Hd. lia.
  - destruct (@minus_one_day_some d Hd ltac:(lia)) as [d1 H1].
    destruct (minus_one_day_ordinal Hd H1) as [Hd1 Hord1].
    destruct (IH d1 Hd1 ltac:(lia)) as (d' & Hm & Hd' & Hord').
    exists d'. cbn [minus_days]. rewrite H1. repeat split; try apply Hd'; [exact Hm | lia].
Qed.

Lemma validate_by_ordinals (today start_date end_date : date) :
  valid_date today -> valid_date start_date -> valid_date end_date ->
  (365 < toordinal today)%Z ->
  _validate_date_range today start_date end_date
  = Some ((toordinal start_date <=? toordinal end_date)%Z
          && (toordinal end_date <=? toordinal today)%Z
          && (toordinal today - toordinal start_date <=? 365)%Z).
Proof.
  intros Ht Hs He Hord.
  destruct (@minus_days_ordinal 365 today Ht ltac:(lia)) as (past & Hpast & Hvalid & Hordp).
  unfold _validate_date_range. rewrite Hpast.
  rewrite !date_ltb_ordinal by assumption.
  change (Z.of_nat 365) with 365%Z in Hordp. rewrite Hordp.
  destruct (toordinal end_date <? toordinal start_date)%Z eqn:H1;
    destruct (toordinal today <? toordinal end_date)%Z eqn:H2;
    destruct (toordinal start_date <? toordinal today - 365)%Z eqn:H3;
    destruct (toordinal start_date <=? toordinal end_date)%Z eqn:H4;
    destruct (toordinal end_date <=? toordinal today)%Z eqn:H5;
    destruct (toordinal today - toordinal start_date <=? 365)%Z eqn:H6;
    try reflexivity; exfalso; lia.
Qed.

(** X21.  On valid dates, with today after day 365 of the calendar, a range is
    accepted exactly when it does not end before it starts, does not end
    after today, and starts at most 365 days before today; it is refused
    otherwise. *)
Theorem validate_date_range_by_days (today start_date end_date : date) :
  valid_date today -> valid_date start_date -> valid_date end_date ->
  (365 < toordinal today)%Z ->
  (_validate_date_range today start_date end_date = Some true <->
   (toordinal start_date <= toordinal end_date <= toordinal today
    /\ toordinal today - toordinal start_date <= 365)%Z)
  /\ (_validate_date_range today start_date end_date = Some false <->
      ~ (toordinal start_date <= toordinal end_date <= toordinal today
         /\ toordinal today - toordinal start_date <= 365)%Z).
Proof.
  intros Ht Hs He Hord. rewrite validate_by_ordinals by assumption.
  destruct (Z.leb_spec (toordinal start_date) (toordinal end_date));
    destruct (Z.leb_spec (toordinal end_date) (toordinal today));
    destruct (Z.leb_spec (toordinal today - toordinal start_date) 365);
    cbn [andb]; split; split; try discriminate; try reflexivity; try lia;
    intros H'; exfalso; apply H'; lia.
Qed.

Lemma days_in_month_le_31 (y m : Z) : (days_in_month y m <= 31)%Z.
Proof.
  unfold days_in_month.
  destruct m as [| p |]; try lia.
  do 4 (try (destruct p as [p | p |])); try lia; destruct (is_leap y); lia.
Qed.

Lemma replace_day1_ordinal (d : date) :
  valid_date d ->
  valid_date (replace_day1 d)
  /\ toordinal (replace_day1 d) = (toordinal d - (day d - 1))%Z
  /\ (day d <= 31)%Z.
Proof.
  intros (Hy & Hm & Hd). pose proof (days_in_month_le_31 (year d) (month d)).
  unfold valid_date, replace_day1, toordinal. cbn [year month day]. lia.
Qed.

Section ValidatedRanges.
Variables parse_iso parse_ymd : string -> option date.

(** X22.  Without an explicit pair of dates, the range that [_get_date_range]
    picks (for ["past_month"], ["current_month"] or any other period)
    passes [_validate_date_range] on the same day. *)
Theorem shortcut_ranges_validate (today : date) (period start_date end_date : option string) :
  valid_date today ->
  (365 < toordinal today)%Z ->
  truthy start_date && truthy end_date = false ->
  exists analysis_start analysis_end,
    _get_date_range parse_iso parse_ymd today period start_date end_date
    = Some (analysis_start, analysis_end)
    /\ _validate_date_range today analysis_start analysis_end = Some true.
Proof.
  intros Ht Hord Hpair.
  destruct (replace_day1_ordinal Ht) as (Hv1 & Ho1 & Hday).
  pose proof Ht as (Hy & Hm & Hd).
  assert (Hcurrent : _validate_date_range today (replace_day1 today) today = Some true).
  { rewrite validate_by_ordinals by assumption. f_equal.
    rewrite Ho1. rewrite !andb_true_iff, !Z.leb_le. lia. }
  unfold _get_date_range. rewrite (explicit_pair_none _ _ Hpair).
  destruct (period_is period "past_month").
  - destruct (@minus_one_day_some (replace_day1 today) Hv1 ltac:(lia)) as [last Hlast].
    rewrite Hlast.
    destruct (minus_one_day_ordinal Hv1 Hlast) as [Hvl Hol].
    destruct (replace_day1_ordinal Hvl) as (Hvf & Hof & Hdl).
    pose proof Hvl as (Hyl & Hml & Hdl').
    exists (replace_day1 last), last. split; [reflexivity |].
    rewrite validate_by_ordinals by assumption. f_equal.
    rewrite Hof, Hol, Ho1. rewrite !andb_true_iff, !Z.leb_le. lia.
  - destruct (period_is period "current_month");
      exists (replace_day1 today), today; split; [reflexivity | exact Hcurrent | reflexivity | exact Hcurrent].
Qed.
End ValidatedRanges.

(* ===================================================================== *)
(** * Properties of the unit paths *)
(* ===================================================================== *)

Lemma climb_acc (root_id : string) (all_ous : list OuRecord) (fuel : nat) :
  forall current_parent ou_path,
    climb fuel root_id all_ous current_parent ou_path
    = option_map (fun names => names ++ ou_path)
        (climb fuel root_id all_ous current_parent []).
Proof.
  induction fuel as [| fuel IH]; intros current_parent ou_path; cbn [climb]; [reflexivity |].
  destruct (negb (current_parent =? "") && negb (current_parent =? root_id))%string;
    [| reflexivity].
  destruct (find_ou current_parent all_ous) as [parent_ou |]; [| reflexivity].
  rewrite (IH _ (ou_Name parent_ou :: ou_path)), (IH _ [ou_Name parent_ou]).
  destruct (climb fuel root_id all_ous (ou_ParentId parent_ou) []) as [names |];
    cbn [option_map]; [| reflexivity].
  now rewrite <- app_assoc.
Qed.

Lemma find_ou_unique (all_ous : list OuRecord) (p : OuRecord) :
  NoDup (map ou_Id all_ous) -> In p all_ous -> find_ou (ou_Id p) all_ous = Some p.
Proof.
  unfold find_ou. induction all_ous as [| q rest IH]; intros Hnd Hin; [contradiction |].
  cbn [map] in Hnd. inversion Hnd as [| ? ? Hq Hrest]; subst. cbn [find].
  destruct Hin as [-> | Hin].
  - now rewrite String.eqb_refl.
  - destruct (String.eqb_spec (ou_Id q) (ou_Id p)) as [E | _]; [| now apply IH].
    exfalso. apply Hq. rewrite E. now apply in_map.
Qed.

Section OuPath.
Variables (root_id : string) (top : list OrgUnit).
Hypothesis ids_distinct : NoDup (map ou_Id (all_ous_of root_id top)).
Hypothesis root_is_no_unit : ~ In root_id (map ou_Id (all_ous_of root_id top)).
Hypothesis ids_not_empty : ~ In "" (map ou_Id (all_ous_of root_id top)).

Lemma climb_from_parent (n : nat) :
  forall r,
    In r (all_ous_of root_id top) -> ou_Level r = n ->
    exists names,
      List.length names = n
      /\ forall fuel,
           n < fuel ->
           climb fuel root_id (all_ous_of root_id top) (ou_ParentId r) [] = Some names.
Proof.
  induction n as [| n IH]; intros r Hin Hlevel.
  - exists []. split; [reflexivity |]. intros [| fuel] Hfuel; [lia |]. cbn [climb].
    destruct (get_all_ous_levels _ _ _ _ Hin) as [[Hparent _] | (p & _ & _ & Hlp)]; [| lia].
    rewrite Hparent, String.eqb_refl, andb_false_r. reflexivity.
  - destruct (get_all_ous_levels _ _ _ _ Hin) as [[_ H0] | (p & Hp & Hid & Hlp)]; [lia |].
    destruct (IH p Hp ltac:(lia)) as (names & Hlen & Hclimb).
    exists (names ++ [ou_Name p]). split; [rewrite length_app; cbn; lia |].
    intros [| fuel] Hfuel; [lia |]. cbn [climb].
    assert (Hne : (ou_ParentId r =? "")%string = false).
    { apply String.eqb_neq. intros E. apply ids_not_empty.
      pose proof (in_map ou_Id _ _ Hp) as Hm. now rewrite Hid, E in Hm. }
    assert (Hnr : (ou_ParentId r =? root_id)%string = false).
    { apply String.eqb_neq. intros E. apply root_is_no_unit.
      pose proof (in_map ou_Id _ _ Hp) as Hm. now rewrite Hid, E in Hm. }
    rewrite Hne, Hnr. cbn [negb andb].
    rewrite <- Hid, (@find_ou_unique _ _ ids_distinct Hp).
    rewrite climb_acc, (Hclimb fuel ltac:(lia)). reflexivity.
Qed.

(** X12.  With distinct, non-empty unit ids that differ from the root's, the
    path loop ends for every unit the walk emitted, and the path it builds
    has one name per level down to the unit: the unit's own name below the
    root, and otherwise the path of its parent followed by its own name. *)
Theorem ou_path_follows_parents (r : OuRecord) (fuel : nat) :
  In r (all_ous_of root_id top) ->
  ou_Level r < fuel ->
  exists ou_path,
    ou_path_of fuel root_id (all_ous_of root_id top) r = Some ou_path
    /\ List.length ou_path = ou_Level r + 1
    /\ (ou_ParentId r = root_id -> ou_path = [ou_Name r])
    /\ (forall p,
          In p (all_ous_of root_id top) -> ou_Id p = ou_ParentId r ->
          exists parent_path,
            ou_path_of fuel root_id (all_ous_of root_id top) p = Some parent_path
            /\ ou_path = parent_path ++ [ou_Name r]).
Proof.
  intros Hin Hfuel.
  destruct (@climb_from_parent _ r Hin eq_refl) as (names & Hlen & Hclimb).
  exists (names ++ [ou_Name r]). unfold ou_path_of.
  rewrite climb_acc, (Hclimb fuel Hfuel). split; [reflexivity |].
  split; [rewrite length_app; cbn; lia |]. split.
  - intros Hroot. destruct fuel as [| fuel]; [lia |].
    specialize (Hclimb (S fuel) Hfuel). cbn [climb] in Hclimb.
    rewrite Hroot, String.eqb_refl, andb_false_r in Hclimb.
    injection Hclimb as <-. reflexivity.
  - intros p Hp Hid.
    assert (Hne : (ou_ParentId r =? "")%string = false).
    { apply String.eqb_neq. intros E. apply ids_not_empty.
      pose proof (in_map ou_Id _ _ Hp) as Hm. now rewrite Hid, E in Hm. }
    assert (Hnr : (ou_ParentId r =? root_id)%string = false).
    { apply String.eqb_neq. intros E. apply root_is_no_unit.
      pose proof (in_map ou_Id _ _ Hp) as Hm. now rewrite Hid, E in Hm. }
    destruct fuel as [| fuel]; [lia |].
    pose proof (Hclimb (S fuel) Hfuel) as Hr. cbn [climb] in Hr.
    rewrite Hne, Hnr in Hr. cbn [negb andb] in Hr.
    rewrite <- Hid, (@find_ou_unique _ _ ids_distinct Hp) in Hr.
    rewrite climb_acc in Hr.
    destruct (@climb_from_parent _ p Hp eq_refl) as (pnames & Hplen & Hpclimb).
    assert (Hlt : ou_Level p < fuel).
    { destruct (climb fuel root_id (all_ous_of root_id top) (ou_ParentId p) [])
        as [got |] eqn:Hgot; [| discriminate].
      destruct (Nat.lt_ge_cases (ou_Level p) fuel) as [Hl | Hge]; [exact Hl |].
      exfalso. cbn [option_map] in Hr. injection Hr as Hr.
      assert (Hlen' : List.length names = List.length got + 1)
        by (rewrite <- Hr, length_app; cbn; lia).
      (* the climb from [p] with little fuel cannot be right *)
      pose proof (Hpclimb (S (ou_Level p)) ltac:(lia)) as Hfull.
      clear - Hgot Hfull Hge Hplen Hlen' Hlen Hfuel. 
      assert (Hmono : forall f1 f2 cur acc res,
                 f1 <= f2 ->
                 climb f1 root_id (all_ous_of root_id top) cur acc = Some res ->
                 climb f2 root_id (all_ous_of root_id top) cur acc = Some res).
      { induction f1 as [| f1 IHf]; intros f2 cur acc res Hle; cbn [climb]; [discriminate |].
        destruct f2 as [| f2]; [lia |]. cbn [climb].
        destruct (negb (cur =? "") && negb (cur =? root_id))%string; [| auto].
        destruct (find_ou cur (all_ous_of root_id top)); [| auto].
        apply IHf. lia. }
      apply (Hmono fuel (S (ou_Level p))) in Hgot; [| lia].
      rewrite Hfull in Hgot. injection Hgot as <-. lia. }
    exists (pnames ++ [ou_Name p]). rewrite climb_acc.
    rewrite (Hpclimb (S fuel) ltac:(lia)). split; [reflexivity |].
    rewrite (Hpclimb fuel Hlt) in Hr. cbn [option_map] in Hr.
    injection Hr as <-. reflexivity.
Qed.
End OuPath.

(* ===================================================================== *)
(** * Properties of the directory fetches *)
(* ===================================================================== *)

Lemma dict_set_keys_nodup (V : Type) (d : dict V) (k : string) (v : V) :
  NoDup (dict_keys d) -> NoDup (dict_keys (dict_set k v d)).
Proof.
  unfold dict_keys. induction d as [| [k' v'] d IH]; intros Hnd; cbn [dict_set map fst].
  - constructor; [intros [] | constructor].
  - cbn [map fst] in Hnd. inversion Hnd as [| ? ? Hk' Hd]; subst.
    destruct (String.eqb_spec k k') as [-> | Hne]; cbn [map fst].
    + now constructor.
    + constructor; [| now apply IH].
      intros Hin. apply (dict_keys_set d k v) in Hin. destruct Hin as [E | Hin]; auto.
Qed.

Section FoldDictSet.
Variables (A V : Type) (keep : A -> bool) (key : A -> string) (val : A -> V).

Lemma assign_kept_entries (l : list A) :
  forall d k v,
    In (k, v) (fold_left (assign_kept keep key val) l d) ->
    In (k, v) d \/ exists a, In a l /\ keep a = true /\ key a = k /\ v = val a.
Proof.
  induction l as [| a l IH]; intros d k v; cbn [fold_left]; [now left |].
  intros Hin. destruct (IH _ _ _ Hin) as [Hd | (a' & Ha' & Hrest)].
  - unfold assign_kept in Hd. destruct (keep a) eqn:Hkeep; [| now left].
    destruct (dict_set_In _ _ _ _ _ Hd) as [[= -> ->] | Hold]; [| now left].
    right. exists a. repeat split; [now left | exact Hkeep].
  - right. exists a'. split; [now right | exact Hrest].
Qed.

Lemma assign_kept_keys (l : list A) :
  forall d k,
    In k (dict_keys (fold_left (assign_kept keep key val) l d)) <->
    In k (dict_keys d) \/ exists a, In a l /\ keep a = true /\ key a = k.
Proof.
  induction l as [| a l IH]; intros d k; cbn [fold_left].
  - split; [now left | intros [H | (a & [] & _)]; exact H].
  - rewrite IH. unfold assign_kept. split.
    + intros [Hd | (a' & Ha' & Hrest)].
      * destruct (keep a) eqn:Hkeep; [| now left].
        apply dict_keys_set in Hd. destruct Hd as [-> | Hd]; [| now left].
        right. exists a. repeat split; [now left | exact Hkeep].
      * right. exists a'. split; [now right | exact Hrest].
    + intros [Hd | (a' & [<- | Ha'] & Hkeep & Hkey)].
      * left. destruct (keep a); [| exact Hd]. apply dict_keys_set. now right.
      * left. rewrite Hkeep. apply dict_keys_set. now left.
      * right. exists a'. now repeat split.
Qed.

Lemma assign_kept_nodup (l : list A) :
  forall d, NoDup (dict_keys d) -> NoDup (dict_keys (fold_left (assign_kept keep key val) l d)).
Proof.
  induction l as [| a l IH]; intros d Hd; cbn [fold_left]; [exact Hd |].
  apply IH. unfold assign_kept. destruct (keep a); [| exact Hd].
  now apply dict_set_keys_nodup.
Qed.
End FoldDictSet.

Lemma fold_left_pointwise (A B : Type) (f g : A -> B -> A) :
  (forall a b, f a b = g a b) ->
  forall l a, fold_left f l a = fold_left g l a.
Proof.
  intros Hfg. induction l as [| b l IH]; intros a; cbn [fold_left]; [reflexivity |].
  now rewrite Hfg, IH.
Qed.

Section FetchGroupsFacts.
Variable list_group_memberships : string -> option (list ApiMembership).

Lemma fetch_sso_groups_fold (listed : list ApiGroup) :
  _fetch_sso_groups list_group_memberships (Some listed)
  = fold_left (assign_kept (fun group => negb (aws_managed group)) api_GroupId
                 (fetch_group list_group_memberships))
      listed [].
Proof.
  cbn [_fetch_sso_groups]. apply fold_left_pointwise. intros groups group.
  unfold assign_kept. now destruct (aws_managed group).
Qed.

Lemma fetched_groups_nodup (group_list : option (list ApiGroup)) :
  NoDup (dict_keys (_fetch_sso_groups list_group_memberships group_list)).
Proof.
  destruct group_list as [listed |]; [| constructor].
  rewrite fetch_sso_groups_fold. apply assign_kept_nodup. constructor.
Qed.

Lemma fetched_groups_keys (group_list : option (list ApiGroup)) (group_id : string) :
  In group_id (dict_keys (_fetch_sso_groups list_group_memberships group_list)) <->
  exists listed group,
    group_list = Some listed /\ In group listed
    /\ aws_managed group = false /\ api_GroupId group = group_id.
Proof.
  destruct group_list as [listed |].
  - rewrite fetch_sso_groups_fold, assign_kept_keys. split.
    + intros [[] | (group & Hin & Hkeep & Hid)].
      exists listed, group. apply negb_true_iff in Hkeep. now repeat split.
    + intros (listed' & group & [= <-] & Hin & Hkeep & Hid).
      right. exists group. rewrite Hkeep. now repeat split.
  - split; [intros [] | intros (l & g & [=] & _)].
Qed.

(** X13.  The groups that are fetched are the listed groups that are not
    AWS-managed, each once: a group whose name starts with [AWS] and whose
    description is not empty never shows, and a group whose memberships
    cannot be listed shows with no members. *)
Theorem fetched_groups_listed (group_list : option (list ApiGroup)) :
  NoDup (dict_keys (_fetch_sso_groups list_group_memberships group_list))
  /\ (forall group_id,
        In group_id (dict_keys (_fetch_sso_groups list_group_memberships group_list)) <->
        exists listed group,
          group_list = Some listed /\ In group listed
          /\ aws_managed group = false /\ api_GroupId group = group_id)
  /\ (forall group_id entry,
        In (group_id, entry) (_fetch_sso_groups list_group_memberships group_list) ->
        exists listed group,
          group_list = Some listed /\ In group listed
          /\ aws_managed group = false /\ api_GroupId group = group_id
          /\ entry = fetch_group list_group_memberships group
          /\ (list_group_memberships group_id = None -> group_Members entry = [])).
Proof.
  split; [apply fetched_groups_nodup | split; [apply fetched_groups_keys |]].
  destruct group_list as [listed |]; [| intros group_id entry []].
  rewrite fetch_sso_groups_fold. intros group_id entry Hin.
  apply assign_kept_entries in Hin.
  destruct Hin as [[] | (group & Hin & Hkeep & Hid & ->)].
  exists listed, group. apply negb_true_iff in Hkeep.
  repeat split; try assumption.
  intros Hnone. unfold fetch_group. cbn [group_Members].
  now rewrite Hid, Hnone.
Qed.
End FetchGroupsFacts.

(** A loop whose every step adds the contribution of one element. *)
Lemma fold_left_contributions (A S : Type) (step : S -> A -> S)
    (Q : S -> Prop) (C : A -> Prop) :
  (forall s x, Q (step s x) <-> Q s \/ C x) ->
  forall l s, Q (fold_left step l s) <-> Q s \/ exists x, In x l /\ C x.
Proof.
  intros Hstep. induction l as [| a l IH]; intros s; cbn [fold_left].
  - split; [now left | intros [H | (x & [] & _)]; exact H].
  - rewrite IH, Hstep. split.
    + intros [[Hs | Ha] | (x & Hx & Hc)]; [now left | right | right].
      * exists a. split; [now left | exact Ha].
      * exists x. split; [now right | exact Hc].
    + intros [Hs | (x & [<- | Hx] & Hc)]; [now left; left | now left; right |].
      right. now exists x.
Qed.

Lemma setdefault_append_In (k x k' x' : string) (d : dict (list string)) :
  In x' (dict_get_default k' [] (setdefault_append k x d)) <->
  In x' (dict_get_default k' [] d) \/ (k' = k /\ x' = x).
Proof.
  unfold setdefault_append, dict_get_default.
  destruct (String.eqb_spec k' k) as [-> | Hne].
  - rewrite dict_get_set_eq, in_app_iff. cbn [In]. intuition (subst; auto).
  - rewrite dict_get_set_ne by exact Hne. intuition congruence.
Qed.

Section FetchAssignmentsFacts.
Variable sso_admin_client : SsoAdmin.

Lemma add_assignment_recorded (account_id : string) (assignments : Assignments)
    (assignment : string * string) (principal_type principal_id account : string) :
  principal_type = "USER" \/ principal_type = "GROUP" ->
  recorded principal_type (add_assignment account_id assignments assignment)
           principal_id account
  <-> recorded principal_type assignments principal_id account
      \/ (assignment = (principal_type, principal_id) /\ account = account_id).
Proof.
  intros Htype. destruct assignment as [ptype pid].
  unfold recorded, add_assignment. cbn [fst snd].
  destruct (String.eqb_spec ptype "GROUP") as [-> | Hng];
    [| destruct (String.eqb_spec ptype "USER") as [-> | Hnu]];
    cbn [assigned_User assigned_Group]; try rewrite setdefault_append_In;
    destruct Htype as [-> | ->]; split;
    intuition (try discriminate; try congruence; subst; auto).
  all: try (match goal with H : (_, _) = (_, _) |- _ => injection H as ? ? end);
    subst; try discriminate; try congruence; auto 6.
Qed.

Lemma add_account_recorded (permset_arn : string) (assignments : Assignments)
    (account_id principal_type principal_id account : string) :
  principal_type = "USER" \/ principal_type = "GROUP" ->
  recorded principal_type (add_account sso_admin_client permset_arn assignments account_id)
           principal_id account
  <-> recorded principal_type assignments principal_id account
      \/ (account = account_id
          /\ exists account_assignments,
               list_account_assignments sso_admin_client account_id permset_arn
               = Some account_assignments
               /\ In (principal_type, principal_id) account_assignments).
Proof.
  intros Htype. unfold add_account.
  destruct (list_account_assignments sso_admin_client account_id permset_arn)
    as [account_assignments |].
  - rewrite (fold_left_contributions
               (add_assignment account_id)
               (fun a => recorded principal_type a principal_id account)
               (fun x => x = (principal_type, principal_id) /\ account = account_id))
      by (intros; now apply add_assignment_recorded).
    split; (intros [H | H]; [now left | right]).
    + destruct H as (x & Hx & -> & ->). split; [reflexivity |]. eauto.
    + destruct H as (-> & l & [= <-] & Hin). eauto.
  - split; [now left | intros [H | (_ & l & [=] & _)]; exact H].
Qed.

Lemma add_permission_set_recorded (assignments : Assignments)
    (permset_arn principal_type principal_id account : string) :
  principal_type = "USER" \/ principal_type = "GROUP" ->
  recorded principal_type (add_permission_set sso_admin_client assignments permset_arn)
           principal_id account
  <-> recorded principal_type assignments principal_id account
      \/ exists name account_ids account_assignments,
           describe_permission_set sso_admin_client permset_arn = Some name
           /\ str_in (or_default name "") processed_permission_sets = true
           /\ list_accounts_for_provisioned_permission_set sso_admin_client permset_arn
              = Some account_ids
           /\ In account account_ids
           /\ list_account_assignments sso_admin_client account permset_arn
              = Some account_assignments
           /\ In (principal_type, principal_id) account_assignments.
Proof.
  intros Htype. unfold add_permission_set.
  destruct (describe_permission_set sso_admin_client permset_arn) as [name |];
    [| split; [now left | intros [H | (? & ? & ? & [=] & _)]; exact H]].
  destruct (str_in (or_default name "") processed_permission_sets) eqn:Hname; cbn [negb];
    [| split; [now left | intros [H | (? & ? & ? & [= <-] & E & _)]; [exact H | congruence]]].
  destruct (list_accounts_for_provisioned_permission_set sso_admin_client permset_arn)
    as [account_ids |];
    [| split; [now left | intros [H | (? & ? & ? & _ & _ & [=] & _)]; exact H]].
  rewrite (fold_left_contributions
             (add_account sso_admin_client permset_arn)
             (fun a => recorded principal_type a principal_id account)
             (fun account_id =>
                account = account_id
                /\ exists account_assignments,
                     list_account_assignments sso_admin_client account_id permset_arn
                     = Some account_assignments
                     /\ In (principal_type, principal_id) account_assignments))
    by (intros; now apply add_account_recorded).
  split; (intros [H | H]; [now left | right]).
  - destruct H as (account_id & Hin & -> & l & Hl & Hp).
    exists name, account_ids, l. now repeat split.
  - destruct H as (name' & ids & l & [= <-] & _ & [= <-] & Hin & Hl & Hp).
    exists account. split; [exact Hin |]. split; [reflexivity |]. eauto.
Qed.

Lemma fetch_sso_assignments_recorded (principal_type principal_id account : string) :
  principal_type = "USER" \/ principal_type = "GROUP" ->
  recorded principal_type (_fetch_sso_assignments sso_admin_client) principal_id account
  <-> granted sso_admin_client principal_type principal_id account.
Proof.
  intros Htype. unfold _fetch_sso_assignments, granted.
  assert (Hnone : ~ recorded principal_type no_assignments principal_id account).
  { unfold recorded, no_assignments, dict_get_default. cbn. tauto. }
  destruct (list_permission_sets sso_admin_client) as [permission_sets |].
  - rewrite (fold_left_contributions
               (add_permission_set sso_admin_client)
               (fun a => recorded principal_type a principal_id account)
               (fun permset_arn =>
                  exists name account_ids account_assignments,
                    describe_permission_set sso_admin_client permset_arn = Some name
                    /\ str_in (or_default name "") processed_permission_sets = true
                    /\ list_accounts_for_provisioned_permission_set sso_admin_client
                         permset_arn = Some account_ids
                    /\ In account account_ids
                    /\ list_account_assignments sso_admin_client account permset_arn
                       = Some account_assignments
                    /\ In (principal_type, principal_id) account_assignments))
      by (intros; now apply add_permission_set_recorded).
    split.
    + intros [H | (permset_arn & Hin & name & ids & l & H)]; [contradiction |].
      exists permission_sets, permset_arn, name, ids, l. tauto.
    + intros (ps & permset_arn & name & ids & l & [= <-] & Hin & H).
      right. exists permset_arn. split; [exact Hin |]. exists name, ids, l. exact H.
  - split; [contradiction | intros (? & ? & ? & ? & ? & [=] & _)].
Qed.

Lemma recorded_group_granted (principal_id account_id : string) :
  In account_id
     (dict_get_default principal_id []
        (assigned_Group (_fetch_sso_assignments sso_admin_client)))
  <-> granted sso_admin_client "GROUP" principal_id account_id.
Proof.
  rewrite <- (@fetch_sso_assignments_recorded "GROUP") by now right.
  unfold recorded. intuition discriminate.
Qed.

(** X14.  An account is recorded for a user or for a group exactly when one of
    the three processed permission sets grants it: a set with another name,
    a set that cannot be described or has no provisioned accounts listed,
    and an account whose assignments cannot be listed contribute nothing. *)
Theorem fetched_assignments_granted (principal_id account_id : string) :
  (In account_id
      (dict_get_default principal_id []
         (assigned_User (_fetch_sso_assignments sso_admin_client)))
   <-> granted sso_admin_client "USER" principal_id account_id)
  /\ (In account_id
        (dict_get_default principal_id []
           (assigned_Group (_fetch_sso_assignments sso_admin_client)))
      <-> granted sso_admin_client "GROUP" principal_id account_id).
Proof.
  split.
  - rewrite <- (@fetch_sso_assignments_recorded "USER") by now left.
    unfold recorded. intuition discriminate.
  - rewrite <- (@fetch_sso_assignments_recorded "GROUP") by now right.
    unfold recorded. intuition discriminate.
Qed.
End FetchAssignmentsFacts.

(* ===================================================================== *)
(** * Properties of the returned hierarchy *)
(* ===================================================================== *)

Lemma fold_left_invariant (A S : Type) (step : S -> A -> S) (I : S -> Prop) :
  (forall s x, I s -> I (step s x)) ->
  forall l s, I s -> I (fold_left step l s).
Proof.
  intros Hstep. induction l as [| a l IH]; intros s Hs; cbn [fold_left]; auto.
Qed.

Lemma setdefault_append_keys (k x : string) (d : dict (list string)) :
  keys_have_accounts d -> keys_have_accounts (setdefault_append k x d).
Proof.
  unfold keys_have_accounts. intros Hd principal_id.
  unfold setdefault_append at 1. rewrite dict_keys_set, Hd. split.
  - intros [-> | (account_id & Hin)].
    + exists x. apply setdefault_append_In. now right.
    + exists account_id. apply setdefault_append_In. now left.
  - intros (account_id & Hin). apply setdefault_append_In in Hin.
    destruct Hin as [Hin | [-> _]]; [right; now exists account_id | now left].
Qed.

Lemma fetched_assignments_keys (sso_admin_client : SsoAdmin) :
  keys_have_accounts (assigned_User (_fetch_sso_assignments sso_admin_client))
  /\ keys_have_accounts (assigned_Group (_fetch_sso_assignments sso_admin_client)).
Proof.
  set (I := fun a => keys_have_accounts (assigned_User a)
                     /\ keys_have_accounts (assigned_Group a)).
  assert (Hempty : I no_assignments).
  { split; intros pid; cbn; (split; [intros [] | intros (? & [])]). }
  assert (Hassign : forall account_id a x, I a -> I (add_assignment account_id a x)).
  { intros account_id a [ptype pid] [Hu Hg]. unfold add_assignment, I. cbn [fst snd].
    destruct (ptype =? "GROUP")%string; [| destruct (ptype =? "USER")%string];
      cbn [assigned_User assigned_Group]; split;
      auto using setdefault_append_keys. }
  assert (Haccount : forall permset a account_id,
             I a -> I (add_account sso_admin_client permset a account_id)).
  { intros permset a account_id Ha. unfold add_account.
    destruct (list_account_assignments _ _ _); [| exact Ha].
    apply fold_left_invariant; auto. }
  assert (Hpermset : forall a permset, I a -> I (add_permission_set sso_admin_client a permset)).
  { intros a permset Ha. unfold add_permission_set.
    destruct (describe_permission_set _ _); [| exact Ha].
    destruct (negb _); [exact Ha |].
    destruct (list_accounts_for_provisioned_permission_set _ _); [| exact Ha].
    apply fold_left_invariant; auto. }
  unfold _fetch_sso_assignments.
  destruct (list_permission_sets sso_admin_client); [| exact Hempty].
  apply fold_left_invariant; auto.
Qed.

Lemma fetch_sso_users_fold (listed : list ApiUser) :
  _fetch_sso_users (Some listed)
  = fold_left (assign_kept (fun _ => true) api_UserId fetch_user) listed [].
Proof. reflexivity. Qed.

(** The users that are fetched are the listed users, each once. *)
Lemma fetched_users_keys (user_list : option (list ApiUser)) :
  NoDup (dict_keys (_fetch_sso_users user_list))
  /\ forall user_id,
       In user_id (dict_keys (_fetch_sso_users user_list)) <->
       exists listed user,
         user_list = Some listed /\ In user listed /\ api_UserId user = user_id.
Proof.
  destruct user_list as [listed |].
  - rewrite fetch_sso_users_fold. split; [apply assign_kept_nodup; constructor |].
    intros user_id. rewrite assign_kept_keys. split.
    + intros [[] | (user & Hin & _ & Hid)]. now exists listed, user.
    + intros (l & user & [= <-] & Hin & Hid). right. now exists user.
  - split; [constructor |]. intros user_id. split; [intros [] | intros (? & ? & [=] & _)].
Qed.

Lemma identify_group_owners_fold (users : dict User) (groups : dict Group)
    (assignments : Assignments) :
  _identify_group_owners users groups assignments
  = fold_left (assign_kept (fun item : string * list string => dict_mem (fst item) groups)
                 fst
                 (fun item => group_owners_of users assignments (snd item)))
      (assigned_Group assignments) [].
Proof.
  unfold _identify_group_owners. apply fold_left_pointwise. intros owners [gid accounts].
  unfold assign_kept. cbn [fst snd]. now destruct (dict_mem gid groups).
Qed.

(** Owners are inferred for the groups that are both fetched and a key of
    the group assignments. *)
Lemma identified_groups (users : dict User) (groups : dict Group)
    (assignments : Assignments) (group_id : string) :
  dict_mem group_id (_identify_group_owners users groups assignments) = true <->
  In group_id (dict_keys groups) /\ In group_id (dict_keys (assigned_Group assignments)).
Proof.
  rewrite dict_mem_keys, identify_group_owners_fold, assign_kept_keys. split.
  - intros [[] | ([gid accounts] & Hin & Hkeep & Hid)]. cbn [fst] in *. subst gid.
    split; [now apply dict_mem_keys |]. unfold dict_keys. apply in_map_iff.
    now exists (group_id, accounts).
  - intros [Hg Ha]. right. unfold dict_keys in Ha. apply in_map_iff in Ha.
    destruct Ha as ([gid accounts] & Hid & Hin). cbn [fst] in Hid. subst gid.
    exists (group_id, accounts). cbn [fst]. repeat split; [exact Hin |].
    now apply dict_mem_keys.
Qed.

(** A group is returned exactly when it is among the groups and has an
    entry in [owners]. *)
Lemma group_returned_iff_owned (users : dict User) (groups : dict Group)
    (assignments : Assignments) (owners : dict (list string)) (group_id : string) :
  In group_id
     (map ge_group_id (groups_of (_build_user_hierarchy users groups assignments owners)))
  <-> In group_id (dict_keys groups) /\ dict_mem group_id owners = true.
Proof.
  rewrite in_map_iff. split.
  - intros (ge & <- & Hge). apply in_groups_of in Hge.
    destruct Hge as (group & os & Hin & Hos & _). split.
    + unfold dict_keys. apply in_map_iff. now exists (ge_group_id ge, group).
    + apply dict_mem_get. now exists os.
  - intros [Hg Hmem]. apply dict_mem_get in Hmem. destruct Hmem as [os Hos].
    apply dict_mem_keys, dict_mem_get in Hg. destruct Hg as [group Hgroup].
    exists (group_entry users assignments os group_id group).
    split; [reflexivity |]. apply in_groups_of. exists group, os. cbn [ge_group_id group_entry].
    split; [now apply dict_get_In | split; [exact Hos | reflexivity]].
Qed.

(** X15.  A group is returned exactly when it is among the fetched groups and has
    an account assignment of its own; a fetched group without one is left
    out, with its members. *)
Theorem returned_groups (users : dict User) (groups : dict Group)
    (assignments : Assignments) (group_id : string) :
  In group_id
     (map ge_group_id
        (groups_of (_build_user_hierarchy users groups assignments
                      (_identify_group_owners users groups assignments))))
  <-> In group_id (dict_keys groups)
      /\ In group_id (dict_keys (assigned_Group assignments)).
Proof.
  rewrite group_returned_iff_owned, identified_groups. tauto.
Qed.

(** X16.  With groups and assignments included and no role filter, a group is
    returned exactly when the directory lists it, it is not AWS-managed,
    and one of the processed permission sets grants it an account. *)
Theorem directory_groups_returned (role_matches : string -> list string -> bool)
    (user_list : option (list ApiUser)) (group_list : option (list ApiGroup))
    (list_group_memberships : string -> option (list ApiMembership))
    (sso_admin_client : SsoAdmin) (group_id : string) :
  In group_id
     (map ge_group_id
        (groups_of (get_users_from_directory role_matches user_list group_list
                      list_group_memberships sso_admin_client None true true)))
  <-> (exists listed group,
          group_list = Some listed /\ In group listed
          /\ aws_managed group = false /\ api_GroupId group = group_id)
      /\ (exists account_id, granted sso_admin_client "GROUP" group_id account_id).
Proof.
  unfold get_users_from_directory, get_users_hierarchy. cbn [apply_role_filter].
  rewrite group_returned_iff_owned, identified_groups.
  destruct (fetched_assignments_keys sso_admin_client) as [_ Hgroup].
  rewrite fetched_groups_keys, (Hgroup group_id).
  split.
  - intros [_ [Hl (account_id & Hacc)]]. split; [exact Hl |]. exists account_id.
    now apply recorded_group_granted.
  - intros [Hl (account_id & Hacc)]. split; [exact Hl |]. split; [exact Hl |].
    exists account_id. now apply recorded_group_granted.
Qed.

(** ** No entry twice *)

Lemma flat_map_at_most_one (A B : Type) (key : A -> string) (g : B -> string)
    (f : A -> list B) (l : list A) :
  (forall x y, In y (f x) -> g y = key x) ->
  (forall x, List.length (f x) <= 1) ->
  NoDup (map key l) -> NoDup (map g (flat_map f l)).
Proof.
  intros Hkey Hone. induction l as [| a l IH]; intros Hnd; cbn [flat_map map];
    [constructor |].
  cbn [map] in Hnd. inversion Hnd as [| ? ? Ha Hl]; subst.
  specialize (IH Hl). specialize (Hone a).
  destruct (f a) as [| y [| y' rest]] eqn:Hfa; cbn [app map]; [exact IH | | cbn in Hone; lia].
  constructor; [| exact IH].
  intros Hin. apply in_map_iff in Hin. destruct Hin as (z & Hz & Hzin).
  apply in_flat_map in Hzin. destruct Hzin as (x & Hx & Hzx).
  apply Ha. assert (Hy : g y = key a) by (apply Hkey; rewrite Hfa; now left).
  rewrite <- Hy, <- Hz, (Hkey _ _ Hzx). now apply in_map.
Qed.

Lemma nodup_map_filter (A : Type) (g : A -> string) (p : A -> bool) (l : list A) :
  NoDup (map g l) -> NoDup (map g (filter p l)).
Proof.
  induction l as [| a l IH]; intros Hnd; cbn [filter map]; [constructor |].
  cbn [map] in Hnd. inversion Hnd as [| ? ? Ha Hl]; subst.
  destruct (p a); cbn [map]; [| now apply IH].
  constructor; [| now apply IH].
  intros Hin. apply Ha. apply in_map_iff in Hin. destruct Hin as (x & Hx & Hxin).
  apply filter_In in Hxin. rewrite <- Hx. apply in_map. tauto.
Qed.

Lemma nodup_map_sorted (A : Type) (g key : A -> string) (l : list A) :
  NoDup (map g l) -> NoDup (map g (sorted String.leb key l)).
Proof.
  intros Hnd. eapply Permutation_NoDup; [| exact Hnd].
  apply Permutation_map, Permutation_sym, sorted_perm.
Qed.

Section BuiltOnce.
Variables (users : dict User) (groups : dict Group) (assignments : Assignments).
Variable owners : dict (list string).

Lemma built_roots_once :
  NoDup (dict_keys users) ->
  NoDup (map root_user_id (root_users (_build_user_hierarchy users groups assignments owners))).
Proof.
  intros Hnd. unfold _build_user_hierarchy. cbn [root_users].
  apply nodup_map_sorted.
  apply (@flat_map_at_most_one _ _ fst); [| | exact Hnd].
  - intros [uid user] r. destruct (_ || _); [intros [] | intros [<- | []]; reflexivity].
  - intros [uid user]. destruct (_ || _); cbn; lia.
Qed.

Lemma built_groups_once :
  NoDup (dict_keys groups) ->
  NoDup (map ge_group_id (groups_of (_build_user_hierarchy users groups assignments owners))).
Proof.
  intros Hnd. unfold _build_user_hierarchy. cbn [groups_of].
  apply nodup_map_sorted.
  apply (@flat_map_at_most_one _ _ fst); [| | exact Hnd].
  - intros [gid group] ge. destruct (dict_get gid owners); [| intros []].
    intros [<- | []]. reflexivity.
  - intros [gid group]. destruct (dict_get gid owners); cbn; lia.
Qed.

Lemma group_owners_once (group_owner_ids : list string) (group_id : string) (group : Group) :
  NoDup group_owner_ids ->
  NoDup (map gu_user_id
           (ge_owners (group_entry users assignments group_owner_ids group_id group))).
Proof.
  intros Hnd. cbn [group_entry ge_owners]. apply nodup_map_sorted.
  unfold group_owners_list.
  apply (@flat_map_at_most_one _ _ (fun owner_id : string => owner_id));
    [| | now rewrite map_id].
  - intros owner_id gu. destruct (dict_get owner_id users); [| intros []].
    intros [<- | []]. reflexivity.
  - intros owner_id. destruct (dict_get owner_id users); cbn; lia.
Qed.
End BuiltOnce.

Lemma identified_owners_once (users : dict User) (groups : dict Group)
    (assignments : Assignments) (group_id : string) (group_owner_ids : list string) :
  dict_get group_id (_identify_group_owners users groups assignments) = Some group_owner_ids ->
  NoDup group_owner_ids.
Proof.
  intros Hget. apply dict_get_In, identify_group_owners_In in Hget.
  destruct Hget as (_ & accounts & _ & ->). apply NoDup_nodup.
Qed.

(** X17.  No user is listed twice among the root users, no group twice among
    the groups, and no user twice among the owners of a group, whatever the
    directory lists and whatever the filter. *)
Theorem listed_once (role_matches : string -> list string -> bool)
    (user_list : option (list ApiUser)) (group_list : option (list ApiGroup))
    (list_group_memberships : string -> option (list ApiMembership))
    (sso_admin_client : SsoAdmin)
    (role_filter : option string) (include_groups include_assignments : bool) :
  NoDup (map root_user_id
           (root_users (get_users_from_directory role_matches user_list group_list
                          list_group_memberships sso_admin_client role_filter
                          include_groups include_assignments)))
  /\ NoDup (map ge_group_id
              (groups_of (get_users_from_directory role_matches user_list group_list
                            list_group_memberships sso_admin_client role_filter
                            include_groups include_assignments)))
  /\ forall ge,
       In ge (groups_of (get_users_from_directory role_matches user_list group_list
                           list_group_memberships sso_admin_client role_filter
                           include_groups include_assignments)) ->
       NoDup (map gu_user_id (ge_owners ge)).
Proof.
  unfold get_users_from_directory, get_users_hierarchy.
  set (users := _fetch_sso_users user_list).
  set (groups := if include_groups
                 then _fetch_sso_groups list_group_memberships group_list else []).
  set (assignments := if include_assignments
                      then _fetch_sso_assignments sso_admin_client else no_assignments).
  set (owners := if include_groups
                 then _identify_group_owners users groups assignments else []).
  assert (Husers : NoDup (dict_keys users)) by apply fetched_users_keys.
  assert (Hgroups : NoDup (dict_keys groups)).
  { subst groups. destruct include_groups; [apply fetched_groups_nodup | constructor]. }
  assert (Hroots := @built_roots_once users groups assignments owners Husers).
  assert (Hbuilt := @built_groups_once users groups assignments owners Hgroups).
  assert (Howners : forall ge,
             In ge (groups_of (_build_user_hierarchy users groups assignments owners)) ->
             NoDup (map gu_user_id (ge_owners ge))).
  { intros ge Hge. apply in_groups_of in Hge. destruct Hge as (group & os & _ & Hos & ->).
    apply group_owners_once. subst owners.
    destruct include_groups; [| discriminate].
    eapply identified_owners_once. exact Hos. }
  split; [| split].
  - unfold apply_role_filter. destruct role_filter as [wanted |]; [| exact Hroots].
    destruct (truthy (Some wanted)); [| exact Hroots].
    cbn [root_users]. now apply nodup_map_filter.
  - unfold apply_role_filter. destruct role_filter as [wanted |]; [| exact Hbuilt].
    destruct (truthy (Some wanted)); [| exact Hbuilt].
    cbn [groups_of]. now apply nodup_map_filter.
  - intros ge Hge. apply role_filter_groups in Hge. now apply Howners.
Qed.

(** X18.  Without groups, nothing is returned under ["groups"] and every fetched
    user is a root user. *)
Theorem without_groups_all_are_roots (role_matches : string -> list string -> bool)
    (user_list : option (list ApiUser)) (fetched_groups : dict Group)
    (fetched_assignments : Assignments) (role_filter : option string)
    (include_assignments : bool) :
  groups_of (get_users_hierarchy role_matches user_list fetched_groups
               fetched_assignments role_filter false include_assignments) = []
  /\ Permutation
       (map root_user_id
          (root_users (get_users_hierarchy role_matches user_list fetched_groups
                         fetched_assignments None false include_assignments)))
       (dict_keys (_fetch_sso_users user_list)).
Proof.
  unfold get_users_hierarchy. split.
  - unfold apply_role_filter, _build_user_hierarchy. cbn [flat_map sorted groups_of filter].
    destruct role_filter as [wanted |]; [| reflexivity].
    now destruct (truthy (Some wanted)).
  - cbn [apply_role_filter]. unfold _build_user_hierarchy.
    cbn [dict_values map List.concat str_in existsb orb root_users].
    eapply Permutation_trans; [apply Permutation_map, sorted_perm |].
    unfold dict_keys. generalize (_fetch_sso_users user_list) as users.
    induction users as [| [uid user] users IH]; cbn [flat_map map app fst]; [constructor |].
    cbn [root_user_entry root_user_id]. constructor. exact IH.
Qed.

(** ** The order of the output *)

Lemma string_leb_trans (a b c : string) :
  String.leb a b = true -> String.leb b c = true -> String.leb a c = true.
Proof.
  unfold String.leb. intros Hab Hbc.
  destruct (String.compare a b) eqn:Eab; try discriminate;
    destruct (String.compare b c) eqn:Ebc; try discriminate.
  - apply String.compare_eq_iff in Eab, Ebc. subst.
    assert (E : String.compare c c = Eq) by now apply OrderedTypeEx.String_as_OT.cmp_eq.
    now rewrite E.
  - apply String.compare_eq_iff in Eab. subst. now rewrite Ebc.
  - apply String.compare_eq_iff in Ebc. subst. now rewrite Eab.
  - apply OrderedTypeEx.String_as_OT.cmp_lt in Eab, Ebc.
    pose proof (@OrderedTypeEx.String_as_OT.lt_trans a b c Eab Ebc) as Hac.
    apply OrderedTypeEx.String_as_OT.cmp_lt in Hac. unfold OrderedTypeEx.String_as_OT.cmp in Hac. now rewrite Hac.
Qed.

Section Ascending.
Variables (A : Type) (key : A -> string).

Lemma insert_sorted_ascending (x : A) (l : list A) :
  ascending key l -> ascending key (insert_sorted String.leb key x l).
Proof.
  induction l as [| y l IH]; intros Hl; cbn [insert_sorted ascending].
  - split; [intros ? [] | exact I].
  - destruct Hl as [Hy Hl].
    destruct (String.leb (key x) (key y)) eqn:Hxy; cbn [ascending].
    + split; [| now split].
      intros z [<- | Hz]; [exact Hxy |].
      eapply string_leb_trans; [exact Hxy | now apply Hy].
    + split; [| now apply IH].
      intros z Hz. apply (Permutation_in _ (insert_sorted_perm String.leb key x l)) in Hz.
      destruct Hz as [<- | Hz]; [| now apply Hy].
      destruct (String.leb_total (key x) (key y)) as [H | H]; [congruence | exact H].
Qed.

Lemma sorted_ascending (l : list A) : ascending key (sorted String.leb key l).
Proof.
  induction l as [| x l IH]; cbn [sorted]; [exact I | now apply insert_sorted_ascending].
Qed.

Lemma filter_ascending (p : A -> bool) (l : list A) :
  ascending key l -> ascending key (filter p l).
Proof.
  induction l as [| x l IH]; cbn [filter ascending]; [auto |].
  intros [Hx Hl]. destruct (p x); cbn [ascending]; [| now apply IH].
  split; [| now apply IH]. intros y Hy. apply filter_In in Hy. now apply Hx.
Qed.
End Ascending.

(** X19.  The root users come in ascending order of their display names, the
    groups in ascending order of their names, and the owners and the
    members of each group in ascending order of their display names,
    also after the role filter. *)
Theorem hierarchy_in_order (role_matches : string -> list string -> bool)
    (user_list : option (list ApiUser)) (fetched_groups : dict Group)
    (fetched_assignments : Assignments) (role_filter : option string)
    (include_groups include_assignments : bool) :
  ascending root_display_name
    (root_users (get_users_hierarchy role_matches user_list fetched_groups
                   fetched_assignments role_filter include_groups include_assignments))
  /\ ascending ge_group_name
       (groups_of (get_users_hierarchy role_matches user_list fetched_groups
                     fetched_assignments role_filter include_groups include_assignments))
  /\ forall ge,
       In ge (groups_of (get_users_hierarchy role_matches user_list fetched_groups
                           fetched_assignments role_filter include_groups
                           include_assignments)) ->
       ascending gu_display_name (ge_owners ge)
       /\ ascending gu_display_name (ge_members ge).
Proof.
  unfold get_users_hierarchy.
  set (users := _fetch_sso_users user_list).
  set (groups := if include_groups then fetched_groups else []).
  set (assignments := if include_assignments then fetched_assignments else no_assignments).
  set (owners := if include_groups
                 then _identify_group_owners users groups assignments else []).
  split; [| split].
  - unfold apply_role_filter.
    destruct role_filter as [wanted |]; [destruct (truthy (Some wanted)) |];
      cbn [root_users _build_user_hierarchy];
      try apply filter_ascending; apply sorted_ascending.
  - unfold apply_role_filter.
    destruct role_filter as [wanted |]; [destruct (truthy (Some wanted)) |];
      cbn [groups_of _build_user_hierarchy];
      try apply filter_ascending; apply sorted_ascending.
  - intros ge Hge. apply role_filter_groups, in_groups_of in Hge.
    destruct Hge as (group & os & _ & _ & ->). cbn [group_entry ge_owners ge_members].
    split; apply sorted_ascending.
Qed.

(* ===================================================================== *)
(** * Properties of the aggregated entries *)
(* ===================================================================== *)

Section CostKeys.
Variable num : Type.
Variable zero : num.
Variable add : num -> num -> num.

(** The currency of an account's entry, when there is one. *)
Lemma currency_step (pc : dict (CostData num)) (r : string * CostGroup num) (a : string) :
  option_map (@currency num) (dict_get a (add_record zero add pc r))
  = if String.eqb a (fst (Keys (snd r)))
    then Some (match dict_get a pc with
               | Some entry => currency entry
               | None => Unit (snd r)
               end)
    else option_map (@currency num) (dict_get a pc).
Proof.
  unfold add_record, add_group, dict_get_default.
  destruct (String.eqb_spec a (fst (Keys (snd r)))) as [-> | Hne].
  - rewrite dict_get_set_eq. cbn [option_map currency].
    now destruct (dict_get _ pc).
  - now rewrite dict_get_set_ne.
Qed.

Lemma currency_fold (a : string) (rs : list (string * CostGroup num)) :
  forall pc,
    option_map (@currency num) (dict_get a (fold_left (add_record zero add) rs pc))
    = match dict_get a pc with
      | Some entry => Some (currency entry)
      | None =>
          option_map (fun r => Unit (snd r))
            (find (fun r => String.eqb a (fst (Keys (snd r)))) rs)
      end.
Proof.
  induction rs as [| r rs IH]; intros pc; cbn [fold_left find].
  - now destruct (dict_get a pc).
  - rewrite IH. pose proof (currency_step pc r a) as Hstep.
    destruct (String.eqb a (fst (Keys (snd r)))).
    + destruct (dict_get a (add_record zero add pc r)) as [entry |]; [| discriminate].
      cbn [option_map] in Hstep |- *. injection Hstep as ->.
      now destruct (dict_get a pc).
    + destruct (dict_get a (add_record zero add pc r)) as [entry |],
               (dict_get a pc) as [entry' |]; cbn [option_map] in Hstep; congruence.
Qed.

(** X23.  An account has an entry exactly when some record names it, and the
    currency of the entry is the unit of the first record that does: the
    units of the later records are not looked at. *)
Theorem processed_accounts (raw_data : list (ResultByTime num)) (account_id : string) :
  (dict_mem account_id (_process_cost_data zero add raw_data) = true <->
   exists record,
     In record (records_of raw_data) /\ fst (Keys (snd record)) = account_id)
  /\ option_map (@currency num) (dict_get account_id (_process_cost_data zero add raw_data))
     = option_map (fun record => Unit (snd record))
         (find (fun record => String.eqb account_id (fst (Keys (snd record))))
               (records_of raw_data)).
Proof.
  assert (Hcur := currency_fold account_id (records_of raw_data) []).
  rewrite <- process_as_records in Hcur. cbn [dict_get] in Hcur.
  split; [| exact Hcur].
  unfold dict_mem.
  destruct (dict_get account_id (_process_cost_data zero add raw_data)) as [entry |];
    cbn [option_map] in Hcur.
  - split; [intros _ | reflexivity].
    destruct (find _ (records_of raw_data)) as [record |] eqn:Hfind; [| discriminate].
    apply find_some in Hfind. destruct Hfind as [Hin Heq].
    apply String.eqb_eq in Heq. now exists record.
  - split; [discriminate |]. intros (record & Hin & Hacc).
    destruct (find _ (records_of raw_data)) as [found |] eqn:Hfind; [discriminate |].
    apply (find_none _ _ Hfind) in Hin. rewrite <- Hacc, String.eqb_refl in Hin.
    discriminate.
Qed.
End CostKeys.

(* ===================================================================== *)
(** * Properties of the budget counts *)
(* ===================================================================== *)

Lemma analyze_fold_running (budgets : dict float) (costs : dict (CostData float)) :
  forall acc,
    let final := fold_left (analyze_step budgets) costs acc in
    let analysed := map (fun item => analyze_project budgets (fst item) (snd item)) costs in
    run_overbudget final = run_overbudget acc ++ filter is_overbudget analysed
    /\ run_overbudget_count final
       = run_overbudget_count acc + List.length (filter is_overbudget analysed)
    /\ run_total_projects final = run_total_projects acc + List.length costs
    /\ run_total_cost final = fold_left PrimFloat.add (map actual_cost analysed)
                                (run_total_cost acc)
    /\ run_total_budget final = fold_left PrimFloat.add (map budget analysed)
                                  (run_total_budget acc).
Proof.
  induction costs as [| item costs IH]; intros acc; cbn zeta.
  - cbn [fold_left map filter List.length]. rewrite app_nil_r. repeat split; lia.
  - cbn [fold_left map filter].
    destruct (IH (analyze_step budgets acc item)) as (Ho & Hc & Hp & Htc & Htb).
    rewrite Ho, Hc, Hp, Htc, Htb. clear.
    unfold analyze_step, is_overbudget.
    cbn [run_overbudget run_overbudget_count run_total_projects run_total_cost
         run_total_budget fst snd].
    destruct (String.eqb (budget_status (analyze_project budgets (fst item) (snd item)))
                         "overbudget");
      cbn [List.length fold_left]; rewrite <- ?app_assoc; cbn [app];
      repeat split; lia.
Qed.

Lemma overbudget_list_length (costs : dict (CostData float)) (budgets : dict float) :
  overbudget_projects (_analyze_project_budgets costs budgets)
  = filter is_overbudget (projects (_analyze_project_budgets costs budgets))
  /\ summary_overbudget_count (summary (_analyze_project_budgets costs budgets))
     = List.length (overbudget_projects (_analyze_project_budgets costs budgets)).
Proof.
  pose proof (analyze_fold_running budgets costs (mkRunning [] [] 0 0 0 0)) as H.
  cbn zeta in H. destruct H as (Ho & Hc & _).
  cbn [run_overbudget run_overbudget_count app Nat.add] in Ho, Hc.
  rewrite analysis_projects. unfold _analyze_project_budgets.
  cbn [overbudget_projects summary summary_overbudget_count].
  split; [exact Ho | now rewrite Ho].
Qed.

(** X24.  The overbudget list holds, in order, the entries of the project list
    whose status is ["overbudget"]; the summary counts them, and counts one
    project per account with cost data. *)
Theorem overbudget_projects_counted (costs : dict (CostData float)) (budgets : dict float) :
  overbudget_projects (_analyze_project_budgets costs budgets)
  = filter is_overbudget (projects (_analyze_project_budgets costs budgets))
  /\ summary_overbudget_count (summary (_analyze_project_budgets costs budgets))
     = List.length (overbudget_projects (_analyze_project_budgets costs budgets))
  /\ summary_total_projects (summary (_analyze_project_budgets costs budgets))
     = List.length (dict_keys costs)
  /\ forall p,
       In p (overbudget_projects (_analyze_project_budgets costs budgets)) ->
       (budget p <? actual_cost p)%float = true /\ (0 <? budget p)%float = true.
Proof.
  destruct (overbudget_list_length costs budgets) as [Hlist Hcount].
  split; [exact Hlist |]. split; [exact Hcount |]. split.
  - pose proof (analyze_fold_running budgets costs (mkRunning [] [] 0 0 0 0)) as H.
    cbn zeta in H. destruct H as (_ & _ & Hp & _). cbn [run_total_projects Nat.add] in Hp.
    unfold _analyze_project_budgets, dict_keys. cbn [summary summary_total_projects].
    now rewrite length_map.
  - intros p Hp'. rewrite Hlist in Hp'. apply filter_In in Hp'. destruct Hp' as [Hin Hover].
    apply analysis_projects_in in Hin. destruct Hin as (cost_data & _ & Heq).
    unfold is_overbudget in Hover. rewrite Heq in Hover |- *.
    cbn [analyze_project budget_status budget actual_cost] in *.
    match type of Hover with
    | context [if ?c then _ else _] => destruct c eqn:Hcond; [| discriminate]
    end.
    now apply andb_true_iff in Hcond.
Qed.

(** X26.  The summary and the institution totals of one [check_budget]
    answer report the same total cost and the same total budget where
    [sum] adds from the left, as the summary's own accumulation does; where
    [sum] is compensated they can differ: for the costs 450.71, 11.1708 and
    354.8342 the summary reports 816.71 and the institution totals
    816.72. *)
Theorem totals_agree_left_to_right :
  (forall costs budgets,
      summary_total_cost (summary (_analyze_project_budgets costs budgets))
      = inst_total_cost (institution_totals LeftToRight costs budgets)
      /\ summary_total_budget (summary (_analyze_project_budgets costs budgets))
         = inst_total_budget (institution_totals LeftToRight costs budgets))
  /\ summary_total_cost (summary (_analyze_project_budgets three_accounts []))
     = 0x1.985ae147ae148p+9%float
  /\ inst_total_cost (institution_totals Compensated three_accounts [])
     = 0x1.985c28f5c28f6p+9%float
  /\ summary_total_cost (summary (_analyze_project_budgets three_accounts []))
     <> inst_total_cost (institution_totals Compensated three_accounts []).
Proof.
  split; [| split; [vm_compute; reflexivity | split; [vm_compute; reflexivity |]]].
  - intros costs budgets.
    pose proof (analyze_fold_running budgets costs (mkRunning [] [] 0 0 0 0)) as H.
    cbn zeta in H. destruct H as (_ & _ & _ & Htc & Htb).
    cbn [run_total_cost run_total_budget] in Htc, Htb.
    unfold institution_totals, _calculate_institution_costs.
    cbn [inst_total_cost inst_total_budget]. rewrite analysis_projects.
    unfold _analyze_project_budgets. cbn [summary summary_total_cost summary_total_budget].
    rewrite Htc, Htb. unfold py_sum, sum_left_to_right, dict_values.
    split; [| reflexivity].
    do 2 f_equal. rewrite !map_map. apply map_ext. now intros [account_id cost_data].
  - intros H. apply (f_equal Prim2SF) in H. vm_compute in H. discriminate.
Qed.

Lemma firstn_In_sorted (A K : Type) (leb : K -> K -> bool) (key : A -> K)
    (n : nat) (l : list A) (x : A) :
  In x (firstn n (sorted leb key l)) -> In x l.
Proof.
  intros Hin. apply (sorted_In leb key).
  rewrite <- (firstn_skipn n (sorted leb key l)). apply in_or_app. now left.
Qed.

(** X25.  The breakdown of a project names at most five services, each a
    service of the account with its cost rounded; with five services or
    fewer, it names them all. *)
Theorem cost_breakdown_top_five (costs : dict (CostData float)) (budgets : dict float)
    (p : ProjectAnalysis) :
  In p (projects (_analyze_project_budgets costs budgets)) ->
  exists cost_data,
    In (project_id p, cost_data) costs
    /\ List.length (cost_breakdown p) = Nat.min 5 (List.length (services cost_data))
    /\ forall service cost,
         In (service, cost) (cost_breakdown p) ->
         exists unrounded,
           In (service, unrounded) (services cost_data) /\ cost = py_round2 unrounded.
Proof.
  intros Hin. apply analysis_projects_in in Hin. destruct Hin as (cost_data & Hin & ->).
  exists cost_data. cbn [analyze_project project_id cost_breakdown].
  split; [exact Hin |]. unfold rounded_breakdown, top_services. split.
  - rewrite length_map, length_firstn.
    now rewrite (Permutation_length (sorted_perm _ _ (services cost_data))).
  - intros service cost Hsc. apply in_map_iff in Hsc.
    destruct Hsc as ([s unrounded] & [= <- <-] & Htop).
    exists unrounded. split; [| reflexivity].
    eapply firstn_In_sorted. exact Htop.
Qed.

(* ===================================================================== *)
(** * Properties of the ARN fields *)
(* ===================================================================== *)

Lemma split_not_nil (sep : ascii) (s : string) : split sep s <> [].
Proof.
  destruct s as [| c s]; cbn [split]; [discriminate |].
  destruct (Ascii.eqb c sep); [discriminate |].
  destruct (split sep s); discriminate.
Qed.

Lemma split_length (sep : ascii) (s : string) :
  List.length (split sep s) = 1 + count_char sep s.
Proof.
  induction s as [| c s IH]; cbn [split count_char]; [reflexivity |].
  destruct (Ascii.eqb c sep); cbn [List.length]; [now rewrite IH |].
  pose proof (split_not_nil sep s) as Hne.
  destruct (split sep s) as [| part parts]; [contradiction |].
  cbn [List.length] in *. lia.
Qed.

Lemma split_no_separator (sep : ascii) (s : string) :
  count_char sep s = 0 -> split sep s = [s].
Proof.
  induction s as [| c s IH]; cbn [split count_char]; [reflexivity |].
  destruct (Ascii.eqb c sep); [discriminate |]. cbn [Nat.add].
  intros Hs. now rewrite (IH Hs).
Qed.

Lemma split_append (sep : ascii) (part rest : string) :
  count_char sep part = 0 ->
  split sep (part ++ String sep rest) = part :: split sep rest.
Proof.
  induction part as [| c part IH]; cbn [append split count_char].
  - now rewrite Ascii.eqb_refl.
  - destruct (Ascii.eqb c sep); [discriminate |]. cbn [Nat.add].
    intros Hs. now rewrite (IH Hs).
Qed.

(** Splitting undoes joining, for pieces without the separator. *)
Lemma split_join (parts : list string) :
  parts <> [] ->
  Forall (fun part => count_char ":" part = 0) parts ->
  split ":" (join ":" parts) = parts.
Proof.
  induction parts as [| part parts IH]; intros Hne Hall; [contradiction |].
  inversion Hall as [| ? ? Hpart Hparts]; subst.
  destruct parts as [| next parts].
  - now apply split_no_separator.
  - change (join ":" (part :: next :: parts))
      with (part ++ String ":" (join ":" (next :: parts)))%string.
    rewrite split_append by exact Hpart.
    f_equal. apply IH; [discriminate | exact Hparts].
Qed.

(** X20.  An ARN is refused exactly when it has fewer than five colons.  From
    an ARN of six or more fields, the service, the region and the resource
    id are the third, the fourth and the sixth field: a resource that is
    written with a colon is cut at that colon. *)
Theorem arn_fields_read (resource_arn : string) :
  (arn_fields resource_arn = None <-> count_char ":" resource_arn < 5)
  /\ forall parts,
       resource_arn = join ":" parts ->
       6 <= List.length parts ->
       Forall (fun part => count_char ":" part = 0) parts ->
       arn_fields resource_arn = Some (nth 2 parts "", nth 3 parts "", nth 5 parts "").
Proof.
  unfold arn_fields. cbn zeta. split.
  - rewrite split_length.
    destruct (Nat.ltb_spec (1 + count_char ":" resource_arn) 6); split;
      try reflexivity; try discriminate; lia.
  - intros parts -> Hlen Hall.
    rewrite split_join; [| intros ->; cbn in Hlen; lia | exact Hall].
    destruct (Nat.ltb_spec (List.length parts) 6); [lia | reflexivity].
Qed.

(* ===================================================================== *)
(** * Properties of the user lookup *)
(* ===================================================================== *)

Lemma contains_empty (hay : string) : contains "" hay = true.
Proof. now destruct hay. Qed.

Section FindUserFacts.
Variable lower : string -> string.
Hypothesis lower_empty : lower "" = "".

(** X28.  An empty identifier identifies every user, so the search answers with
    the first user that the directory lists. *)
Theorem empty_identifier_finds_first (user : ApiUser) (others : list ApiUser) :
  _find_user_by_identifier lower (Some (user :: others)) ""
  = Some (lookup_entry user).
Proof.
  unfold _find_user_by_identifier, identifies. cbn [find].
  now rewrite lower_empty, contains_empty.
Qed.
End FindUserFacts.

(* ===================================================================== *)
(** * Properties of the health check *)
(* ===================================================================== *)

Lemma dict_set_length (V : Type) (d : dict V) (k : string) (v : V) :
  List.length d <= List.length (dict_set k v d).
Proof.
  induction d as [| [k' v'] d IH]; cbn [dict_set List.length]; [lia |].
  destruct (String.eqb k k'); cbn [List.length]; lia.
Qed.

Section HealthFacts.
Variable boto3_ok : string -> string -> string -> string -> bool.
Variable describe_organization : Client -> option string.
Variable store : CredentialStore.

Lemma get_aws_client_grows st service institution region res st' :
  get_aws_client boto3_ok store st service institution region = (res, st') ->
  List.length (aws_clients_cache st) <= List.length (aws_clients_cache st').
Proof.
  intros Hcall. destruct (get_aws_client_cases _ _ _ _ _ _ Hcall)
    as [-> | (c & _ & _ & _ & ->)]; [lia |].
  cbn [aws_clients_cache]. apply dict_set_length.
Qed.

(** Whether a client can be had for an institution is not changed by a
    call for any institution. *)
Lemma has_client_stable st institution res st' (institution_name : string) :
  get_aws_client boto3_ok store st "organizations" institution "us-east-1" = (res, st') ->
  has_client boto3_ok store st' institution_name
  = has_client boto3_ok store st institution_name.
Proof.
  intros Hcall.
  destruct (get_aws_client_cases _ _ _ _ _ _ Hcall)
    as [-> | (c & Hmiss & _ & -> & ->)]; [reflexivity |].
  unfold has_client, get_aws_client. cbn [aws_clients_cache next_client_id].
  destruct (String.eqb_spec (cache_key "organizations" institution_name "us-east-1")
                            (cache_key "organizations" institution "us-east-1")) as [E | Hne].
  - apply cache_key_institution in E. subst institution_name.
    rewrite dict_get_set_eq, Hmiss. cbn [fst].
    unfold get_aws_client in Hcall. rewrite Hmiss in Hcall.
    destruct (get_institution_credentials store institution) as [credentials |];
      [| discriminate].
    destruct (is_empty credentials); [discriminate |].
    destruct (dict_get "aws_access_key_id" credentials) as [ak |]; [| discriminate].
    destruct (dict_get "aws_secret_access_key" credentials) as [sk |]; [| discriminate].
    destruct (boto3_ok "organizations" ak sk "us-east-1"); [reflexivity | discriminate].
  - rewrite dict_get_set_ne by exact Hne.
    destruct (dict_get (cache_key "organizations" institution_name "us-east-1")
                       (aws_clients_cache st)); [reflexivity |].
    destruct (get_institution_credentials store institution_name) as [credentials |];
      [| reflexivity].
    destruct (is_empty credentials); [reflexivity |].
    destruct (dict_get "aws_access_key_id" credentials) as [ak |]; [| reflexivity].
    destruct (dict_get "aws_secret_access_key" credentials) as [sk |]; [| reflexivity].
    now destruct (boto3_ok "organizations" ak sk "us-east-1").
Qed.

Lemma check_institution_fold (names : list string) :
  forall status st,
    let checked :=
      fold_left (check_institution boto3_ok describe_organization store) names (status, st) in
    (forall institution_name,
        In institution_name (dict_keys (fst checked)) <->
        In institution_name (dict_keys status)
        \/ (In institution_name names
            /\ has_client boto3_ok store st institution_name = true))
    /\ List.length (aws_clients_cache st) <= List.length (aws_clients_cache (snd checked)).
Proof.
  induction names as [| name names IH]; intros status st; cbn zeta; cbn [fold_left].
  - cbn [fst snd]. split; [| lia]. intros n. split; [now left | intros [H | [[] _]]; exact H].
  - destruct (get_aws_client boto3_ok store st "organizations" name "us-east-1")
      as [res st'] eqn:Hcall.
    pose proof (get_aws_client_grows _ _ _ _ Hcall) as Hgrow.
    assert (Hstable := fun n => @has_client_stable _ _ _ _ n Hcall).
    assert (Hhas : has_client boto3_ok store st name
                   = match res with Some _ => true | None => false end).
    { unfold has_client. now rewrite Hcall. }
    assert (Hstep :
      check_institution boto3_ok describe_organization store (status, st) name
      = match res with
        | Some orgs_client =>
            (dict_set name
               (match describe_organization orgs_client with
                | None => "connected"
                | Some e => ("error: " ++ e)%string
                end) status, st')
        | None => (status, st')
        end).
    { unfold check_institution. cbn [fst snd]. rewrite Hcall. now destruct res. }
    rewrite Hstep. clear Hstep.
    destruct res as [orgs_client |].
    + specialize (IH (dict_set name
                        (match describe_organization orgs_client with
                         | None => "connected"
                         | Some e => ("error: " ++ e)%string
                         end) status) st').
      cbn zeta in IH. destruct IH as [IHkeys IHlen]. split; [| lia].
      intros n. rewrite IHkeys, dict_keys_set, Hstable. split.
      * intros [[-> | Hs] | [Hin Hc]]; [right | now left | right]; split; auto.
        -- now left.
        -- now right.
      * intros [Hs | [[<- | Hin] Hc]]; [left; now right | left; now left | right; now split].
    + specialize (IH status st'). cbn zeta in IH. destruct IH as [IHkeys IHlen].
      split; [| lia]. intros n. rewrite IHkeys, Hstable. split.
      * intros [Hs | [Hin Hc]]; [now left | right; split; [now right | exact Hc]].
      * intros [Hs | [[<- | Hin] Hc]]; [now left | congruence | right; now split].
Qed.

(** X7.  The health check gives a status to the available institutions for
    which a client can be had, and to no other: an institution whose client
    cannot be made is left out of ["institution_status"], not reported as an
    error.  It counts the available institutions, and the cache does not
    shrink. *)
Theorem health_check_reports (st : ClientState) :
  let health := fst (health_check boto3_ok describe_organization store st) in
  (forall institution_name,
      In institution_name (dict_keys (institution_status health)) <->
      In institution_name (get_available_institutions store)
      /\ has_client boto3_ok store st institution_name = true)
  /\ available_institutions health = get_available_institutions store
  /\ institution_count health = List.length (get_available_institutions store)
  /\ List.length (aws_clients_cache st) <= aws_clients_cached health.
Proof.
  unfold health_check. cbn zeta.
  cbn [fst snd institution_status available_institutions institution_count
       aws_clients_cached].
  destruct store as [d |] eqn:Hstore.
  - rewrite <- Hstore.
    destruct (check_institution_fold (get_available_institutions store) [] st)
      as [Hkeys Hlen]. cbn zeta in Hkeys, Hlen.
    split; [| split; [reflexivity | split; [reflexivity | exact Hlen]]].
    intros n. rewrite Hkeys. cbn [dict_keys map]. split; [intros [[] | H]; exact H | now right].
  - cbn [get_available_institutions fst snd dict_keys map List.length].
    split; [| split; [reflexivity | split; [reflexivity | lia]]].
    intros n. split; [intros [] | intros [[] _]].
Qed.
End HealthFacts.

(* ===================================================================== *)
(** * Properties of the analysis without budgets *)
(* ===================================================================== *)

Lemma fold_add_zeros (l : list ProjectAnalysis) :
  Forall (fun p => budget p = 0%float) l ->
  fold_left PrimFloat.add (map budget l) 0%float = 0%float.
Proof.
  induction l as [| p l IH]; intros Hall; cbn [map fold_left]; [reflexivity |].
  inversion Hall as [| ? ? Hp Hl]; subst. rewrite Hp.
  change (0 + 0)%float with 0%float. now apply IH.
Qed.

Lemma filter_none_overbudget (l : list ProjectAnalysis) :
  (forall p, In p l -> budget_status p = "within_budget") ->
  filter is_overbudget l = [].
Proof.
  induction l as [| p l IH]; intros Hall; [reflexivity |].
  cbn [filter]. unfold is_overbudget at 1. rewrite (Hall p (or_introl eq_refl)).
  cbn. apply IH. intros q Hq. apply Hall. now right.
Qed.

(** X27.  With no budgets, as when [check_budget] is called with
    [budget_check=False], every project has budget 0, is within budget with
    a utilization of 0, and nothing is reported over budget. *)
Theorem no_budgets_nothing_overbudget (costs : dict (CostData float)) :
  (forall p,
      In p (projects (_analyze_project_budgets costs [])) ->
      budget p = 0%float /\ budget_status p = "within_budget"
      /\ budget_utilization p = 0%float)
  /\ overbudget_projects (_analyze_project_budgets costs []) = []
  /\ summary_overbudget_count (summary (_analyze_project_budgets costs [])) = 0
  /\ summary_total_budget (summary (_analyze_project_budgets costs [])) = 0%float
  /\ summary_budget_utilization (summary (_analyze_project_budgets costs [])) = 0%float.
Proof.
  assert (Hproj : forall p,
             In p (projects (_analyze_project_budgets costs [])) ->
             budget p = 0%float /\ budget_status p = "within_budget"
             /\ budget_utilization p = 0%float).
  { intros p Hin. apply analysis_projects_in in Hin. destruct Hin as (cost_data & _ & ->).
    cbn [analyze_project budget budget_status budget_utilization dict_get_default dict_get].
    change (0 <? 0)%float with false. rewrite andb_false_r.
    split; [reflexivity | split; [reflexivity | vm_compute; reflexivity]]. }
  destruct (overbudget_list_length costs []) as [Hlist Hcount].
  assert (Hnone : overbudget_projects (_analyze_project_budgets costs []) = []).
  { rewrite Hlist. apply filter_none_overbudget. intros p Hp. now apply Hproj. }
  split; [exact Hproj |]. split; [exact Hnone |].
  split; [now rewrite Hcount, Hnone |].
  pose proof (analyze_fold_running [] costs (mkRunning [] [] 0 0 0 0)) as H.
  cbn zeta in H. destruct H as (_ & _ & _ & _ & Htb). cbn [run_total_budget] in Htb.
  assert (Hzero : run_total_budget
                    (fold_left (analyze_step []) costs (mkRunning [] [] 0 0 0 0))
                  = 0%float).
  { rewrite Htb. apply fold_add_zeros. apply Forall_forall. intros p Hp.
    rewrite <- analysis_projects in Hp. now apply Hproj. }
  unfold _analyze_project_budgets.
  cbn [summary summary_total_budget summary_budget_utilization].
  rewrite Hzero. split; vm_compute; reflexivity.
Qed.

(* ===================================================================== *)
(** * Examples *)
(* ===================================================================== *)

(** Example for X3.  The second call for Cost Explorer of the one institution returns the client of the first. *)
Lemma get_aws_client_idempotent_witness :
  get_aws_client strict_boto3 one_institution initial_clients "ce" "grnet" "us-east-1"
  = (Some ce_client, one_cached)
  /\ get_aws_client strict_boto3 one_institution one_cached "ce" "grnet" "us-east-1"
     = (Some ce_client, one_cached).
Proof.
  assert (Hfirst : get_aws_client strict_boto3 one_institution initial_clients
                     "ce" "grnet" "us-east-1" = (Some ce_client, one_cached))
    by reflexivity.
  split; [exact Hfirst |].
  exact (get_aws_client_idempotent strict_boto3 one_institution initial_clients
           "ce" "grnet" "us-east-1" Hfirst).
Defined.

(** Example for X4.  The clients of two institutions, made one after the other, are two instances. *)
Lemma get_aws_client_per_institution_witness :
  exists c1 st1 c2 st2,
    get_aws_client strict_boto3 two_institutions initial_clients "ce" "a_b" "us-east-1"
    = (Some c1, st1)
    /\ get_aws_client strict_boto3 two_institutions st1 "ce" "a" "us-east-1" = (Some c2, st2)
    /\ client_id c1 <> client_id c2.
Proof.
  do 4 eexists. split; [reflexivity |]. split; [reflexivity |].
  eapply (@get_aws_client_per_institution strict_boto3 two_institutions initial_clients
            "ce" "us-east-1" "a_b" "a");
    [exact initial_clients_fresh | discriminate | reflexivity | reflexivity].
Defined.

(** Example for X5.  A region that the constructor refuses: no client, and the cache as it was. *)
Lemma get_aws_client_failure_not_cached_witness :
  fst (get_aws_client strict_boto3 one_institution one_cached "ce" "grnet" "eu_west_1") = None
  /\ snd (get_aws_client strict_boto3 one_institution one_cached "ce" "grnet" "eu_west_1")
     = one_cached.
Proof.
  split; [reflexivity |].
  apply (@get_aws_client_failure_not_cached strict_boto3 one_institution one_cached
           "ce" "grnet" "eu_west_1").
  reflexivity.
Defined.

(** Example for X6.  An institution that is not configured: no client, and the cache as it was. *)
Lemma get_aws_client_unknown_institution_witness :
  validate_institution one_institution "nowhere" = false
  /\ get_aws_client strict_boto3 one_institution one_cached "ce" "nowhere" "us-east-1"
     = (None, one_cached).
Proof.
  split; [reflexivity |].
  exact (@get_aws_client_unknown_institution strict_boto3 one_institution one_cached
           "ce" "nowhere" "us-east-1" eq_refl).
Defined.

(** Example for X2.  The one institution after a successful start. *)
Lemma initialized_client_uses_own_credentials_witness :
  initialize_aws_credentials one_loaded = (one_institution, true)
  /\ exists credentials access_key secret_key,
       get_institution_credentials one_institution "grnet" = Some credentials
       /\ dict_get "aws_access_key_id" credentials = Some access_key
       /\ dict_get "aws_secret_access_key" credentials = Some secret_key
       /\ access_key <> "" /\ secret_key <> ""
       /\ get_aws_client strict_boto3 one_institution initial_clients "ce" "grnet" "us-east-1"
          = if strict_boto3 "ce" access_key secret_key "us-east-1"
            then (Some (mkClient 0 "ce" access_key secret_key "us-east-1"),
                  mkClientState
                    (dict_set (cache_key "ce" "grnet" "us-east-1")
                       (mkClient 0 "ce" access_key secret_key "us-east-1") [])
                    1)
            else (None, initial_clients).
Proof.
  split; [reflexivity |].
  exact (@initialized_client_uses_own_credentials strict_boto3 one_loaded one_institution
           initial_clients "ce" "grnet" "us-east-1" eq_refl eq_refl eq_refl).
Defined.

(** Example for X12.  The path of a unit one level down has two names. *)
Lemma ou_path_follows_parents_witness :
  all_ous_of "r-root" demo_units
  = [mkOu "ou-1" "Dev" 0 "r-root"; mkOu "ou-2" "Web" 1 "ou-1"]
  /\ exists ou_path,
       ou_path_of 2 "r-root" (all_ous_of "r-root" demo_units) (mkOu "ou-2" "Web" 1 "ou-1")
       = Some ou_path
       /\ List.length ou_path = 2
       /\ (ou_ParentId (mkOu "ou-2" "Web" 1 "ou-1") = "r-root" -> ou_path = ["Web"])
       /\ (forall p,
              In p (all_ous_of "r-root" demo_units) ->
              ou_Id p = "ou-1" ->
              exists parent_path,
                ou_path_of 2 "r-root" (all_ous_of "r-root" demo_units) p = Some parent_path
                /\ ou_path = parent_path ++ ["Web"]).
Proof.
  split; [reflexivity |].
  refine (@ou_path_follows_parents "r-root" demo_units _ _ _
            (mkOu "ou-2" "Web" 1 "ou-1") 2 _ _).
  - cbn. repeat constructor; cbn; intuition discriminate.
  - cbn. intuition discriminate.
  - cbn. intuition discriminate.
  - cbn. right. left. reflexivity.
  - cbn. apply Nat.lt_succ_diag_r.
Defined.

(** Example for X9.  The access key of a nested dict is held before and not after. *)
Lemma sanitize_redacts_witness :
  holds demo_response "access_key" (JStr "AKIA-G")
  /\ holds (sanitize_aws_response (fun s => s) demo_response) "access_key" REDACTED
  /\ ~ holds (sanitize_aws_response (fun s => s) demo_response) "access_key" (JStr "AKIA-G").
Proof.
  split; [| split].
  - eapply holds_in_dict; [right; left; reflexivity |].
    apply holds_here. left. reflexivity.
  - eapply holds_in_dict; [right; left; reflexivity |].
    apply holds_here. left. reflexivity.
  - intros Hheld.
    pose proof (@sanitize_redacts (fun s => s) demo_response "access_key" (JStr "AKIA-G")
                  eq_refl Hheld) as Hmarker.
    discriminate Hmarker.
Defined.

(** Example for X10.  An access key in a list inside a list comes through. *)
Lemma sanitize_skips_nested_lists_witness :
  exists items' elements',
    sanitize_aws_response (fun s => s) (JDict demo_pages) = JDict items'
    /\ In ("Pages", JList elements') items'
    /\ In (JList [JDict [("access_key", JStr "AKIA-G")]]) elements'.
Proof.
  apply (@sanitize_skips_nested_lists (fun s => s) demo_pages "Pages"
           [JList [JDict [("access_key", JStr "AKIA-G")]]]
           [JDict [("access_key", JStr "AKIA-G")]]).
  - reflexivity.
  - left. reflexivity.
  - left. reflexivity.
Defined.

(** Example for X21.  On 2024-03-15 the month so far is accepted and a range that starts 366 days before is refused. *)
Lemma validate_date_range_by_days_witness :
  _validate_date_range (mkdate 2024 3 15) (mkdate 2024 3 1) (mkdate 2024 3 15) = Some true
  /\ _validate_date_range (mkdate 2024 3 15) (mkdate 2023 3 15) (mkdate 2024 3 15)
     = Some false.
Proof.
  assert (Ht : valid_date (mkdate 2024 3 15)) by (unfold valid_date; cbn; lia).
  assert (H1 : valid_date (mkdate 2024 3 1)) by (unfold valid_date; cbn; lia).
  assert (H2 : valid_date (mkdate 2023 3 15)) by (unfold valid_date; cbn; lia).
  assert (Hord : (365 < toordinal (mkdate 2024 3 15))%Z) by reflexivity.
  split.
  - apply (validate_date_range_by_days Ht H1 Ht Hord).
    vm_compute. intuition discriminate.
  - apply (validate_date_range_by_days Ht H2 Ht Hord).
    vm_compute. intros [_ Hdays]. apply Hdays. reflexivity.
Defined.

(** Example for X22.  The past month, on 2024-03-15. *)
Lemma shortcut_ranges_validate_witness :
  exists analysis_start analysis_end,
    _get_date_range (fun _ => None) (fun _ => None) (mkdate 2024 3 15)
      (Some "past_month") None None
    = Some (analysis_start, analysis_end)
    /\ _validate_date_range (mkdate 2024 3 15) analysis_start analysis_end = Some true.
Proof.
  assert (Ht : valid_date (mkdate 2024 3 15)) by (unfold valid_date; cbn; lia).
  exact (@shortcut_ranges_validate (fun _ => None) (fun _ => None) (mkdate 2024 3 15)
           (Some "past_month") None None Ht eq_refl eq_refl).
Defined.

(** Example for X25.  The one service of the one account. *)
Lemma cost_breakdown_top_five_witness :
  exists cost_data,
    In ("a", cost_data) third_spent
    /\ List.length
         (cost_breakdown
            (analyze_project budget_hundred "a" (cost_of 0x1.0aa9fbe76c8b4p+5%float)))
       = Nat.min 5 (List.length (services cost_data))
    /\ forall service cost,
         In (service, cost)
            (cost_breakdown
               (analyze_project budget_hundred "a" (cost_of 0x1.0aa9fbe76c8b4p+5%float))) ->
         exists unrounded,
           In (service, unrounded) (services cost_data) /\ cost = py_round2 unrounded.
Proof.
  apply (@cost_breakdown_top_five third_spent budget_hundred
           (analyze_project budget_hundred "a" (cost_of 0x1.0aa9fbe76c8b4p+5%float))).
  left. reflexivity.
Defined.

(** Example for X28.  The first user of the small directory, with the identity as [lower]. *)
Lemma empty_identifier_finds_first_witness :
  _find_user_by_identifier (fun s => s) demo_user_list ""
  = Some (mkFoundUser "u1" "Ada" "ada@example.org" "ada").
Proof.
  exact (@empty_identifier_finds_first (fun s => s) eq_refl
           (mkApiUser "u1" (Some "Ada") (Some "ada")
              [mkApiEmail (Some "ada@example.org") (Some true)])
           [mkApiUser "u2" (Some "Bob") (Some "bob") [];
            mkApiUser "u3" None (Some "cy") []]).
Defined.
